(** * Faculty subject allocation: the CSP engine and the scheduler

    A shallow embedding of [csp_solver.py] (class [CSPSolver]) and of
    [faculty_scheduler.py] (class [FacultyScheduler]), followed by the
    properties of the search, of the constraint predicates, of the
    preference score and of the direct construction.

    Conventions of the embedding:
    - a Python [dict] is an insertion-ordered association list with unique
      keys ([PyDict]): [d[k] = v] overwrites in place or appends, [del d[k]]
      removes the entry, iteration follows insertion order;
    - a Python [set] of integers is a duplicate-free list ([ListSet]); the
      code only tests membership in such sets or sums over them;
    - methods that mutate [self] take the object and return the new object;
    - a Python [float] is a binary64 primitive float;
    - [print] calls are not modelled. *)

From Stdlib Require Import String.
From Stdlib Require Import List ZArith Uint63 Floats Bool Lia Permutation ListSet
  Sorted.
Import ListNotations.

Set Implicit Arguments.
Open Scope Z_scope.

(** ** Decidable equality on keys *)

Class EqDec (A : Type) := eq_dec : forall x y : A, {x = y} + {x <> y}.

#[export] Instance Z_EqDec : EqDec Z := Z.eq_dec.
#[export] Instance string_EqDec : EqDec string := string_dec.
#[export] Instance prod_EqDec {A B} `{EqDec A} `{EqDec B} : EqDec (A * B).
Proof. intros [a b] [a' b']. destruct (eq_dec a a'), (eq_dec b b'); [left|right..]; congruence. Defined.

Definition eqb {A} `{EqDec A} (x y : A) : bool := if eq_dec x y then true else false.

(** [x in l] for a Python list or set. *)
Definition py_in {A} `{EqDec A} (x : A) (l : list A) : bool :=
  existsb (eqb x) l.

(** ** Python dictionaries *)

Module PyDict.
Section Dict.
Context {K V : Type} `{EqDec K}.

Definition dict := list (K * V).

Definition empty : dict := [].

(** [d.get(k)] *)
Fixpoint get (k : K) (d : dict) : option V :=
  match d with
  | [] => None
  | (k', v) :: d' => if eq_dec k k' then Some v else get k d'
  end.

(** [k in d] *)
Definition mem (k : K) (d : dict) : bool :=
  match get k d with Some _ => true | None => false end.

(** [d[k] = v] *)
Fixpoint set (k : K) (v : V) (d : dict) : dict :=
  match d with
  | [] => [(k, v)]
  | (k', v') :: d' =>
      if eq_dec k k' then (k', v) :: d' else (k', v') :: set k v d'
  end.

(** [del d[k]] *)
Fixpoint del (k : K) (d : dict) : dict :=
  match d with
  | [] => []
  | (k', v') :: d' => if eq_dec k k' then d' else (k', v') :: del k d'
  end.

(** [d.keys()] and [d.items()] *)
Definition keys (d : dict) : list K := map fst d.
Definition items (d : dict) : list (K * V) := d.

(** [len(d)] *)
Definition len (d : dict) : nat := length d.
End Dict.
Arguments dict : clear implicits.
End PyDict.

Import PyDict(dict).

(** ** The data model *)

(** A CSP variable is [(subject_id, timeslot_id)], a value is
    [(faculty_id, classroom_id)]. *)
Definition variable : Type := Z * Z.
Definition value : Type := Z * Z.
Definition assignment_t : Type := dict variable value.

(** ** csp_solver.py *)

Module CSPSolver.

Record t := mk {
  variables : list variable;
  domains : dict variable (list value);
  constraints : list (assignment_t -> bool);
  assignment : assignment_t
}.

(** [__init__] *)
Definition init : t := mk [] PyDict.empty [] PyDict.empty.

Definition set_assignment (self : t) (a : assignment_t) : t :=
  mk (variables self) (domains self) (constraints self) a.

(** [add_variable]: no test of whether [variable] is already there. *)
Definition add_variable (self : t) (var : variable) (domain : list value) : t :=
  mk (variables self ++ [var]) (PyDict.set var domain (domains self))
     (constraints self) (assignment self).

Definition add_constraint (self : t) (constraint : assignment_t -> bool) : t :=
  mk (variables self) (domains self) (constraints self ++ [constraint])
     (assignment self).

(** [self.domains[var]]; every variable that [add_variable] registered has
    an entry (lemma [add_variable_registered]), the empty list stands for
    the [KeyError] of an unregistered one. *)
Definition domain_of (self : t) (var : variable) : list value :=
  match PyDict.get var (domains self) with
  | Some d => d
  | None => []
  end.

Definition is_consistent (self : t) (var : variable) (val : value)
    (a : assignment_t) : bool :=
  let test_assignment := PyDict.set var val a in
  forallb (fun constraint => constraint test_assignment) (constraints self).

(** [[v for v in self.variables if v not in self.assignment]] *)
Definition unassigned (self : t) : list variable :=
  filter (fun v => negb (PyDict.mem v (assignment self))) (variables self).

(** The local function [count_constraints] of
    [select_unassigned_variable]. *)
Definition count_constraints (unassigned : list variable) (var : variable) : Z :=
  fold_left
    (fun count other_var =>
       if negb (eqb other_var var)
          && ((fst var =? fst other_var) || (snd var =? snd other_var))
       then count + 1 else count)
    unassigned 0.

(** The sort key [(len(self.domains[var]), -count_constraints(var))]. *)
Definition select_key (self : t) (unassigned : list variable) (var : variable)
    : Z * Z :=
  (Z.of_nat (length (domain_of self var)), - count_constraints unassigned var).

(** Python's [<] on pairs. *)
Definition tuple_lt (x y : Z * Z) : bool :=
  (fst x <? fst y) || ((fst x =? fst y) && (snd x <? snd y)).

(** Python's [min(iterable, key=...)]: the first element whose key is
    minimal. *)
Definition py_min {A} (key : A -> Z * Z) (first : A) (rest : list A) : A :=
  fold_left (fun best x => if tuple_lt (key x) (key best) then x else best)
            rest first.

Definition select_unassigned_variable (self : t) : option variable :=
  match unassigned self with
  | [] => None
  | v :: rest =>
      Some (py_min (select_key self (unassigned self)) v rest)
  end.

Definition order_domain_values (self : t) (var : variable) : list value :=
  domain_of self var.

(** The loop of [forward_check] over [self.variables]; [wipeouts] only
    grows when [len(temp_assignment) == 11]. *)
Fixpoint forward_check_loop (self : t) (temp_assignment : assignment_t)
    (vars : list variable) (wipeouts : Z) : bool :=
  match vars with
  | [] => if wipeouts >? 0 then false else true
  | other_var :: rest =>
      if PyDict.mem other_var temp_assignment
      then forward_check_loop self temp_assignment rest wipeouts
      else
        let consistent_values :=
          existsb (fun other_value =>
                     is_consistent self other_var other_value temp_assignment)
                  (domain_of self other_var) in
        if consistent_values
        then forward_check_loop self temp_assignment rest wipeouts
        else
          let wipeouts' :=
            if Nat.eqb (PyDict.len temp_assignment) 11
            then wipeouts + 1 else wipeouts in
          if wipeouts' >? 5 then false
          else forward_check_loop self temp_assignment rest wipeouts'
  end.

Definition forward_check (self : t) (var : variable) (val : value) : bool :=
  let temp_assignment := PyDict.set var val (assignment self) in
  forward_check_loop self temp_assignment (variables self) 0.

(** The [for value in ordered_values] loop of [backtrack]; [rec] is the
    recursive call [self.backtrack()].  [None] at the outer level means
    that the recursion budget ran out; the inner option is the Python
    result ([None] = no solution). *)
Fixpoint try_values (rec : t -> option (t * option assignment_t))
    (var : variable) (values : list value) (self : t)
    : option (t * option assignment_t) :=
  match values with
  | [] => Some (self, None)
  | val :: rest =>
      if is_consistent self var val (assignment self)
         && forward_check self var val
      then
        let self1 := set_assignment self (PyDict.set var val (assignment self)) in
        match rec self1 with
        | None => None
        | Some (self2, Some result) => Some (self2, Some result)
        | Some (self2, None) =>
            try_values rec var rest
              (set_assignment self2 (PyDict.del var (assignment self2)))
        end
      else try_values rec var rest self
  end.

(** [backtrack]; [fuel] bounds the recursion depth. *)
Fixpoint backtrack (fuel : nat) (self : t) : option (t * option assignment_t) :=
  match fuel with
  | O => None
  | S fuel' =>
      if Nat.eqb (PyDict.len (assignment self)) (length (variables self))
      then Some (self, Some (assignment self))
      else
        match select_unassigned_variable self with
        | None => Some (self, None)
        | Some var =>
            try_values (backtrack fuel') var (order_domain_values self var) self
        end
  end.

(** [solve]: resets the assignment, then searches.  The depth of the
    recursion is at most the number of registered variables. *)
Definition solve (self : t) : option (t * option assignment_t) :=
  backtrack (S (length (variables self))) (set_assignment self PyDict.empty).

End CSPSolver.

(** ** Python's stable sort *)

(** [sorted(l, key=...)]: [before y x] says that [y]'s key is strictly
    smaller than [x]'s (strictly larger under [reverse=True]); elements that
    compare equal keep their order. *)
Section Sorting.
Context {A : Type} (before : A -> A -> bool).

Fixpoint insert_sorted (x : A) (l : list A) : list A :=
  match l with
  | [] => [x]
  | y :: l' => if before y x then y :: insert_sorted x l' else x :: y :: l'
  end.

Definition py_sorted (l : list A) : list A :=
  fold_right insert_sorted [] l.
End Sorting.

(** Python's [min] and [max] of two floats: the second argument is taken
    only when it is strictly smaller (larger). *)
Definition py_min2 (a b : float) : float := if (b <? a)%float then b else a.
Definition py_max2 (a b : float) : float := if (a <? b)%float then b else a.

(** The float of a Python [int]: the binary64 number nearest to it, ties
    to even, exact up to [2^53].  (For an absolute value of
    [2^1024 - 2^970] or more, where Python raises [OverflowError], the value
    here is an infinity.) *)
Definition float_of_int (z : Z) : float :=
  SF2Prim (binary_normalize prec emax z 0 false).

(** The literal [0.1], i.e. the binary64 number nearest to one tenth. *)
Definition one_tenth : float := 0x1.999999999999ap-4%float.

(** ** faculty_scheduler.py *)

Module FacultyScheduler.

(** The records of the four input tables ([id] is [f_id], [s_id], [c_id],
    [t_id]); the sub-fields are already lists, as [ExcelHandler] leaves
    them. *)
Record Faculty := mkFaculty {
  f_id : Z;
  f_name : string;
  qualified_subjects : list Z;
  max_hours : Z;
  day_preferences : list string;
  time_preferences : list string;
  preference_weight : float;
  consecutive_classes_preference : Z
}.

Record Subject := mkSubject {
  s_id : Z;
  s_name : string;
  hours : Z;
  lab_hours : Z
}.

Record Classroom := mkClassroom {
  c_id : Z;
  c_name : string;
  has_lab : bool
}.

Record Timeslot := mkTimeslot {
  t_id : Z;
  day : string;
  time : string;
  period : string
}.

(** One row of [self.schedule]. *)
Record Entry := mkEntry {
  faculty_id : Z;
  faculty_name : string;
  subject_id : Z;
  subject_name : string;
  entry_has_lab : bool;
  timeslot_id : Z;
  timeslot_day : string;
  timeslot_time : string;
  classroom_id : Z;
  classroom_name : string
}.

Record t := mk {
  faculty : list Faculty;
  subjects : list Subject;
  classrooms : list Classroom;
  timeslots : list Timeslot;
  solver : CSPSolver.t;
  schedule : list Entry;
  verbose : bool
}.

Definition set_solver (self : t) (s : CSPSolver.t) : t :=
  mk (faculty self) (subjects self) (classrooms self) (timeslots self)
     s (schedule self) (verbose self).

Definition set_schedule (self : t) (sch : list Entry) : t :=
  mk (faculty self) (subjects self) (classrooms self) (timeslots self)
     (solver self) sch (verbose self).

(** [next((x for x in table if x['id'] == i), None)] *)
Definition find_faculty (self : t) (i : Z) : option Faculty :=
  find (fun f => f_id f =? i) (faculty self).
Definition find_subject (self : t) (i : Z) : option Subject :=
  find (fun s => s_id s =? i) (subjects self).
Definition find_classroom (self : t) (i : Z) : option Classroom :=
  find (fun c => c_id c =? i) (classrooms self).
Definition find_timeslot (self : t) (i : Z) : option Timeslot :=
  find (fun ts => t_id ts =? i) (timeslots self).

(** *** The four constraints *)

(** First loop of [faculty_requirements_constraint]:
    [faculty_subjects[faculty_id].add(subject_id)]. *)
Definition faculty_subjects_step (faculty_subjects : dict Z (list Z))
    (item : variable * value) : dict Z (list Z) :=
  let subject_id := fst (fst item) in
  let faculty_id := fst (snd item) in
  let faculty_subjects1 :=
    if PyDict.mem faculty_id faculty_subjects then faculty_subjects
    else PyDict.set faculty_id (empty_set Z) faculty_subjects in
  match PyDict.get faculty_id faculty_subjects1 with
  | Some subject_ids =>
      PyDict.set faculty_id (set_add Z.eq_dec subject_id subject_ids)
                 faculty_subjects1
  | None => faculty_subjects1
  end.

Definition faculty_subjects_of (a : assignment_t) : dict Z (list Z) :=
  fold_left faculty_subjects_step (PyDict.items a) PyDict.empty.

(** [subject.get('hours', 0)] of the subject found by id, nothing added
    when there is none. *)
Definition subject_hours (self : t) (subject_id : Z) : Z :=
  match find_subject self subject_id with
  | Some subject => hours subject
  | None => 0
  end.

Definition sum_hours (self : t) (subject_ids : list Z) : Z :=
  fold_left (fun h subject_id => h + subject_hours self subject_id)
            subject_ids 0.

(** Second loop: [faculty_hours[faculty_id] = hours]. *)
Definition faculty_hours_of (self : t) (faculty_subjects : dict Z (list Z))
    : dict Z Z :=
  fold_left
    (fun faculty_hours item =>
       PyDict.set (fst item) (sum_hours self (snd item)) faculty_hours)
    (PyDict.items faculty_subjects) PyDict.empty.

Definition faculty_requirements_constraint (self : t) (a : assignment_t)
    : bool :=
  let faculty_hours := faculty_hours_of self (faculty_subjects_of a) in
  forallb
    (fun item =>
       match find_faculty self (fst item) with
       | None => true
       | Some f => negb (snd item >? max_hours f)
       end)
    (PyDict.items faculty_hours).

(** The loop of [no_faculty_conflicts_constraint]; [None] is the early
    [return False]. *)
Definition faculty_schedule_step (acc : option (dict Z (list Z)))
    (item : variable * value) : option (dict Z (list Z)) :=
  match acc with
  | None => None
  | Some faculty_schedule =>
      let timeslot_id := snd (fst item) in
      let faculty_id := fst (snd item) in
      let faculty_schedule1 :=
        if PyDict.mem faculty_id faculty_schedule then faculty_schedule
        else PyDict.set faculty_id (empty_set Z) faculty_schedule in
      match PyDict.get faculty_id faculty_schedule1 with
      | Some slots =>
          if set_mem Z.eq_dec timeslot_id slots then None
          else Some (PyDict.set faculty_id (set_add Z.eq_dec timeslot_id slots)
                                faculty_schedule1)
      | None => Some faculty_schedule1
      end
  end.

Definition no_faculty_conflicts_constraint (self : t) (a : assignment_t)
    : bool :=
  match fold_left faculty_schedule_step (PyDict.items a) (Some PyDict.empty) with
  | Some _ => true
  | None => false
  end.

Definition classroom_schedule_step (acc : option (dict (Z * Z) Z))
    (item : variable * value) : option (dict (Z * Z) Z) :=
  match acc with
  | None => None
  | Some classroom_schedule =>
      let subject_id := fst (fst item) in
      let timeslot_id := snd (fst item) in
      let classroom_id := snd (snd item) in
      let key := (classroom_id, timeslot_id) in
      if PyDict.mem key classroom_schedule then None
      else Some (PyDict.set key subject_id classroom_schedule)
  end.

Definition no_classroom_collision_constraint (self : t) (a : assignment_t)
    : bool :=
  match fold_left classroom_schedule_step (PyDict.items a) (Some PyDict.empty) with
  | Some _ => true
  | None => false
  end.

(** The keys of [subjects_with_labs]. *)
Definition subjects_with_labs (self : t) : list Z :=
  map s_id (filter (fun s => lab_hours s >? 0) (subjects self)).

Definition handle_labs_constraint (self : t) (a : assignment_t) : bool :=
  forallb
    (fun item : variable * value =>
       let subject_id := fst (fst item) in
       let classroom_id := snd (snd item) in
       if py_in subject_id (subjects_with_labs self) then
         match find_classroom self classroom_id with
         | None => true
         | Some classroom => has_lab classroom
         end
       else true)
    (PyDict.items a).

(** *** The preference score *)

Definition adjacent_timeslots (self : t) (timeslot : Timeslot) : list Z :=
  fold_left
    (fun adj ts =>
       if eqb (day ts) (day timeslot) && negb (t_id ts =? t_id timeslot)
          && (Z.abs (t_id ts - t_id timeslot) =? 1)
       then set_add Z.eq_dec (t_id ts) adj else adj)
    (timeslots self) (empty_set Z).

Definition has_adjacent_class (self : t) (f : Faculty) (timeslot : Timeslot)
    (current_schedule : dict Z (list Z)) : bool :=
  match PyDict.get (f_id f) current_schedule with
  | Some slots =>
      existsb (fun ts_id => set_mem Z.eq_dec ts_id slots)
              (adjacent_timeslots self timeslot)
  | None => false
  end.

Definition calculate_faculty_preference_score (self : t) (f : Faculty)
    (timeslot : Timeslot) (current_schedule : dict Z (list Z)) : float :=
  let score := 0%float in
  let score :=
    if py_in (day timeslot) (day_preferences f) then (score + 3)%float
    else score in
  let score :=
    if py_in (period timeslot) (time_preferences f) then (score + 2)%float
    else score in
  let score :=
    if has_adjacent_class self f timeslot current_schedule then
      let normalized_preference :=
        (float_of_int (consecutive_classes_preference f) / 5)%float in
      (score + normalized_preference * 2)%float
    else score in
  let normalized_weight :=
    (py_min2 5 (py_max2 one_tenth (preference_weight f)) / 5)%float in
  (score * normalized_weight)%float.

(** *** setup_csp *)

Definition add_constraints (self : t) : t :=
  let s := solver self in
  let s := CSPSolver.add_constraint s (faculty_requirements_constraint self) in
  let s := CSPSolver.add_constraint s (no_faculty_conflicts_constraint self) in
  let s := CSPSolver.add_constraint s (no_classroom_collision_constraint self) in
  let s := CSPSolver.add_constraint s (handle_labs_constraint self) in
  set_solver self s.

(** [suitable_faculty]: ids of the faculty qualified for the subject. *)
Definition suitable_faculty (self : t) (subject_id : Z) : list Z :=
  map f_id
      (filter (fun f => py_in subject_id (qualified_subjects f)) (faculty self)).

Definition eligible_classrooms (self : t) (requires_lab : bool) : list Classroom :=
  if requires_lab then filter has_lab (classrooms self) else classrooms self.

(** [domain_values]: the [(faculty_id, classroom_id)] pairs with their
    score. *)
Definition domain_values (self : t) (subject : Subject) (timeslot : Timeslot)
    : list (value * float) :=
  let requires_lab := lab_hours subject >? 0 in
  flat_map
    (fun faculty_id =>
       match find_faculty self faculty_id with
       | Some f =>
           let preference_score :=
             calculate_faculty_preference_score self f timeslot PyDict.empty in
           map (fun classroom => ((faculty_id, c_id classroom), preference_score))
               (eligible_classrooms self requires_lab)
       | None => []
       end)
    (suitable_faculty self (s_id subject)).

(** [sorted(domain_values, key=lambda x: x[1], reverse=True)] *)
Definition sorted_values (self : t) (subject : Subject) (timeslot : Timeslot)
    : list value :=
  map fst
      (py_sorted (fun y x : value * float => (snd x <? snd y)%float)
                 (domain_values self subject timeslot)).

(** The body of the two nested loops: the variable is added only when its
    domain is not empty. *)
Definition setup_variable (self : t) (subject : Subject) (s : CSPSolver.t)
    (timeslot : Timeslot) : CSPSolver.t :=
  let var := (s_id subject, t_id timeslot) in
  match sorted_values self subject timeslot with
  | [] => s
  | vals => CSPSolver.add_variable s var vals
  end.

Definition ordered_subjects (self : t) : list Subject :=
  filter (fun s => lab_hours s >? 0) (subjects self)
  ++ filter (fun s => lab_hours s =? 0) (subjects self).

Definition setup_csp (self : t) : t :=
  let self := set_solver self CSPSolver.init in
  let s :=
    fold_left
      (fun s subject => fold_left (setup_variable self subject) (timeslots self) s)
      (ordered_subjects self) (solver self) in
  add_constraints (set_solver self s).

(** *** _convert_solution_to_schedule *)

Definition default_string {A} (o : option A) (field : A -> string) : string :=
  match o with Some x => field x | None => EmptyString end.

Definition convert_entry (self : t) (item : variable * value) : Entry :=
  let subject_id := fst (fst item) in
  let timeslot_id := snd (fst item) in
  let faculty_id := fst (snd item) in
  let classroom_id := snd (snd item) in
  let subject := find_subject self subject_id in
  let fac := find_faculty self faculty_id in
  let timeslot := find_timeslot self timeslot_id in
  let classroom := find_classroom self classroom_id in
  mkEntry faculty_id (default_string fac f_name)
          subject_id (default_string subject s_name)
          (match subject with Some s => lab_hours s >? 0 | None => false end)
          timeslot_id (default_string timeslot day) (default_string timeslot time)
          classroom_id (default_string classroom c_name).

Definition _convert_solution_to_schedule (self : t) (solution : assignment_t) : t :=
  set_schedule self (map (convert_entry self) (PyDict.items solution)).

(** *** solve *)

(** The inner loop of the pre-assignment: the first value of the domain
    with a lab classroom that is consistent with the partial assignment. *)
Definition preassign_value (self : t) (lab_classrooms : list Z)
    (partial_assignment : assignment_t) (var : variable) : option value :=
  find
    (fun val : value =>
       py_in (snd val) lab_classrooms
       && CSPSolver.is_consistent (solver self) var val partial_assignment)
    (CSPSolver.domain_of (solver self) var).

Definition lab_variables (self : t) : list variable :=
  let lab_subjects := map s_id (filter (fun s => lab_hours s >? 0) (subjects self)) in
  py_sorted (fun y x : variable => CSPSolver.tuple_lt y x)
    (filter (fun var => py_in (fst var) lab_subjects)
            (CSPSolver.variables (solver self))).

Definition partial_assignment_of (self : t) : assignment_t :=
  let lab_classrooms := map c_id (filter has_lab (classrooms self)) in
  fold_left
    (fun partial_assignment var =>
       match preassign_value self lab_classrooms partial_assignment var with
       | Some val => PyDict.set var val partial_assignment
       | None => partial_assignment
       end)
    (lab_variables self) PyDict.empty.

(** The hybrid part of [solve], after the optional pre-assignments. *)
Definition solve_hybrid (self : t) : option (t * bool) :=
  let partial_assignment := partial_assignment_of self in
  let self := set_solver self
                (CSPSolver.set_assignment (solver self) partial_assignment) in
  match CSPSolver.solve (solver self) with
  | None => None
  | Some (s, None) => Some (set_solver self s, false)
  | Some (s, Some solution) =>
      Some (_convert_solution_to_schedule (set_solver self s) solution, true)
  end.

(** [solve(pre_assignments=None)]; an empty dictionary is falsy, like
    [None]. *)
Definition solve (self : t) (pre_assignments : option assignment_t)
    : option (t * bool) :=
  let self := setup_csp self in
  match pre_assignments with
  | Some (item :: more) =>
      let self := set_solver self
                    (CSPSolver.set_assignment (solver self) (item :: more)) in
      match CSPSolver.solve (solver self) with
      | None => None
      | Some (s, Some solution) =>
          Some (_convert_solution_to_schedule (set_solver self s) solution, true)
      | Some (s, None) =>
          solve_hybrid
            (set_solver self (CSPSolver.set_assignment s PyDict.empty))
      end
  | _ => solve_hybrid self
  end.

(** *** direct_solve *)

(** The local state of [direct_solve]. *)
Record DirectState := mkDirect {
  ds_schedule : list Entry;
  faculty_hours : dict Z Z;
  faculty_timeslots : dict Z (list Z);
  used_classroom_timeslots : list (Z * Z)
}.

(** [faculty_hours[faculty_id]] and [faculty_timeslots[faculty_id]]; both
    dictionaries have a key for every record of [self.faculty] (lemmas
    [direct_init_keys] and [commit_keys]), so the default is never read. *)
Definition hours_of (st : DirectState) (i : Z) : Z :=
  match PyDict.get i (faculty_hours st) with Some h => h | None => 0 end.
Definition timeslots_of (st : DirectState) (i : Z) : list Z :=
  match PyDict.get i (faculty_timeslots st) with Some l => l | None => [] end.

Definition direct_init (self : t) : DirectState :=
  mkDirect []
    (fold_left (fun d f => PyDict.set (f_id f) 0 d) (faculty self) PyDict.empty)
    (fold_left (fun d f => PyDict.set (f_id f) (empty_set Z) d) (faculty self)
               PyDict.empty)
    (empty_set (Z * Z)).

Definition direct_ordered_subjects (self : t) : list Subject :=
  py_sorted (fun y x => hours x + lab_hours x <? hours y + lab_hours y)
            (filter (fun s => lab_hours s >? 0) (subjects self))
  ++ py_sorted (fun y x => hours x <? hours y)
               (filter (fun s => lab_hours s =? 0) (subjects self)).

(** The local function [faculty_score]. *)
Definition faculty_score (st : DirectState) (faculty_tuple : Faculty * float)
    : float :=
  let f := fst faculty_tuple in
  let specialization := snd faculty_tuple in
  let max_possible_hours := max_hours f in
  let hour_ratio :=
    if max_possible_hours >? 0
    then (float_of_int (hours_of st (f_id f)) / float_of_int max_possible_hours)%float
    else 0%float in
  (hour_ratio - 0.5 * specialization)%float.

Definition qualified_faculty (self : t) (st : DirectState) (subject : Subject)
    : list Faculty :=
  let candidates :=
    map (fun f =>
           (f, (1 / float_of_int (Z.max 1 (Z.of_nat (length (qualified_subjects f)))))%float))
        (filter (fun f => py_in (s_id subject) (qualified_subjects f))
                (faculty self)) in
  map fst
      (py_sorted (fun y x => (faculty_score st y <? faculty_score st x)%float)
                 candidates).

Definition free_classrooms (st : DirectState)
    (possible_classrooms : list Classroom) (ts_id : Z) : list Classroom :=
  filter (fun classroom =>
            negb (py_in (c_id classroom, ts_id) (used_classroom_timeslots st)))
         possible_classrooms.

(** [available_timeslots] after scoring and sorting by
    [(-preference_score, classroom_count)]. *)
Definition available_timeslots (self : t) (st : DirectState) (f : Faculty)
    (possible_classrooms : list Classroom) : list Timeslot :=
  let available :=
    map (fun timeslot =>
           (timeslot,
            Z.of_nat (length (free_classrooms st possible_classrooms
                                              (t_id timeslot)))))
        (filter (fun timeslot =>
                   negb (py_in (t_id timeslot) (timeslots_of st (f_id f))))
                (timeslots self)) in
  let scored :=
    map (fun tc : Timeslot * Z =>
           (fst tc, snd tc,
            ((- calculate_faculty_preference_score self f (fst tc)
                  (faculty_timeslots st))%float, snd tc)))
        available in
  map (fun x => fst (fst x))
      (py_sorted
         (fun y x : Timeslot * Z * (float * Z) =>
            (fst (snd y) <? fst (snd x))%float
            || ((fst (snd y) =? fst (snd x))%float
                && (snd (snd y) <? snd (snd x))))
         scored).

(** [available_classrooms] of one timeslot, sorted by suitability. *)
Definition available_classrooms (st : DirectState)
    (possible_classrooms : list Classroom) (needs_lab : bool) (ts_id : Z)
    : list Classroom :=
  let key c :=
    if needs_lab then (if has_lab c then 0 else 1)
    else (if has_lab c then 1 else 0) in
  py_sorted (fun y x => key y <? key x)
            (free_classrooms st possible_classrooms ts_id).

(** The body of the innermost loop: the entry appended to the schedule
    and the three tracking updates. *)
Definition commit (st : DirectState) (f : Faculty) (subject : Subject)
    (timeslot : Timeslot) (classroom : Classroom) : DirectState :=
  mkDirect
    (ds_schedule st ++
       [mkEntry (f_id f) (f_name f) (s_id subject) (s_name subject)
                (lab_hours subject >? 0)
                (t_id timeslot) (day timeslot) (time timeslot)
                (c_id classroom) (c_name classroom)])
    (PyDict.set (f_id f) (hours_of st (f_id f) + hours subject) (faculty_hours st))
    (PyDict.set (f_id f) (set_add Z.eq_dec (t_id timeslot) (timeslots_of st (f_id f)))
                (faculty_timeslots st))
    (set_add eq_dec (c_id classroom, t_id timeslot) (used_classroom_timeslots st)).

(** [for timeslot_tuple in available_timeslots]: the first timeslot with
    a free classroom takes its first classroom. *)
Fixpoint try_timeslots (st : DirectState) (f : Faculty) (subject : Subject)
    (possible_classrooms : list Classroom) (tss : list Timeslot)
    : option DirectState :=
  match tss with
  | [] => None
  | timeslot :: rest =>
      match available_classrooms st possible_classrooms (lab_hours subject >? 0)
                                 (t_id timeslot) with
      | classroom :: _ => Some (commit st f subject timeslot classroom)
      | [] => try_timeslots st f subject possible_classrooms rest
      end
  end.

(** [for faculty in qualified_faculty] *)
Fixpoint try_faculty (self : t) (st : DirectState) (subject : Subject)
    (possible_classrooms : list Classroom) (fs : list Faculty)
    : option DirectState :=
  match fs with
  | [] => None
  | f :: rest =>
      if hours_of st (f_id f) + hours subject >? max_hours f
      then try_faculty self st subject possible_classrooms rest
      else
        match try_timeslots st f subject possible_classrooms
                (available_timeslots self st f possible_classrooms) with
        | Some st' => Some st'
        | None => try_faculty self st subject possible_classrooms rest
        end
  end.

(** One round of the loop over [ordered_subjects]; [None] when
    [assigned] is still false at its end. *)
Definition assign_subject (self : t) (st : DirectState) (subject : Subject)
    : option DirectState :=
  let needs_lab := lab_hours subject >? 0 in
  let lab_classrooms := filter has_lab (classrooms self) in
  let possible_classrooms :=
    if needs_lab then lab_classrooms else classrooms self in
  try_faculty self st subject possible_classrooms
              (qualified_faculty self st subject).

Fixpoint direct_loop (self : t) (st : DirectState) (todo : list Subject)
    : DirectState * bool :=
  match todo with
  | [] => (st, true)
  | subject :: rest =>
      match assign_subject self st subject with
      | None => (st, false)
      | Some st' => direct_loop self st' rest
      end
  end.

Definition direct_solve (self : t) : t * bool :=
  let r := direct_loop self (direct_init self) (direct_ordered_subjects self) in
  (set_schedule self (ds_schedule (fst r)), snd r).

End FacultyScheduler.

(** ** main.py and the rows of the schedule *)

Module Main.
Import FacultyScheduler.


(** The values of a schedule row, and a row as the Python dictionary that
    the code appends to [self.schedule]. *)
Inductive pyval :=
| PInt (z : Z)
| PStr (s : string)
| PBool (b : bool).

Definition row : Type := dict string pyval.

(** The dictionary literal of [direct_solve]. *)
Definition direct_row (e : Entry) : row :=
  [("faculty_id"%string, PInt (faculty_id e));
   ("faculty_name"%string, PStr (faculty_name e));
   ("subject_id"%string, PInt (subject_id e));
   ("subject_name"%string, PStr (subject_name e));
   ("has_lab"%string, PBool (entry_has_lab e));
   ("timeslot_id"%string, PInt (timeslot_id e));
   ("timeslot_day"%string, PStr (timeslot_day e));
   ("timeslot_time"%string, PStr (timeslot_time e));
   ("classroom_id"%string, PInt (classroom_id e));
   ("classroom_name"%string, PStr (classroom_name e))].

(** The dictionary literal of [_convert_solution_to_schedule]: the day and
    the time go under the keys [day] and [time]. *)
Definition converted_row (e : Entry) : row :=
  [("faculty_id"%string, PInt (faculty_id e));
   ("faculty_name"%string, PStr (faculty_name e));
   ("subject_id"%string, PInt (subject_id e));
   ("subject_name"%string, PStr (subject_name e));
   ("has_lab"%string, PBool (entry_has_lab e));
   ("timeslot_id"%string, PInt (timeslot_id e));
   ("day"%string, PStr (timeslot_day e));
   ("time"%string, PStr (timeslot_time e));
   ("classroom_id"%string, PInt (classroom_id e));
   ("classroom_name"%string, PStr (classroom_name e))].

(** Python's truth value of a cell. *)
Definition truthy (v : pyval) : bool :=
  match v with
  | PInt z => negb (z =? 0)
  | PStr s => negb (eqb s EmptyString)
  | PBool b => b
  end.

(** One row of the table of [display_schedule]; [None] is the [KeyError]
    of [item[key]]. *)
Definition display_row (item : row) : option (list pyval) :=
  match PyDict.get "faculty_name"%string item,
        PyDict.get "subject_name"%string item,
        PyDict.get "timeslot_day"%string item,
        PyDict.get "timeslot_time"%string item,
        PyDict.get "classroom_name"%string item,
        PyDict.get "has_lab"%string item with
  | Some fn, Some sn, Some d, Some tm, Some cn, Some lab =>
      Some [fn; sn; d; tm; cn;
            PStr (if truthy lab then "Yes" else "No")]
  | _, _, _, _, _, _ => None
  end.

(** The rows of the main table of [display_schedule], in order; the first
    [KeyError] ends the loop.  (For an empty schedule the code prints a
    message and builds no table.) *)
Fixpoint display_rows (schedule : list row) : option (list (list pyval)) :=
  match schedule with
  | [] => Some []
  | item :: rest =>
      match display_row item with
      | None => None
      | Some cells =>
          match display_rows rest with
          | None => None
          | Some rows => Some (cells :: rows)
          end
      end
  end.

(** *** calculate_preference_satisfaction, on the rows of the schedule *)

(** The four statistics of one faculty. *)
Record Satisfaction := mkSatisfaction {
  day_satisfaction : float;
  time_satisfaction : float;
  consecutive_satisfied : bool;
  overall_satisfaction : float
}.

(** [entry[key]] for a key under which the rows hold an id, and for one
    under which they hold a text; [None] is the [KeyError] of a row without
    the key. *)
Definition item_int (key : string) (entry : row) : option Z :=
  match PyDict.get key entry with
  | Some (PInt z) => Some z
  | _ => None
  end.

Definition item_str (key : string) (entry : row) : option string :=
  match PyDict.get key entry with
  | Some (PStr s) => Some s
  | _ => None
  end.

(** A [for] loop whose body may raise: the state after the last item, or
    [None] when some round raised. *)
Definition for_each {A S} (body : S -> A -> option S) (items : list A)
    (init : S) : option S :=
  fold_left
    (fun state x =>
       match state with
       | Some s => body s x
       | None => None
       end)
    items (Some init).

(** [d[key].append(x)] after [if key not in d: d[key] = []]. *)
Definition group_append {K V} `{EqDec K} (key : K) (x : V) (d : dict K (list V))
    : dict K (list V) :=
  let d1 := if PyDict.mem key d then d else PyDict.set key [] d in
  match PyDict.get key d1 with
  | Some l => PyDict.set key (l ++ [x]) d1
  | None => d1
  end.

(** [faculty_schedules]: the rows grouped by [entry['faculty_id']]. *)
Definition faculty_schedules_of (schedule : list row)
    : option (dict Z (list row)) :=
  for_each
    (fun faculty_schedules entry =>
       match item_int "faculty_id" entry with
       | Some faculty_id =>
           Some (group_append faculty_id entry faculty_schedules)
       | None => None
       end)
    schedule PyDict.empty.

(** [set(entry['timeslot_day'] for entry in schedule_entries)]. *)
Definition days_in_schedule (schedule_entries : list row)
    : option (list string) :=
  for_each
    (fun days entry =>
       match item_str "timeslot_day" entry with
       | Some day => Some (set_add string_dec day days)
       | None => None
       end)
    schedule_entries (empty_set string).

(** [set(...)] of a list of strings, as a list without repetition. *)
Definition string_set (l : list string) : list string :=
  fold_left (fun acc x => set_add string_dec x acc) l (empty_set string).

(** [(met / total) * 100] when [total > 0], else [0.0]. *)
Definition percentage (met total : nat) : float :=
  if (0 <? total)%nat
  then (float_of_int (Z.of_nat met) / float_of_int (Z.of_nat total) * 100)%float
  else 0%float.

(** [periods_in_schedule]: the periods of the rows whose timeslot is in
    the table and has a non-empty period. *)
Definition periods_in_schedule (self : FacultyScheduler.t)
    (schedule_entries : list row) : option (list string) :=
  for_each
    (fun periods entry =>
       match item_int "timeslot_id" entry with
       | None => None
       | Some timeslot_id =>
           match find_timeslot self timeslot_id with
           | Some ts =>
               if eqb (period ts) EmptyString then Some periods
               else Some (periods ++ [period ts])
           | None => Some periods
           end
       end)
    schedule_entries [].

(** [classes_by_day]: the timeslot ids of the rows, by
    [entry['timeslot_day']]. *)
Definition classes_by_day_of (schedule_entries : list row)
    : option (dict string (list Z)) :=
  for_each
    (fun classes_by_day entry =>
       match item_str "timeslot_day" entry with
       | None => None
       | Some day =>
           match item_int "timeslot_id" entry with
           | None => None
           | Some timeslot_id =>
               Some (group_append day timeslot_id classes_by_day)
           end
       end)
    schedule_entries PyDict.empty.

(** [sorted_ids[i + 1] - sorted_ids[i] == 1] for some [i]. *)
Fixpoint has_step (sorted_ids : list Z) : bool :=
  match sorted_ids with
  | x :: (y :: _) as rest => (y - x =? 1) || has_step rest
  | _ => false
  end.

Definition has_consecutive (classes_by_day : dict string (list Z)) : bool :=
  existsb
    (fun item : string * list Z =>
       if (length (snd item) <? 2)%nat then false
       else has_step (py_sorted (fun y x => y <? x) (snd item)))
    (PyDict.items classes_by_day).

(** The statistics of one faculty with its rows. *)
Definition satisfaction_of (self : FacultyScheduler.t) (f : Faculty)
    (schedule_entries : list row) : option Satisfaction :=
  match days_in_schedule schedule_entries with
  | None => None
  | Some days =>
      let preferred_days_met :=
        length (filter (fun d => py_in d (day_preferences f)) days) in
      let day_sat := percentage preferred_days_met (length days) in
      match periods_in_schedule self schedule_entries with
      | None => None
      | Some periods =>
          let unique_periods := string_set periods in
          let preferred_periods_met :=
            length (filter (fun p => py_in p (time_preferences f))
                           unique_periods) in
          let time_sat :=
            percentage preferred_periods_met (length unique_periods) in
          match classes_by_day_of schedule_entries with
          | None => None
          | Some classes_by_day =>
              let consecutive_pref := consecutive_classes_preference f in
              let has := has_consecutive classes_by_day in
              let satisfied :=
                if (consecutive_pref >? 0) && negb has then false
                else if (consecutive_pref <? 0) && has then false
                else true in
              let overall :=
                (day_sat * 0x1.999999999999ap-2
                 + time_sat * 0x1.999999999999ap-2)%float in
              let overall :=
                if satisfied then (overall + 20)%float else overall in
              Some (mkSatisfaction day_sat time_sat satisfied overall)
          end
      end
  end.

(** One round of the loop over [faculty_schedules.items()]: a faculty id
    without a record is skipped. *)
Definition analyze_faculty (self : FacultyScheduler.t)
    (satisfaction : dict Z Satisfaction) (item : Z * list row)
    : option (dict Z Satisfaction) :=
  match find_faculty self (fst item) with
  | None => Some satisfaction
  | Some f =>
      match satisfaction_of self f (snd item) with
      | None => None
      | Some stats => Some (PyDict.set (fst item) stats satisfaction)
      end
  end.

(** [calculate_preference_satisfaction], with [self.schedule] given as the
    list of its rows; the [KeyError] of a row ends the call. *)
Definition calculate_preference_satisfaction (self : FacultyScheduler.t)
    (schedule : list row) : option (dict Z Satisfaction) :=
  match faculty_schedules_of schedule with
  | None => None
  | Some faculty_schedules =>
      for_each (analyze_faculty self) (PyDict.items faculty_schedules)
               PyDict.empty
  end.

End Main.

(** ** Two small instances *)

Module Examples.
Import FacultyScheduler.

Definition smith : Faculty :=
  mkFaculty 1 "Dr. Smith" [1; 2] 20 ["Monday"%string] ["Morning"%string] 3 2.
Definition johnson : Faculty :=
  mkFaculty 2 "Prof. Johnson" [1] 20 ["Monday"%string] ["Morning"%string] 3 (-3).

Definition programming : Subject := mkSubject 1 "Introduction to Programming" 3 2.
Definition networks : Subject := mkSubject 2 "Computer Networks" 4 0.

Definition lab_201 : Classroom := mkClassroom 1 "Lab 201" true.
Definition room_101 : Classroom := mkClassroom 2 "Room 101" false.
Definition room_102 : Classroom := mkClassroom 3 "Room 102" false.

Definition monday_9 : Timeslot := mkTimeslot 1 "Monday" "9:00-10:30" "Morning".

(** One lab subject and one plain subject, a lab and two plain rooms, one
    timeslot. *)
Definition demo : FacultyScheduler.t :=
  mk [smith; johnson] [programming; networks] [lab_201; room_101; room_102]
     [monday_9] CSPSolver.init [] false.

(** A faculty whose [max_hours] is negative, alone in its table. *)
Definition idle : Faculty :=
  mkFaculty 1 "Dr. Idle" [] (-1) [] [] 1 0.
Definition overdrawn : FacultyScheduler.t :=
  mk [idle] [] [] [] CSPSolver.init [] false.

(** The same tables without the lab room. *)
Definition demo_without_lab : FacultyScheduler.t :=
  mk [smith; johnson] [programming; networks] [room_101; room_102]
     [monday_9] CSPSolver.init [] false.

(** The engine of [demo] after [setup_csp], and the same engine after the
    commit of [(1, 1)] (Smith, Lab 201) to the variable [(1, 1)]. *)
Definition demo_engine : CSPSolver.t := solver (setup_csp demo).
Definition demo_engine_committed : CSPSolver.t :=
  CSPSolver.set_assignment demo_engine [((1, 1), (1, 1))].

(** A caller's pre-assignment for [demo]: networks by Smith in Room 102. *)
Definition demo_seed : assignment_t := [((2, 1), (1, 3))].

(** The scheduler that [solve] leaves behind on [demo]. *)
Definition demo_solved : FacultyScheduler.t :=
  match solve demo None with
  | Some (r, _) => r
  | None => demo
  end.


(** An assignment for [demo]: programming by Johnson in the lab, networks by
    Smith in Room 101. *)
Definition demo_assignment : assignment_t :=
  [((1, 1), (2, 1)); ((2, 1), (1, 2))].

(** The same with Smith for both subjects of the one timeslot. *)
Definition demo_conflict : assignment_t :=
  [((1, 1), (1, 1)); ((2, 1), (1, 2))].

End Examples.

(** * Vocabulary of the properties *)

Unset Implicit Arguments.

Section EngineVocabulary.
Import CSPSolver.

(** The part of the engine that the search never writes. *)
Definition same_problem (s s' : CSPSolver.t) : Prop :=
  variables s' = variables s /\ domains s' = domains s
  /\ constraints s' = constraints s.

(** A recursive call that fails hands the engine back as it got it. *)
Definition restores (rec : t -> option (t * option assignment_t)) : Prop :=
  forall s1 s2, rec s1 = Some (s2, None) -> s2 = s1.

Definition returns_own_assignment
    (rec : t -> option (t * option assignment_t)) : Prop :=
  forall s1 s2 a, rec s1 = Some (s2, Some a) ->
                  same_problem s1 s2 /\ a = assignment s2.

Definition total_below (n : nat) (rec : t -> option (t * option assignment_t))
    : Prop :=
  forall s1, (length (unassigned s1) < n)%nat -> exists r, rec s1 = Some r.

Definition all_constraints (s : CSPSolver.t) (a : assignment_t) : bool :=
  forallb (fun constraint => constraint a) (constraints s).

(** What [backtrack] promises about the assignment it returns, in terms
    of the engine it was called on. *)
Record search_result (s : CSPSolver.t) (a : assignment_t) : Prop := {
  sr_constraints : a = assignment s \/ all_constraints s a = true;
  sr_complete : length a = length (variables s);
  sr_domain : forall var val,
      In (var, val) a ->
      In (var, val) (assignment s) \/ In val (domain_of s var);
  sr_keys : NoDup (PyDict.keys (assignment s)) -> NoDup (PyDict.keys a)
}.

Definition sound (rec : t -> option (t * option assignment_t)) : Prop :=
  forall s1 s2 a, rec s1 = Some (s2, Some a) -> search_result s1 a.
End EngineVocabulary.

(** What a call of the scheduler's [solve] returns, reduced to the
    assignment left in the engine and the flag. *)
Definition solution_of (o : option (FacultyScheduler.t * bool))
    : option (assignment_t * bool) :=
  match o with
  | Some (r, b) =>
      Some (CSPSolver.assignment (FacultyScheduler.solver r), b)
  | None => None
  end.


(** Some unassigned variable has no value left in its domain that is
    consistent with the assignment [a]. *)
Definition wiped_out (s : CSPSolver.t) (a : assignment_t) : Prop :=
  exists other,
    In other (CSPSolver.variables s)
    /\ PyDict.mem other a = false
    /\ forall v, In v (CSPSolver.domain_of s other) ->
                 CSPSolver.is_consistent s other v a = false.

(** The faculty [f] already has a class, in [current_schedule], at a
    timeslot of the same day whose id differs by exactly 1 from the id of
    [timeslot]. *)
Definition adjacent_class (self : FacultyScheduler.t)
    (f : FacultyScheduler.Faculty) (timeslot : FacultyScheduler.Timeslot)
    (current_schedule : dict Z (list Z)) : Prop :=
  exists ts slots,
    In ts (FacultyScheduler.timeslots self)
    /\ FacultyScheduler.day ts = FacultyScheduler.day timeslot
    /\ Z.abs (FacultyScheduler.t_id ts - FacultyScheduler.t_id timeslot) = 1
    /\ PyDict.get (FacultyScheduler.f_id f) current_schedule = Some slots
    /\ In (FacultyScheduler.t_id ts) slots.

(** The parts of the preference score in the words of the specification.
    [exact_int v z]: the float [v] is the integer [z], read off its sign,
    mantissa and exponent.  [preferred_bonus]: the amount when the day (the
    period) is among the preferred ones, else 0.  [clamp_weight]: the weight
    brought into the interval from one tenth to five. *)
Definition exact_int (v : float) (z : Z) : Prop :=
  match Prim2SF v with
  | S754_zero _ => z = 0
  | S754_finite s m e =>
      (if s then Z.neg m else Z.pos m) * 2 ^ Z.max 0 e = z * 2 ^ Z.max 0 (- e)
  | _ => False
  end.

Definition preferred_bonus (x : string) (preferred : list string)
    (amount : float) : float :=
  if in_dec string_dec x preferred then amount else 0%float.

Definition clamp_weight (w : float) : float :=
  let low := (1 / 10)%float in
  let high := 5%float in
  if (w <=? low)%float then low
  else if (high <=? w)%float then high
  else w.

(** A (faculty, timeslot, classroom) combination that the direct
    construction can take for [subject] in the state [st]: the faculty is
    qualified and stays within its hours, the timeslot is free for it, the
    classroom is free then and has a lab if the subject needs one. *)
Definition combination_works (self : FacultyScheduler.t)
    (st : FacultyScheduler.DirectState) (subject : FacultyScheduler.Subject)
    (f : FacultyScheduler.Faculty) (ts : FacultyScheduler.Timeslot)
    (c : FacultyScheduler.Classroom) : Prop :=
  In f (FacultyScheduler.faculty self)
  /\ In (FacultyScheduler.s_id subject) (FacultyScheduler.qualified_subjects f)
  /\ FacultyScheduler.hours_of st (FacultyScheduler.f_id f)
     + FacultyScheduler.hours subject <= FacultyScheduler.max_hours f
  /\ In ts (FacultyScheduler.timeslots self)
  /\ ~ In (FacultyScheduler.t_id ts)
         (FacultyScheduler.timeslots_of st (FacultyScheduler.f_id f))
  /\ In c (FacultyScheduler.classrooms self)
  /\ (FacultyScheduler.lab_hours subject > 0 -> FacultyScheduler.has_lab c = true)
  /\ ~ In (FacultyScheduler.c_id c, FacultyScheduler.t_id ts)
         (FacultyScheduler.used_classroom_timeslots st).

(** The sum of a list of integers. *)
Definition zsum (l : list Z) : Z := fold_right Z.add 0 l.

(** The [(faculty_id, timeslot_id)] and the [(classroom_id, timeslot_id)]
    of an item of the assignment. *)
Definition faculty_slot (item : variable * value) : Z * Z :=
  (fst (snd item), snd (fst item)).
Definition classroom_slot (item : variable * value) : Z * Z :=
  (snd (snd item), snd (fst item)).

(** What the dictionaries of the two conflict scans hold after the keys
    [seen]. *)
Definition faculty_schedule_rep (fs : dict Z (list Z)) (seen : list (Z * Z))
    : Prop :=
  forall fid tid,
    (exists slots, PyDict.get fid fs = Some slots /\ In tid slots)
    <-> In (fid, tid) seen.

Definition classroom_schedule_rep (cs : dict (Z * Z) Z) (seen : list (Z * Z))
    : Prop :=
  forall key, PyDict.mem key cs = true <-> In key seen.

(** The workload rule in the words of the specification: the distinct
    subject ids that [a] gives to the faculty [fid], the sum of their hours
    (each subject once), and the bound by the faculty's [max_hours]. *)
Definition assigned_subjects (a : assignment_t) (fid : Z) : list Z :=
  nodup Z.eq_dec
    (map (fun item : variable * value => fst (fst item))
         (filter (fun item : variable * value => fst (snd item) =? fid) a)).

Definition total_hours (self : FacultyScheduler.t) (a : assignment_t) (fid : Z)
    : Z :=
  zsum (map (FacultyScheduler.subject_hours self) (assigned_subjects a fid)).

(** The workload rule of the specification, read on the tables.
    [record_with id table i r]: [r] is the record of [table] with the id
    [i], the first one should several records carry it.  [subject_counts]:
    the hours that a subject id stands for, those of its record, nothing
    for an id without a record.  [workload]: the hours of the distinct
    subjects assigned to a faculty id, each counted once. *)
Definition record_with {A} (id : A -> Z) (table : list A) (i : Z) (r : A)
    : Prop :=
  exists before after,
    table = before ++ r :: after
    /\ id r = i
    /\ forall x, In x before -> id x <> i.

Definition subject_counts (self : FacultyScheduler.t) (sid h : Z) : Prop :=
  (exists subject,
      record_with FacultyScheduler.s_id (FacultyScheduler.subjects self)
                  sid subject
      /\ h = FacultyScheduler.hours subject)
  \/ ((forall subject, In subject (FacultyScheduler.subjects self) ->
                       FacultyScheduler.s_id subject <> sid)
      /\ h = 0).

Definition workload (self : FacultyScheduler.t) (a : assignment_t)
    (fid total : Z) : Prop :=
  exists hs,
    Forall2 (subject_counts self) (assigned_subjects a fid) hs
    /\ total = zsum hs.

(** The rule for every faculty id of the table, and the rule for the
    faculty ids that the assignment gives at least one subject. *)
Definition workload_rule_every_faculty (self : FacultyScheduler.t)
    (a : assignment_t) : Prop :=
  forall fid f total,
    record_with FacultyScheduler.f_id (FacultyScheduler.faculty self) fid f ->
    workload self a fid total ->
    total <= FacultyScheduler.max_hours f.

Definition workload_rule (self : FacultyScheduler.t) (a : assignment_t)
    : Prop :=
  forall fid f total,
    assigned_subjects a fid <> [] ->
    record_with FacultyScheduler.f_id (FacultyScheduler.faculty self) fid f ->
    workload self a fid total ->
    total <= FacultyScheduler.max_hours f.

(** The [(faculty_id, subject_id)] of an item, and what [faculty_subjects]
    holds after the pairs [seen]. *)
Definition faculty_subject (item : variable * value) : Z * Z :=
  (fst (snd item), fst (fst item)).

Definition faculty_subjects_rep (fs : dict Z (list Z)) (seen : list (Z * Z))
    : Prop :=
  NoDup (PyDict.keys fs)
  /\ forall fid,
      match PyDict.get fid fs with
      | Some subject_ids =>
          NoDup subject_ids
          /\ forall sid, In sid subject_ids <-> In (fid, sid) seen
      | None => forall sid, ~ In (fid, sid) seen
      end.

(** A problem instance with the field shapes of the data model: ids unique
    within their kind, hours that are not negative. *)
Record well_formed (self : FacultyScheduler.t) : Prop := {
  wf_faculty_ids :
    NoDup (map FacultyScheduler.f_id (FacultyScheduler.faculty self));
  wf_subject_ids :
    NoDup (map FacultyScheduler.s_id (FacultyScheduler.subjects self));
  wf_classroom_ids :
    NoDup (map FacultyScheduler.c_id (FacultyScheduler.classrooms self));
  wf_timeslot_ids :
    NoDup (map FacultyScheduler.t_id (FacultyScheduler.timeslots self));
  wf_max_hours :
    forall f, In f (FacultyScheduler.faculty self) ->
              0 <= FacultyScheduler.max_hours f;
  wf_hours :
    forall s, In s (FacultyScheduler.subjects self) ->
              0 <= FacultyScheduler.hours s /\ 0 <= FacultyScheduler.lab_hours s
}.


(** The invariant of the two loops of [setup_csp]: every domain is the
    sorted value list of a subject and a timeslot of the tables, and every
    registered variable has a domain. *)
Definition setup_inv (self : FacultyScheduler.t) (s : CSPSolver.t) : Prop :=
  CSPSolver.constraints s = [] /\ CSPSolver.assignment s = []
  /\ (forall var vals, In (var, vals) (CSPSolver.domains s) ->
       exists subject timeslot,
         In subject (FacultyScheduler.ordered_subjects self)
         /\ In timeslot (FacultyScheduler.timeslots self)
         /\ var = (FacultyScheduler.s_id subject, FacultyScheduler.t_id timeslot)
         /\ vals = FacultyScheduler.sorted_values self subject timeslot
         /\ vals <> [])
  /\ (forall var, In var (CSPSolver.variables s) ->
                  exists vals, PyDict.get var (CSPSolver.domains s) = Some vals).

(** The four input tables of [self'] are those of [self]. *)
Definition same_tables (self self' : FacultyScheduler.t) : Prop :=
  FacultyScheduler.faculty self' = FacultyScheduler.faculty self
  /\ FacultyScheduler.subjects self' = FacultyScheduler.subjects self
  /\ FacultyScheduler.classrooms self' = FacultyScheduler.classrooms self
  /\ FacultyScheduler.timeslots self' = FacultyScheduler.timeslots self.

(** The five hard invariants of the data model over an assignment. *)
Record hard_invariants (self : FacultyScheduler.t) (a : assignment_t) : Prop := {
  inv_workload :
    forall f, In f (FacultyScheduler.faculty self) ->
      total_hours self a (FacultyScheduler.f_id f) <= FacultyScheduler.max_hours f;
  inv_faculty :
    forall s1 s2 ts fid c1 c2,
      In ((s1, ts), (fid, c1)) a -> In ((s2, ts), (fid, c2)) a -> s1 = s2;
  inv_classroom :
    forall s1 s2 ts cid f1 f2,
      In ((s1, ts), (f1, cid)) a -> In ((s2, ts), (f2, cid)) a -> s1 = s2;
  inv_lab :
    forall sid ts fid cid subject,
      In ((sid, ts), (fid, cid)) a ->
      In subject (FacultyScheduler.subjects self) ->
      FacultyScheduler.s_id subject = sid ->
      FacultyScheduler.lab_hours subject > 0 ->
      (exists c, In c (FacultyScheduler.classrooms self)
                 /\ FacultyScheduler.c_id c = cid)
      /\ forall c, In c (FacultyScheduler.classrooms self) ->
                   FacultyScheduler.c_id c = cid ->
                   FacultyScheduler.has_lab c = true;
  inv_qualified :
    forall sid ts fid cid,
      In ((sid, ts), (fid, cid)) a ->
      (exists f, In f (FacultyScheduler.faculty self)
                 /\ FacultyScheduler.f_id f = fid)
      /\ forall f, In f (FacultyScheduler.faculty self) ->
                   FacultyScheduler.f_id f = fid ->
                   In sid (FacultyScheduler.qualified_subjects f)
}.

(** A choice of one value per variable that the search could follow: the
    value is in the domain, and the assignment of any list of distinct
    registered variables to their chosen values passes every constraint,
    in whatever order the variables were assigned. *)
Definition hereditary_solution (s : CSPSolver.t) (sol : variable -> value)
    : Prop :=
  (forall v, In v (CSPSolver.variables s) ->
             In (sol v) (CSPSolver.domain_of s v))
  /\ forall l, NoDup l -> incl l (CSPSolver.variables s) ->
               all_constraints s (map (fun v => (v, sol v)) l) = true.

(** The (subject, timeslot) pairs with a non-empty value list, lab
    subjects first, in the order of the tables. *)
Definition registered_pairs (self : FacultyScheduler.t) : list variable :=
  flat_map
    (fun subject =>
       map (fun ts => (FacultyScheduler.s_id subject, FacultyScheduler.t_id ts))
           (filter
              (fun ts =>
                 match FacultyScheduler.sorted_values self subject ts with
                 | [] => false
                 | _ => true
                 end)
              (FacultyScheduler.timeslots self)))
    (FacultyScheduler.ordered_subjects self).

(** The value that the assignment [a] gives to a variable, as a choice
    function. *)
Definition choice_of (a : assignment_t) (v : variable) : value :=
  match PyDict.get v a with
  | Some val => val
  | None => (0, 0)
  end.

(** The variable and the value that an entry of the schedule stands for. *)
Definition entry_item (e : FacultyScheduler.Entry) : variable * value :=
  ((FacultyScheduler.subject_id e, FacultyScheduler.timeslot_id e),
   (FacultyScheduler.faculty_id e, FacultyScheduler.classroom_id e)).

(** The four constraints of the scheduler together. *)
Definition four_constraints (self : FacultyScheduler.t) (a : assignment_t)
    : bool :=
  FacultyScheduler.faculty_requirements_constraint self a
  && FacultyScheduler.no_faculty_conflicts_constraint self a
  && FacultyScheduler.no_classroom_collision_constraint self a
  && FacultyScheduler.handle_labs_constraint self a.

(** What the tracking dictionaries and sets of [direct_solve] record
    about the schedule built so far. *)
Record direct_inv (self : FacultyScheduler.t)
    (st : FacultyScheduler.DirectState) : Prop := {
  di_slots :
    forall e, In e (FacultyScheduler.ds_schedule st) ->
      In (FacultyScheduler.timeslot_id e)
         (FacultyScheduler.timeslots_of st (FacultyScheduler.faculty_id e));
  di_used :
    forall e, In e (FacultyScheduler.ds_schedule st) ->
      In (FacultyScheduler.classroom_id e, FacultyScheduler.timeslot_id e)
         (FacultyScheduler.used_classroom_timeslots st);
  di_faculty :
    NoDup (map (fun e => faculty_slot (entry_item e))
               (FacultyScheduler.ds_schedule st));
  di_classroom :
    NoDup (map (fun e => classroom_slot (entry_item e))
               (FacultyScheduler.ds_schedule st));
  di_entry :
    forall e, In e (FacultyScheduler.ds_schedule st) ->
      exists f c subject,
        In f (FacultyScheduler.faculty self)
        /\ FacultyScheduler.f_id f = FacultyScheduler.faculty_id e
        /\ In (FacultyScheduler.subject_id e)
              (FacultyScheduler.qualified_subjects f)
        /\ In c (FacultyScheduler.classrooms self)
        /\ FacultyScheduler.c_id c = FacultyScheduler.classroom_id e
        /\ In subject (FacultyScheduler.subjects self)
        /\ FacultyScheduler.s_id subject = FacultyScheduler.subject_id e
        /\ (FacultyScheduler.lab_hours subject > 0 ->
            FacultyScheduler.has_lab c = true);
  di_hours :
    forall i,
      FacultyScheduler.hours_of st i
      = zsum (map (fun e => FacultyScheduler.subject_hours self
                              (FacultyScheduler.subject_id e))
                  (filter (fun e => FacultyScheduler.faculty_id e =? i)
                          (FacultyScheduler.ds_schedule st)));
  di_max :
    forall f, In f (FacultyScheduler.faculty self) ->
      FacultyScheduler.hours_of st (FacultyScheduler.f_id f)
      <= FacultyScheduler.max_hours f
}.

(** The entries of a faculty in a schedule, in order, and the fact that
    two of its classes are on the same day at timeslot ids that differ
    by 1. *)
Definition entries_of (sched : list FacultyScheduler.Entry) (i : Z)
    : list FacultyScheduler.Entry :=
  filter (fun e => FacultyScheduler.faculty_id e =? i) sched.

Definition back_to_back (entries : list FacultyScheduler.Entry) : Prop :=
  exists e1 e2,
    In e1 entries /\ In e2 entries
    /\ FacultyScheduler.timeslot_day e1 = FacultyScheduler.timeslot_day e2
    /\ FacultyScheduler.timeslot_id e2 - FacultyScheduler.timeslot_id e1 = 1.

(** The values of the items with a given key, in order. *)
Definition group_of {A K V} `{EqDec K} (key : A -> K) (val : A -> V)
    (l : list A) (k : K) : list V :=
  map val (filter (fun x => eqb (key x) k) l).

(** * Properties *)

(** ** Dictionaries *)

Section DictFacts.
Context {K V : Type} `{EqDec K}.
Implicit Types (d : dict K V) (k : K) (v : V).

Lemma eqb_true_iff (x y : K) : eqb x y = true <-> x = y.
Proof. unfold eqb. destruct (eq_dec x y); split; congruence. Qed.

Lemma eqb_refl (x : K) : eqb x x = true.
Proof. now apply eqb_true_iff. Qed.

Lemma py_in_iff (x : K) (l : list K) : py_in x l = true <-> In x l.
Proof.
  unfold py_in. rewrite existsb_exists. split.
  - intros (y & Hy & E). apply eqb_true_iff in E. now subst.
  - intros Hx. exists x. split; [assumption | apply eqb_refl].
Qed.

Lemma get_set_same k v d : PyDict.get k (PyDict.set k v d) = Some v.
Proof.
  induction d as [|[k' v'] d IH]; simpl.
  - destruct (eq_dec k k); congruence.
  - destruct (eq_dec k k') as [E|N]; simpl.
    + destruct (eq_dec k k'); congruence.
    + destruct (eq_dec k k'); congruence.
Qed.

Lemma get_set_other k k' v d :
  k' <> k -> PyDict.get k' (PyDict.set k v d) = PyDict.get k' d.
Proof.
  intros N. induction d as [|[k0 v0] d IH]; simpl.
  - destruct (eq_dec k' k); congruence.
  - destruct (eq_dec k k0) as [E|N0]; simpl.
    + subst. destruct (eq_dec k' k0); congruence.
    + destruct (eq_dec k' k0); congruence.
Qed.

Lemma mem_get k d : PyDict.mem k d = true <-> exists v, PyDict.get k d = Some v.
Proof.
  unfold PyDict.mem. destruct (PyDict.get k d) as [v|].
  - split; eauto.
  - split; [discriminate | intros [v E]; discriminate].
Qed.

Lemma mem_false_get k d : PyDict.mem k d = false <-> PyDict.get k d = None.
Proof.
  unfold PyDict.mem. destruct (PyDict.get k d); split; congruence.
Qed.

Lemma get_Some_In k v d : PyDict.get k d = Some v -> In (k, v) d.
Proof.
  induction d as [|[k' v'] d IH]; simpl; [discriminate|].
  destruct (eq_dec k k'); intros E.
  - left. congruence.
  - right. auto.
Qed.

Lemma get_None_keys k d : PyDict.get k d = None <-> ~ In k (PyDict.keys d).
Proof.
  induction d as [|[k' v'] d IH]; simpl.
  - tauto.
  - destruct (eq_dec k k') as [E|N].
    + split; [discriminate | intros N; exfalso; apply N; left; congruence].
    + rewrite IH. split; intros Hn; [intros [E|I]; congruence | tauto].
Qed.

Lemma In_get_unique k v d :
  NoDup (PyDict.keys d) -> In (k, v) d -> PyDict.get k d = Some v.
Proof.
  induction d as [|[k' v'] d IH]; simpl; [tauto|].
  intros ND [E|I].
  - inversion E; subst. destruct (eq_dec k k); congruence.
  - inversion ND as [|? ? Hk ND']; subst.
    destruct (eq_dec k k') as [E|N]; [|auto].
    subst. exfalso. apply Hk. change k' with (fst (k', v)). now apply in_map.
Qed.

(** An assignment to a fresh key goes to the end, and deleting it gives
    the dictionary back. *)
Lemma del_set_fresh k v d :
  PyDict.get k d = None -> PyDict.del k (PyDict.set k v d) = d.
Proof.
  induction d as [|[k' v'] d IH]; simpl.
  - destruct (eq_dec k k); congruence.
  - destruct (eq_dec k k') as [E|N]; [discriminate|].
    simpl. destruct (eq_dec k k'); [congruence|].
    intros G. now rewrite IH.
Qed.

Lemma set_fresh k v d :
  PyDict.get k d = None -> PyDict.set k v d = d ++ [(k, v)].
Proof.
  induction d as [|[k' v'] d IH]; simpl; [reflexivity|].
  destruct (eq_dec k k'); [discriminate|]. intros G. now rewrite IH.
Qed.

Lemma keys_set k v d :
  PyDict.keys (PyDict.set k v d)
  = if PyDict.mem k d then PyDict.keys d else PyDict.keys d ++ [k].
Proof.
  unfold PyDict.mem.
  induction d as [|[k' v'] d IH]; simpl; [reflexivity|].
  destruct (eq_dec k k') as [E|N]; simpl; [reflexivity|].
  rewrite IH. now destruct (PyDict.get k d).
Qed.

Lemma NoDup_keys_set k v d :
  NoDup (PyDict.keys d) -> NoDup (PyDict.keys (PyDict.set k v d)).
Proof.
  intros ND. rewrite keys_set.
  destruct (PyDict.mem k d) eqn:M; [assumption|].
  apply mem_false_get, get_None_keys in M.
  apply NoDup_app; [assumption | repeat constructor; simpl; tauto |].
  intros x Hx [E|[]]. congruence.
Qed.

Lemma In_set k v d k' v' :
  In (k', v') (PyDict.set k v d) -> (k' = k /\ v' = v) \/ In (k', v') d.
Proof.
  induction d as [|[k0 v0] d IH]; simpl.
  - intros [E|[]]. inversion E; auto.
  - destruct (eq_dec k k0) as [E|N]; simpl.
    + subst. intros [E|I]; [inversion E; auto | auto].
    + intros [E|I]; [auto|]. destruct (IH I); auto.
Qed.

Lemma In_set_same k v d : In (k, v) (PyDict.set k v d).
Proof. apply get_Some_In, get_set_same. Qed.

Lemma In_set_other k v d k' v' :
  k' <> k -> In (k', v') d -> In (k', v') (PyDict.set k v d).
Proof.
  intros N. induction d as [|[k0 v0] d IH]; simpl; [tauto|].
  destruct (eq_dec k k0) as [E|N0]; simpl.
  - subst. intros [E|I]; [inversion E; congruence | auto].
  - intros [E|I]; auto.
Qed.

Lemma length_set_fresh k v d :
  PyDict.get k d = None -> length (PyDict.set k v d) = S (length d).
Proof. intros G. rewrite set_fresh by assumption. rewrite length_app. simpl. lia. Qed.
End DictFacts.

(** ** The engine: what the search changes and what it returns *)

Section EngineFacts.
Import CSPSolver.

Lemma same_problem_refl s : same_problem s s.
Proof. now repeat split. Qed.

Lemma same_problem_trans s1 s2 s3 :
  same_problem s1 s2 -> same_problem s2 s3 -> same_problem s1 s3.
Proof. unfold same_problem. intuition congruence. Qed.

Lemma same_problem_set_assignment s a : same_problem s (set_assignment s a).
Proof. now repeat split. Qed.

Lemma set_assignment_id s : set_assignment s (assignment s) = s.
Proof. now destruct s. Qed.

Lemma set_assignment_twice s a b :
  set_assignment (set_assignment s a) b = set_assignment s b.
Proof. reflexivity. Qed.

(** *** Registered variables have a domain *)

Lemma add_variable_registered s var domain :
  (forall v, In v (variables s) -> PyDict.mem v (domains s) = true) ->
  forall v, In v (variables (add_variable s var domain)) ->
            PyDict.mem v (domains (add_variable s var domain)) = true.
Proof.
  intros H v I. simpl in *. apply mem_get.
  destruct (eq_dec v var) as [E|N].
  - subst. rewrite get_set_same. eauto.
  - rewrite get_set_other by assumption. apply mem_get, H.
    apply in_app_or in I. destruct I as [I|[E|[]]]; [assumption | congruence].
Qed.

(** *** Variable selection *)

Lemma py_min_In {A} (key : A -> Z * Z) (l : list A) (x : A) :
  In (py_min key x l) (x :: l).
Proof.
  unfold py_min. revert x. induction l as [|y l IH]; intros x; simpl.
  - now left.
  - destruct (tuple_lt (key y) (key x)).
    + right. apply IH.
    + destruct (IH x) as [E|I]; [left|right; right]; assumption.
Qed.

Lemma select_In_unassigned s var :
  select_unassigned_variable s = Some var -> In var (unassigned s).
Proof.
  unfold select_unassigned_variable.
  destruct (unassigned s) as [|v rest] eqn:U; [discriminate|].
  intros E. inversion E. apply py_min_In.
Qed.

Lemma unassigned_spec s var :
  In var (unassigned s)
  <-> In var (variables s) /\ PyDict.get var (assignment s) = None.
Proof.
  unfold unassigned. rewrite filter_In, negb_true_iff, mem_false_get. tauto.
Qed.

(** *** A failed search leaves the engine as it found it *)

Lemma try_values_restores rec var values s s' :
  restores rec ->
  PyDict.get var (assignment s) = None ->
  try_values rec var values s = Some (s', None) -> s' = s.
Proof.
  intros Hrec Hfresh. induction values as [|val rest IH]; simpl.
  - intros E. now inversion E.
  - destruct (is_consistent s var val (assignment s) && forward_check s var val);
      [|exact IH].
    destruct (rec _) as [[s2 [result|]]|] eqn:R; try discriminate.
    apply Hrec in R. subst s2. simpl.
    rewrite del_set_fresh by assumption. rewrite set_assignment_twice.
    rewrite set_assignment_id. exact IH.
Qed.

Lemma try_values_returns rec var values s s' a :
  restores rec -> returns_own_assignment rec ->
  PyDict.get var (assignment s) = None ->
  try_values rec var values s = Some (s', Some a) ->
  same_problem s s' /\ a = assignment s'.
Proof.
  intros Hrec Hret Hfresh. induction values as [|val rest IH]; simpl.
  - discriminate.
  - destruct (is_consistent s var val (assignment s) && forward_check s var val);
      [|exact IH].
    destruct (rec _) as [[s2 [result|]]|] eqn:R; try discriminate.
    + intros E. inversion E; subst. apply Hret in R. destruct R as [SP Ea].
      split; [|assumption].
      eapply same_problem_trans; [apply same_problem_set_assignment | exact SP].
    + apply Hrec in R. subst s2. simpl.
      rewrite del_set_fresh by assumption. rewrite set_assignment_twice.
      rewrite set_assignment_id. exact IH.
Qed.

Lemma backtrack_restores fuel : restores (backtrack fuel).
Proof.
  induction fuel as [|fuel IH]; intros s s'; simpl; [discriminate|].
  destruct (Nat.eqb _ _); [discriminate|].
  destruct (select_unassigned_variable s) as [var|] eqn:Sel.
  - apply try_values_restores; [exact IH|].
    apply select_In_unassigned, unassigned_spec in Sel. tauto.
  - intros E. now inversion E.
Qed.

Lemma backtrack_returns fuel : returns_own_assignment (backtrack fuel).
Proof.
  induction fuel as [|fuel IH]; intros s s' a; simpl; [discriminate|].
  destruct (Nat.eqb _ _).
  - intros E. inversion E; subst. split; [apply same_problem_refl | reflexivity].
  - destruct (select_unassigned_variable s) as [var|] eqn:Sel; [|discriminate].
    apply try_values_returns; [apply backtrack_restores | exact IH |].
    apply select_In_unassigned, unassigned_spec in Sel. tauto.
Qed.

(** *** The search terminates within its budget *)

Lemma filter_length_lt {A} (p q : A -> bool) (l : list A) (x : A) :
  (forall y, q y = true -> p y = true) ->
  In x l -> p x = true -> q x = false ->
  (length (filter q l) < length (filter p l))%nat.
Proof.
  intros Hqp. induction l as [|y l IH]; simpl; [tauto|].
  assert (Hle : forall l', (length (filter q l') <= length (filter p l'))%nat).
  { induction l' as [|z l' IH']; simpl; [lia|].
    destruct (q z) eqn:Q; [rewrite (Hqp _ Q); simpl; lia|].
    destruct (p z); simpl; lia. }
  intros [E|I] Px Qx.
  - subst y. rewrite Px, Qx. simpl. specialize (Hle l). lia.
  - specialize (IH I Px Qx).
    destruct (q y) eqn:Q; [rewrite (Hqp _ Q); simpl; lia|].
    destruct (p y); simpl; lia.
Qed.

Lemma unassigned_commit s var val :
  In var (unassigned s) ->
  (length (unassigned (set_assignment s (PyDict.set var val (assignment s))))
   < length (unassigned s))%nat.
Proof.
  intros Hin. unfold unassigned at 1 2. simpl.
  apply unassigned_spec in Hin. destruct Hin as [Hv Hn].
  apply filter_length_lt with (x := var); [|assumption|..].
  - intros y. rewrite !negb_true_iff, !mem_false_get.
    destruct (eq_dec y var) as [E|N].
    + subst. now rewrite get_set_same.
    + now rewrite get_set_other.
  - now rewrite negb_true_iff, mem_false_get.
  - rewrite negb_false_iff. apply mem_get. exists val. apply get_set_same.
Qed.

Lemma try_values_total rec var values s :
  restores rec ->
  total_below (length (unassigned s)) rec ->
  In var (unassigned s) ->
  exists r, try_values rec var values s = Some r.
Proof.
  intros Hrec Htot Hin. induction values as [|val rest IH]; simpl; [eauto|].
  destruct (is_consistent s var val (assignment s) && forward_check s var val);
    [|exact IH].
  destruct (Htot _ (unassigned_commit s var val Hin)) as [[s2 [result|]] R];
    rewrite R; [eauto|].
  apply Hrec in R. subst s2. simpl.
  apply unassigned_spec in Hin. destruct Hin as [_ Hn].
  rewrite del_set_fresh by assumption. rewrite set_assignment_twice.
  rewrite set_assignment_id. exact IH.
Qed.

Lemma backtrack_total fuel s :
  (length (unassigned s) < fuel)%nat -> exists r, backtrack fuel s = Some r.
Proof.
  revert s. induction fuel as [|fuel IH]; intros s Hlt; [lia|]. simpl.
  destruct (Nat.eqb _ _); [eauto|].
  destruct (select_unassigned_variable s) as [var|] eqn:Sel; [|eauto].
  apply try_values_total.
  - apply backtrack_restores.
  - intros s1 H1. apply IH. lia.
  - now apply select_In_unassigned.
Qed.

Lemma solve_total s : exists r, solve s = Some r.
Proof.
  apply backtrack_total. unfold unassigned. simpl.
  apply Nat.lt_succ_r, filter_length_le.
Qed.
End EngineFacts.

(** ** The engine: what a returned assignment satisfies *)

Section EngineSoundness.
Import CSPSolver.

Lemma try_values_sound rec var values s s' a :
  restores rec -> sound rec ->
  PyDict.get var (assignment s) = None ->
  incl values (domain_of s var) ->
  try_values rec var values s = Some (s', Some a) ->
  search_result s a.
Proof.
  intros Hrec Hsound Hfresh. induction values as [|val rest IH]; simpl.
  - discriminate.
  - intros Hincl.
    assert (Hrest : incl rest (domain_of s var)).
    { intros x Hx. apply Hincl. now right. }
    destruct (is_consistent s var val (assignment s) && forward_check s var val)
      eqn:Ok; [|now apply IH].
    destruct (rec _) as [[s2 [result|]]|] eqn:R; try discriminate.
    + intros E. inversion E; subst. apply Hsound in R.
      apply andb_true_iff in Ok. destruct Ok as [Cons _].
      destruct R as [Rc Rl Rd Rk]. simpl in *. constructor.
      * right. destruct Rc as [Ea|Rc]; [|exact Rc]. subst a. exact Cons.
      * exact Rl.
      * intros var' val' Hin. destruct (Rd _ _ Hin) as [I|I]; [|now right].
        apply In_set in I. destruct I as [[Ev Ew]|I]; [|now left].
        subst. right. apply Hincl. now left.
      * intros ND. apply Rk. now apply NoDup_keys_set.
    + apply Hrec in R. subst s2. simpl.
      rewrite del_set_fresh by assumption. rewrite set_assignment_twice.
      rewrite set_assignment_id. now apply IH.
Qed.

Lemma backtrack_sound fuel : sound (backtrack fuel).
Proof.
  induction fuel as [|fuel IH]; intros s s' a; simpl; [discriminate|].
  destruct (Nat.eqb _ _) eqn:Len.
  - intros E. inversion E; subst. apply Nat.eqb_eq in Len.
    constructor; auto.
  - destruct (select_unassigned_variable s) as [var|] eqn:Sel; [|discriminate].
    apply try_values_sound; [apply backtrack_restores | exact IH | |].
    + apply select_In_unassigned, unassigned_spec in Sel. tauto.
    + apply incl_refl.
Qed.

(** [solve] starts from the empty assignment: its result is the empty
    assignment of an engine without variables, or satisfies every
    registered constraint. *)
Lemma solve_sound s s' a :
  solve s = Some (s', Some a) ->
  (a = [] \/ all_constraints s a = true)
  /\ length a = length (variables s)
  /\ (forall var val, In (var, val) a -> In val (domain_of s var))
  /\ NoDup (PyDict.keys a)
  /\ same_problem s s' /\ assignment s' = a.
Proof.
  unfold solve. intros E.
  pose proof (backtrack_sound _ _ _ _ E) as [Rc Rl Rd Rk].
  pose proof (backtrack_returns _ _ _ _ E) as [SP Ea].
  simpl in *. repeat split; try tauto.
  - intros var val Hin. destruct (Rd _ _ Hin) as [[]|I]. exact I.
  - apply Rk. constructor.
  - apply SP.
  - apply SP.
  - apply SP.
  - congruence.
Qed.
End EngineSoundness.

(** ** Sorting and sums *)

Section SortingFacts.
Context {A : Type} (before : A -> A -> bool).

Lemma insert_sorted_perm x l : Permutation (x :: l) (insert_sorted before x l).
Proof.
  induction l as [|y l IH]; simpl; [reflexivity|].
  destruct (before y x); [|reflexivity].
  rewrite perm_swap. now constructor.
Qed.

Lemma py_sorted_perm l : Permutation l (py_sorted before l).
Proof.
  induction l as [|x l IH]; simpl; [constructor|].
  rewrite <- insert_sorted_perm. now constructor.
Qed.

Lemma py_sorted_In x l : In x (py_sorted before l) <-> In x l.
Proof.
  split; apply Permutation_in; [symmetry|]; apply py_sorted_perm.
Qed.
End SortingFacts.

Lemma zsum_perm l l' : Permutation l l' -> zsum l = zsum l'.
Proof. induction 1; simpl; lia. Qed.

Lemma fold_left_sum {A} (g : A -> Z) (l : list A) (h : Z) :
  fold_left (fun h x => h + g x) l h = h + zsum (map g l).
Proof.
  revert h. induction l as [|x l IH]; intros h; simpl; [lia|].
  rewrite IH. lia.
Qed.

Lemma NoDup_map_eq {A B} (f : A -> B) (l : list A) (x y : A) :
  NoDup (map f l) -> In x l -> In y l -> f x = f y -> x = y.
Proof.
  induction l as [|z l IH]; simpl; [tauto|].
  intros ND Hx Hy E. inversion ND as [|? ? Hz ND']; subst.
  destruct Hx as [Ex|Hx], Hy as [Ey|Hy]; subst; auto.
  - exfalso. apply Hz. rewrite E. now apply in_map.
  - exfalso. apply Hz. rewrite <- E. now apply in_map.
Qed.

(** ** A loop that stops at the first repeated key *)

(** The two conflict constraints scan the assignment, remember a key of
    every item in a dictionary and return [False] at the first key that is
    already there.  [rep st seen] relates the dictionary to the keys seen
    so far. *)
Section DupScan.
Variables (A B S : Type) (key : A -> B).
Context `{EqDec B}.
Variable step : option S -> A -> option S.
Variable rep : S -> list B -> Prop.

Hypothesis step_None : forall x, step None x = None.
Hypothesis step_dup : forall st seen x,
    rep st seen -> In (key x) seen -> step (Some st) x = None.
Hypothesis step_new : forall st seen x,
    rep st seen -> ~ In (key x) seen ->
    exists st', step (Some st) x = Some st' /\ rep st' (key x :: seen).

Lemma scan_None l : fold_left step l None = None.
Proof. induction l as [|x l IH]; simpl; [reflexivity|]. now rewrite step_None. Qed.

Lemma scan_spec l : forall st seen,
    rep st seen ->
    (exists st', fold_left step l (Some st) = Some st')
    <-> NoDup (map key l) /\ (forall b, In b (map key l) -> ~ In b seen).
Proof.
  induction l as [|x l IH]; intros st seen R; simpl.
  - split; [intros _; split; [constructor | tauto] | eauto].
  - destruct (in_dec eq_dec (key x) seen) as [I|N].
    + rewrite (step_dup _ _ _ R I), scan_None. split.
      * intros [st' E]. discriminate.
      * intros [_ Hd]. exfalso. apply (Hd (key x)); auto.
    + destruct (step_new _ _ _ R N) as (st1 & E1 & R1). rewrite E1.
      rewrite (IH _ _ R1). split.
      * intros [ND Hd]. split.
        -- constructor; [|assumption]. intros I. apply (Hd _ I). now left.
        -- intros b [Eb|Ib]; [now subst|]. intros Hs. apply (Hd _ Ib). now right.
      * intros [ND Hd]. inversion ND as [|? ? Hx ND']; subst. split; [assumption|].
        intros b Ib [Eb|Hs]; [now subst|]. apply (Hd b); auto.
Qed.
End DupScan.

(** ** The conflict constraints *)

Section ConflictConstraints.
Import FacultyScheduler.
Variable self : FacultyScheduler.t.

Lemma set_mem_iff (x : Z) (l : list Z) : set_mem Z.eq_dec x l = true <-> In x l.
Proof.
  split; [apply set_mem_correct1 | apply set_mem_correct2].
Qed.

Lemma faculty_schedule_step_None x : faculty_schedule_step None x = None.
Proof. reflexivity. Qed.

(** After the [if faculty_id not in faculty_schedule] line the faculty
    has an entry, which holds exactly the timeslots seen for it. *)
Lemma faculty_schedule_entry fs seen fid :
  faculty_schedule_rep fs seen ->
  let fs1 := if PyDict.mem fid fs then fs
             else PyDict.set fid (empty_set Z) fs in
  exists slots,
    PyDict.get fid fs1 = Some slots
    /\ (forall tid, In tid slots <-> In (fid, tid) seen)
    /\ (forall f, f <> fid -> PyDict.get f fs1 = PyDict.get f fs).
Proof.
  intros R. simpl. unfold PyDict.mem.
  destruct (PyDict.get fid fs) as [slots|] eqn:G.
  - exists slots. rewrite G. repeat split; auto.
    + intros I. apply R. eauto.
    + intros I. apply R in I. destruct I as (sl & E & I). congruence.
  - exists []. rewrite get_set_same. repeat split.
    + intros [].
    + intros I. apply R in I. destruct I as (sl & E & I). congruence.
    + intros f N. now apply get_set_other.
Qed.

Lemma faculty_schedule_step_dup fs seen x :
  faculty_schedule_rep fs seen -> In (faculty_slot x) seen ->
  faculty_schedule_step (Some fs) x = None.
Proof.
  intros R I. unfold faculty_schedule_step.
  destruct (faculty_schedule_entry fs seen (fst (snd x)) R) as (slots & G & Hs & _).
  simpl in G. rewrite G.
  apply Hs in I. apply set_mem_iff in I. now rewrite I.
Qed.

Lemma faculty_schedule_step_new fs seen x :
  faculty_schedule_rep fs seen -> ~ In (faculty_slot x) seen ->
  exists fs', faculty_schedule_step (Some fs) x = Some fs'
              /\ faculty_schedule_rep fs' (faculty_slot x :: seen).
Proof.
  intros R N. unfold faculty_schedule_step.
  destruct (faculty_schedule_entry fs seen (fst (snd x)) R) as (slots & G & Hs & Ho).
  simpl in G, Ho. rewrite G.
  destruct (set_mem Z.eq_dec (snd (fst x)) slots) eqn:M.
  { exfalso. apply N. apply Hs. now apply set_mem_iff. }
  eexists. split; [reflexivity|].
  intros fid tid. unfold faculty_slot. simpl.
  destruct (Z.eq_dec fid (fst (snd x))) as [E|Ne].
  - subst fid. rewrite get_set_same. split.
    + intros (sl & Esl & I). inversion Esl; subst sl.
      apply set_add_iff in I. destruct I as [I|I]; [left; congruence|].
      right. now apply Hs.
    + intros I. eexists. split; [reflexivity|]. apply set_add_iff.
      destruct I as [I|I]; [left; congruence | right; now apply Hs].
  - rewrite get_set_other by assumption. rewrite Ho by assumption.
    rewrite (R fid tid). split; [tauto|]. intros [E|I]; [congruence | assumption].
Qed.

(** The faculty-conflict constraint holds exactly when no
    [(faculty, timeslot)] pair occurs twice. *)
Lemma no_faculty_conflicts_spec a :
  no_faculty_conflicts_constraint self a = true <-> NoDup (map faculty_slot a).
Proof.
  unfold no_faculty_conflicts_constraint, PyDict.items.
  pose proof (scan_spec _ _ _ faculty_slot faculty_schedule_step faculty_schedule_rep
                faculty_schedule_step_None faculty_schedule_step_dup
                faculty_schedule_step_new a PyDict.empty []) as Hscan.
  assert (R0 : faculty_schedule_rep PyDict.empty []).
  { intros fid tid. simpl. split; [intros (sl & E & _); discriminate | tauto]. }
  specialize (Hscan R0).
  destruct (fold_left faculty_schedule_step a (Some PyDict.empty)) as [fs|].
  - split; [|reflexivity]. intros _. apply Hscan. eauto.
  - split; [discriminate|]. intros ND.
    destruct Hscan as [_ Hs]. destruct Hs as [st E]; [|discriminate].
    split; [assumption | intros b _ []].
Qed.

Lemma classroom_schedule_step_None x : classroom_schedule_step None x = None.
Proof. reflexivity. Qed.

Lemma classroom_schedule_step_dup cs seen x :
  classroom_schedule_rep cs seen -> In (classroom_slot x) seen ->
  classroom_schedule_step (Some cs) x = None.
Proof.
  intros R I. unfold classroom_schedule_step. apply R in I.
  unfold classroom_slot in I. now rewrite I.
Qed.

Lemma classroom_schedule_step_new cs seen x :
  classroom_schedule_rep cs seen -> ~ In (classroom_slot x) seen ->
  exists cs', classroom_schedule_step (Some cs) x = Some cs'
              /\ classroom_schedule_rep cs' (classroom_slot x :: seen).
Proof.
  intros R N. unfold classroom_schedule_step.
  destruct (PyDict.mem (snd (snd x), snd (fst x)) cs) eqn:M.
  { exfalso. apply N. now apply R. }
  eexists. split; [reflexivity|].
  intros key. simpl. rewrite mem_get. unfold classroom_slot.
  destruct (eq_dec key (snd (snd x), snd (fst x))) as [E|Ne].
  - subst key. rewrite get_set_same. split; eauto.
  - rewrite get_set_other by assumption. rewrite <- mem_get, (R key).
    split; [tauto|]. intros [E|I]; [congruence | assumption].
Qed.

(** The classroom-collision constraint holds exactly when no
    [(classroom, timeslot)] pair occurs twice. *)
Lemma no_classroom_collision_spec a :
  no_classroom_collision_constraint self a = true
  <-> NoDup (map classroom_slot a).
Proof.
  unfold no_classroom_collision_constraint, PyDict.items.
  pose proof (scan_spec _ _ _ classroom_slot classroom_schedule_step
                classroom_schedule_rep
                classroom_schedule_step_None classroom_schedule_step_dup
                classroom_schedule_step_new a PyDict.empty []) as Hscan.
  assert (R0 : classroom_schedule_rep PyDict.empty []).
  { intros key. simpl. split; [discriminate | tauto]. }
  specialize (Hscan R0).
  destruct (fold_left classroom_schedule_step a (Some PyDict.empty)) as [cs|].
  - split; [|reflexivity]. intros _. apply Hscan. eauto.
  - split; [discriminate|]. intros ND.
    destruct Hscan as [_ Hs]. destruct Hs as [st E]; [|discriminate].
    split; [assumption | intros b _ []].
Qed.

(** The lab constraint, item by item. *)
Lemma handle_labs_spec a :
  handle_labs_constraint self a = true
  <-> forall sid tid fid cid classroom,
      In ((sid, tid), (fid, cid)) a ->
      In sid (subjects_with_labs self) ->
      find_classroom self cid = Some classroom ->
      has_lab classroom = true.
Proof.
  unfold handle_labs_constraint, PyDict.items. rewrite forallb_forall. split.
  - intros Hall sid tid fid cid classroom I L F.
    specialize (Hall _ I). simpl in Hall.
    apply py_in_iff in L. rewrite L, F in Hall. exact Hall.
  - intros Hall [[sid tid] [fid cid]] I. simpl.
    destruct (py_in sid (subjects_with_labs self)) eqn:L; [|reflexivity].
    destruct (find_classroom self cid) as [classroom|] eqn:F; [|reflexivity].
    apply py_in_iff in L. eauto.
Qed.
End ConflictConstraints.

(** ** The workload constraint *)

Section WorkloadConstraint.
Import FacultyScheduler.
Variable self : FacultyScheduler.t.

Lemma faculty_subjects_step_rep fs seen item :
  faculty_subjects_rep fs seen ->
  faculty_subjects_rep (faculty_subjects_step fs item)
                       (faculty_subject item :: seen).
Proof.
  intros [ND R]. unfold faculty_subjects_step, faculty_subject.
  set (fid := fst (snd item)). set (sid := fst (fst item)).
  set (fs1 := if PyDict.mem fid fs then fs
              else PyDict.set fid (empty_set Z) fs).
  assert (H1 : exists S0, PyDict.get fid fs1 = Some S0 /\ NoDup S0
                 /\ (forall x, In x S0 <-> In (fid, x) seen)
                 /\ NoDup (PyDict.keys fs1)
                 /\ (forall f, f <> fid -> PyDict.get f fs1 = PyDict.get f fs)).
  { subst fs1. unfold PyDict.mem. specialize (R fid) as Rf.
    destruct (PyDict.get fid fs) as [S0|] eqn:G.
    - exists S0. rewrite G. tauto.
    - exists []. rewrite get_set_same. repeat split.
      + constructor.
      + intros [].
      + intros I. now apply Rf in I.
      + now apply NoDup_keys_set.
      + intros f N. now apply get_set_other. }
  destruct H1 as (S0 & G & NDS & HS & ND1 & Ho). rewrite G.
  split; [now apply NoDup_keys_set|].
  intros f. destruct (Z.eq_dec f fid) as [E|N].
  - subst f. rewrite get_set_same. split; [now apply set_add_nodup|].
    intros x. rewrite set_add_iff, HS. simpl.
    split; (intros [E|I]; [left; congruence | now right]).
  - rewrite get_set_other by assumption. rewrite Ho by assumption.
    specialize (R f). destruct (PyDict.get f fs) as [S1|].
    + split; [apply R|]. intros x. destruct R as [_ R]. rewrite R. simpl.
      split; [tauto|]. intros [E|I]; [congruence | assumption].
    + intros x [E|I]; [congruence | now apply (R x)].
Qed.

Lemma faculty_subjects_fold_rep l : forall fs seen,
  faculty_subjects_rep fs seen ->
  faculty_subjects_rep (fold_left faculty_subjects_step l fs)
                       (rev (map faculty_subject l) ++ seen).
Proof.
  induction l as [|item l IH]; intros fs seen R; simpl; [exact R|].
  rewrite <- app_assoc. simpl. apply IH. now apply faculty_subjects_step_rep.
Qed.

Lemma faculty_subjects_of_rep a :
  faculty_subjects_rep (faculty_subjects_of a) (rev (map faculty_subject a)).
Proof.
  unfold faculty_subjects_of, PyDict.items.
  rewrite <- (app_nil_r (rev _)). apply faculty_subjects_fold_rep.
  split; [constructor | intros fid sid []].
Qed.

Lemma In_assigned_subjects a fid sid :
  In sid (assigned_subjects a fid) <-> In (fid, sid) (map faculty_subject a).
Proof.
  unfold assigned_subjects. rewrite nodup_In, !in_map_iff. split.
  - intros (item & E & I). apply filter_In in I. destruct I as [I F].
    apply Z.eqb_eq in F. exists item. unfold faculty_subject. split; congruence.
  - intros (item & E & I). unfold faculty_subject in E. inversion E; subst.
    exists item. split; [reflexivity|]. apply filter_In. split; [assumption|].
    apply Z.eqb_refl.
Qed.

(** The dictionary [faculty_subjects] holds, for each faculty of the
    assignment, a listing without repetition of its assigned subjects. *)
Lemma faculty_subjects_of_get a fid :
  match PyDict.get fid (faculty_subjects_of a) with
  | Some subject_ids => Permutation subject_ids (assigned_subjects a fid)
  | None => assigned_subjects a fid = []
  end.
Proof.
  destruct (faculty_subjects_of_rep a) as [_ R]. specialize (R fid).
  destruct (PyDict.get fid (faculty_subjects_of a)) as [S0|].
  - destruct R as [ND HS]. apply NoDup_Permutation; [assumption | apply NoDup_nodup |].
    intros x. rewrite HS, <- in_rev. symmetry. apply In_assigned_subjects.
  - destruct (assigned_subjects a fid) as [|x l] eqn:E; [reflexivity|].
    exfalso. apply (R x). rewrite <- in_rev. apply In_assigned_subjects.
    rewrite E. now left.
Qed.

Lemma sum_hours_zsum l : sum_hours self l = zsum (map (subject_hours self) l).
Proof. unfold sum_hours. now rewrite fold_left_sum. Qed.

Lemma fold_set_map {V W} (g : V -> W) (d : dict Z V) : forall acc : dict Z W,
  NoDup (PyDict.keys acc ++ PyDict.keys d) ->
  fold_left (fun acc item => PyDict.set (fst item) (g (snd item)) acc) d acc
  = acc ++ map (fun item => (fst item, g (snd item))) d.
Proof.
  induction d as [|[k v] d IH]; intros acc ND; simpl.
  - now rewrite app_nil_r.
  - simpl in ND. rewrite set_fresh.
    + rewrite IH.
      * now rewrite <- app_assoc.
      * unfold PyDict.keys in *. rewrite map_app, <- app_assoc. exact ND.
    + apply get_None_keys. intros I. apply NoDup_remove_2 in ND.
      apply ND. apply in_or_app. now left.
Qed.

Lemma faculty_hours_of_map fs :
  NoDup (PyDict.keys fs) ->
  faculty_hours_of self fs
  = map (fun item => (fst item, sum_hours self (snd item))) fs.
Proof.
  intros ND. unfold faculty_hours_of, PyDict.items.
  now rewrite fold_set_map.
Qed.

Lemma faculty_requirements_spec a :
  faculty_requirements_constraint self a = true
  <-> forall fid subject_ids f,
      PyDict.get fid (faculty_subjects_of a) = Some subject_ids ->
      find_faculty self fid = Some f ->
      total_hours self a fid <= max_hours f.
Proof.
  unfold faculty_requirements_constraint, PyDict.items.
  destruct (faculty_subjects_of_rep a) as [ND _].
  rewrite faculty_hours_of_map by assumption. rewrite forallb_forall.
  assert (Hsum : forall fid S0, PyDict.get fid (faculty_subjects_of a) = Some S0 ->
                 sum_hours self S0 = total_hours self a fid).
  { intros fid S0 G. pose proof (faculty_subjects_of_get a fid) as P.
    rewrite G in P. rewrite sum_hours_zsum. unfold total_hours.
    apply zsum_perm. now apply Permutation_map. }
  split.
  - intros Hall fid S0 f G F.
    specialize (Hall (fid, sum_hours self S0)).
    simpl in Hall. rewrite F in Hall. rewrite <- (Hsum _ _ G).
    assert (I : In (fid, sum_hours self S0)
                   (map (fun item => (fst item, sum_hours self (snd item)))
                        (faculty_subjects_of a))).
    { apply in_map_iff. exists (fid, S0). split; [reflexivity|].
      now apply get_Some_In. }
    specialize (Hall I). apply negb_true_iff in Hall. lia.
  - intros Hall [fid h] I. simpl. apply in_map_iff in I.
    destruct I as ([fid' S0] & E & I). simpl in E. inversion E; subst.
    destruct (find_faculty self fid) as [f|] eqn:F; [|reflexivity].
    apply In_get_unique in I; [|assumption].
    specialize (Hall _ _ _ I F). rewrite (Hsum _ _ I).
    apply negb_true_iff. lia.
Qed.
End WorkloadConstraint.

(** ** setup_csp: what it registers *)

Section SetupFacts.
Import FacultyScheduler.

Lemma find_by_id {A} (id : A -> Z) (l : list A) (x : A) :
  NoDup (map id l) -> In x l -> find (fun y => id y =? id x) l = Some x.
Proof.
  induction l as [|y l IH]; simpl; [tauto|].
  intros ND I. inversion ND as [|? ? Hy ND']; subst.
  destruct I as [E|I].
  - subst y. now rewrite Z.eqb_refl.
  - destruct (id y =? id x) eqn:E; [|auto].
    apply Z.eqb_eq in E. exfalso. apply Hy. rewrite E. now apply in_map.
Qed.

Lemma find_exists {A} (id : A -> Z) (l : list A) (i : Z) :
  (exists x, In x l /\ id x = i) ->
  exists y, find (fun y => id y =? i) l = Some y.
Proof.
  intros (x & I & E). destruct (find (fun y => id y =? i) l) as [y|] eqn:F.
  - eauto.
  - exfalso. apply (find_none _ _ F) in I. apply Z.eqb_neq in I. contradiction.
Qed.



Lemma setup_variable_inv self self0 subject s timeslot :
  (forall sub ts, sorted_values self0 sub ts = sorted_values self sub ts) ->
  In subject (ordered_subjects self) -> In timeslot (timeslots self) ->
  setup_inv self s -> setup_inv self (setup_variable self0 subject s timeslot).
Proof.
  intros Hsv Is It (Hc & Ha & Hd & Hr). unfold setup_variable.
  destruct (sorted_values self0 subject timeslot) as [|v0 vs] eqn:SV;
    [exact (conj Hc (conj Ha (conj Hd Hr)))|].
  split; [exact Hc|]. split; [exact Ha|]. split; simpl.
  - intros var vals I. apply In_set in I. destruct I as [[Ev Evals]|I].
    + subst. exists subject, timeslot. rewrite <- Hsv, SV.
      repeat split; try assumption. discriminate.
    + now apply Hd.
  - intros var I. apply in_app_or in I. destruct I as [I|[E|[]]].
    + destruct (eq_dec var (s_id subject, t_id timeslot)) as [E|N].
      * subst. rewrite get_set_same. eauto.
      * rewrite get_set_other by assumption. auto.
    + subst. rewrite get_set_same. eauto.
Qed.

Lemma setup_timeslots_inv self self0 subject tss : forall s,
  (forall sub ts, sorted_values self0 sub ts = sorted_values self sub ts) ->
  In subject (ordered_subjects self) -> incl tss (timeslots self) ->
  setup_inv self s ->
  setup_inv self (fold_left (setup_variable self0 subject) tss s).
Proof.
  induction tss as [|ts tss IH]; intros s Hsv Is It I; simpl; [exact I|].
  apply IH; try assumption.
  - intros x Hx. apply It. now right.
  - apply setup_variable_inv; try assumption. apply It. now left.
Qed.

Lemma setup_subjects_inv self self0 subs : forall s,
  (forall sub ts, sorted_values self0 sub ts = sorted_values self sub ts) ->
  incl subs (ordered_subjects self) ->
  setup_inv self s ->
  setup_inv self
    (fold_left (fun s subject =>
                  fold_left (setup_variable self0 subject) (timeslots self) s)
               subs s).
Proof.
  induction subs as [|subject subs IH]; intros s Hsv Is I; simpl; [exact I|].
  apply IH; try assumption.
  - intros x Hx. apply Is. now right.
  - apply setup_timeslots_inv; try assumption.
    + apply Is. now left.
    + apply incl_refl.
Qed.

Lemma In_ordered_subjects self subject :
  In subject (ordered_subjects self)
  <-> In subject (subjects self) /\ 0 <= lab_hours subject.
Proof.
  unfold ordered_subjects. rewrite in_app_iff, !filter_In.
  rewrite Z.gtb_ltb, Z.ltb_lt, Z.eqb_eq.
  split; [intros [[I L]|[I L]] | intros [I L]]; try (split; [assumption | lia]).
  destruct (Z.eq_dec (lab_hours subject) 0); [right | left]; split; auto; lia.
Qed.


(** The engine that [setup_csp] builds. *)
Lemma setup_csp_solver self :
  exists s0,
    setup_inv self s0
    /\ faculty (setup_csp self) = faculty self
    /\ subjects (setup_csp self) = subjects self
    /\ classrooms (setup_csp self) = classrooms self
    /\ timeslots (setup_csp self) = timeslots self
    /\ schedule (setup_csp self) = schedule self
    /\ CSPSolver.variables (solver (setup_csp self)) = CSPSolver.variables s0
    /\ CSPSolver.domains (solver (setup_csp self)) = CSPSolver.domains s0
    /\ CSPSolver.assignment (solver (setup_csp self)) = []
    /\ CSPSolver.constraints (solver (setup_csp self))
       = [faculty_requirements_constraint self;
          no_faculty_conflicts_constraint self;
          no_classroom_collision_constraint self;
          handle_labs_constraint self].
Proof.
  unfold setup_csp.
  set (self0 := set_solver self CSPSolver.init).
  set (s0 := fold_left _ _ _).
  assert (I : setup_inv self s0).
  { subst s0. apply (setup_subjects_inv self self0); try reflexivity.
    - apply incl_refl.
    - split; [reflexivity|]. split; [reflexivity|].
      split; simpl; intros; contradiction. }
  exists s0. split; [exact I|].
  destruct I as (Hc & Ha & _). unfold add_constraints. simpl.
  rewrite Hc, Ha. repeat split; reflexivity.
Qed.
End SetupFacts.

(** ** From the constraints to the hard invariants *)

Section Invariants.
Import FacultyScheduler.
Variable self : FacultyScheduler.t.

(** A faculty without an entry in [faculty_subjects] has no hours. *)
Lemma total_hours_unassigned a fid :
  PyDict.get fid (faculty_subjects_of a) = None -> total_hours self a fid = 0.
Proof.
  intros E. pose proof (faculty_subjects_of_get a fid) as G. rewrite E in G.
  unfold total_hours. now rewrite G.
Qed.

Lemma constraints_on_empty :
  faculty_requirements_constraint self [] = true
  /\ no_faculty_conflicts_constraint self [] = true
  /\ no_classroom_collision_constraint self [] = true
  /\ handle_labs_constraint self [] = true.
Proof. repeat split. Qed.


End Invariants.

(** ** The scheduler's solve *)

Section SchedulerSolve.
Import FacultyScheduler.

Lemma setup_csp_same_tables self : same_tables self (setup_csp self).
Proof. now repeat split. Qed.

Lemma same_tables_trans self1 self2 self3 :
  same_tables self1 self2 -> same_tables self2 self3 -> same_tables self1 self3.
Proof. unfold same_tables. intuition congruence. Qed.

(** A schedule entry only reads the four tables. *)
Lemma convert_entry_ext self self' item :
  same_tables self self' -> convert_entry self' item = convert_entry self item.
Proof.
  intros (Ef & Es & Ec & Et).
  unfold convert_entry, find_subject, find_faculty, find_timeslot, find_classroom.
  now rewrite Ef, Es, Ec, Et.
Qed.

Lemma solve_hybrid_success self0 self r :
  same_tables self0 self ->
  solve_hybrid self = Some (r, true) ->
  same_tables self0 r
  /\ exists s1,
      same_problem (solver self) s1
      /\ CSPSolver.solve s1 = Some (solver r, Some (CSPSolver.assignment (solver r)))
      /\ schedule r = map (convert_entry self0) (CSPSolver.assignment (solver r)).
Proof.
  intros T. unfold solve_hybrid.
  set (s1 := CSPSolver.set_assignment (solver self) (partial_assignment_of self)).
  simpl. fold s1.
  destruct (CSPSolver.solve s1) as [[s' [solution|]]|] eqn:E; try discriminate.
  intros R. inversion R; subst r; clear R. simpl.
  destruct (solve_sound _ _ _ E) as (_ & _ & _ & _ & _ & Ea).
  split; [exact T|].
  exists s1. split; [apply same_problem_set_assignment|].
  rewrite Ea. split; [assumption|].
  apply map_ext. intros item. apply convert_entry_ext.
  eapply same_tables_trans; [exact T | now repeat split].
Qed.

(** A successful [solve] is a successful search of the engine that
    [setup_csp] built, whatever was put in its assignment before. *)
Lemma solve_success self pre r :
  solve self pre = Some (r, true) ->
  same_tables self r
  /\ exists s1,
      same_problem (solver (setup_csp self)) s1
      /\ CSPSolver.solve s1 = Some (solver r, Some (CSPSolver.assignment (solver r)))
      /\ schedule r = map (convert_entry self) (CSPSolver.assignment (solver r)).
Proof.
  unfold solve.
  destruct pre as [[|item more]|];
    try (apply solve_hybrid_success; apply setup_csp_same_tables).
  set (s1 := CSPSolver.set_assignment _ (item :: more)). simpl. fold s1.
  destruct (CSPSolver.solve s1) as [[s' [solution|]]|] eqn:E; try discriminate.
  - intros R. inversion R; subst r; clear R. simpl.
    destruct (solve_sound _ _ _ E) as (_ & _ & _ & _ & _ & Ea).
    split; [now repeat split|].
    exists s1. split; [apply same_problem_set_assignment|].
    rewrite Ea. split; [assumption | reflexivity].
  - intros R. apply (solve_hybrid_success self) in R; [|now repeat split].
    destruct R as (T & s2 & SP & E2 & Sch). split; [exact T|].
    exists s2. split; [|split; assumption].
    apply backtrack_restores in E. subst s'. exact SP.
Qed.



End SchedulerSolve.

(** ** Selection, undo and forward checking in the engine *)

Section EngineClaims.
Import CSPSolver Examples.









(** C10. A call of [backtrack] leaves the variables, the domains and the
    constraints of the engine as they were, and when it returns failure
    the assignment is the one of its entry. *)
Theorem backtrack_undoes_on_failure fuel s s' result :
  backtrack fuel s = Some (s', result) ->
  variables s' = variables s /\ domains s' = domains s
  /\ constraints s' = constraints s
  /\ (result = None -> assignment s' = assignment s).
Proof.
  intros E. destruct result as [a|].
  - apply backtrack_returns in E. destruct E as [(Ev & Ed & Ec) _].
    repeat split; try assumption. discriminate.
  - apply backtrack_restores in E. subst s'. repeat split.
Qed.

Lemma backtrack_undoes_on_failure_witness :
  variables demo_engine_committed = variables demo_engine_committed
  /\ domains demo_engine_committed = domains demo_engine_committed
  /\ constraints demo_engine_committed = constraints demo_engine_committed
  /\ (@None assignment_t = None ->
      assignment demo_engine_committed = assignment demo_engine_committed).
Proof.
  apply (backtrack_undoes_on_failure 2 demo_engine_committed
           demo_engine_committed None).
  vm_compute. reflexivity.
Defined.

(** The budget of [solve] is never exhausted, and a failed [solve] leaves
    the empty assignment. *)
Lemma solve_resets s : solve s = solve (set_assignment s (assignment init)).
Proof. reflexivity. Qed.

(** Unless the extended assignment has eleven entries, [forward_check]
    answers [True] whatever the domains look like. *)
Lemma forward_check_loop_blind s temp vars :
  length temp <> 11%nat -> forward_check_loop s temp vars 0 = true.
Proof.
  intros N. induction vars as [|o vars IH]; simpl; [reflexivity|].
  destruct (PyDict.mem o temp); [exact IH|].
  destruct (existsb _ _); [exact IH|].
  unfold PyDict.len. apply Nat.eqb_neq in N. rewrite N. simpl. exact IH.
Qed.

Lemma forward_check_blind s var val :
  length (PyDict.set var val (assignment s)) <> 11%nat ->
  forward_check s var val = true.
Proof. apply forward_check_loop_blind. Qed.

(** C2, on the engine of [demo]: the search selects [(1, 1)] and its
    first value [(1, 1)]; the extended assignment leaves no consistent
    value to the variable [(2, 1)], yet [forward_check] answers [True], the
    value is committed and the recursive call below it fails. *)
Theorem forward_check_misses_wipeout :
  select_unassigned_variable demo_engine = Some (1, 1)
  /\ hd_error (order_domain_values demo_engine (1, 1)) = Some (1, 1)
  /\ is_consistent demo_engine (1, 1) (1, 1) (assignment demo_engine) = true
  /\ wiped_out demo_engine (PyDict.set (1, 1) (1, 1) (assignment demo_engine))
  /\ forward_check demo_engine (1, 1) (1, 1) = true
  /\ backtrack 2 demo_engine_committed = Some (demo_engine_committed, None).
Proof.
  repeat split; try (vm_compute; reflexivity).
  exists (2, 1). repeat split; try (vm_compute; tauto).
  intros v I. vm_compute in I.
  destruct I as [E|[E|[E|[]]]]; subst v; vm_compute; reflexivity.
Qed.

(** C5, as the code has it: a second [add_variable] of a registered
    variable appends it to the list of variables once more and replaces
    its domain; nothing is rejected. *)
Theorem add_variable_again s var domain :
  In var (variables s) ->
  variables (add_variable s var domain) = variables s ++ [var]
  /\ (2 <= count_occ eq_dec (variables (add_variable s var domain)) var)%nat
  /\ domain_of (add_variable s var domain) var = domain
  /\ constraints (add_variable s var domain) = constraints s
  /\ assignment (add_variable s var domain) = assignment s.
Proof.
  intros I. repeat split.
  - simpl. rewrite count_occ_app. simpl.
    apply (count_occ_In eq_dec) in I.
    destruct (eq_dec var var); [lia | congruence].
  - unfold domain_of. simpl. now rewrite get_set_same.
Qed.

Lemma add_variable_again_witness :
  variables (add_variable demo_engine (1, 1) [(2, 2)])
  = variables demo_engine ++ [(1, 1)]
  /\ (2 <= count_occ eq_dec
             (variables (add_variable demo_engine (1, 1)%Z [(2, 2)%Z]))
             (1, 1)%Z)%nat
  /\ domain_of (add_variable demo_engine (1, 1) [(2, 2)]) (1, 1) = [(2, 2)]
  /\ constraints (add_variable demo_engine (1, 1) [(2, 2)])
     = constraints demo_engine
  /\ assignment (add_variable demo_engine (1, 1) [(2, 2)])
     = assignment demo_engine.
Proof.
  apply (add_variable_again demo_engine (1, 1) [(2, 2)]).
  vm_compute. tauto.
Defined.

(** C5 as stated fails: the second registration of [(1, 1)] returns an
    engine, with the variable listed twice. *)
Lemma add_variable_accepts_duplicate :
  add_variable (add_variable init (1, 1) [(1, 1)]) (1, 1) [(2, 2)]
  = mk [(1, 1); (1, 1)] [((1, 1), [(2, 2)])] [] [].
Proof. reflexivity. Qed.
End EngineClaims.

(** ** The scheduler: invariants, workload and seeds *)

Section SchedulerClaims.
Import FacultyScheduler Examples.

Lemma demo_well_formed : well_formed demo.
Proof.
  constructor; simpl.
  - repeat constructor; simpl; intuition discriminate.
  - repeat constructor; simpl; intuition discriminate.
  - repeat constructor; simpl; intuition discriminate.
  - repeat constructor; simpl; intuition discriminate.
  - intros f [E|[E|[]]]; subst f; simpl; lia.
  - intros s [E|[E|[]]]; subst s; simpl; lia.
Qed.


(** The invariants do reject an assignment: in [demo_conflict] Smith has
    two subjects in the one timeslot, and the faculty-conflict constraint
    answers [False]. *)
Lemma hard_invariants_reject_conflict :
  ~ hard_invariants demo demo_conflict
  /\ no_faculty_conflicts_constraint demo demo_conflict = false.
Proof.
  split; [|reflexivity].
  intros [_ Hf _ _ _].
  assert (E : (1 : Z) = 2); [|discriminate E].
  apply (Hf 1 2 1 1 1 2); simpl; auto.
Qed.

(** [find] by id returns the first record with the id. *)
Lemma find_record_with {A} (id : A -> Z) (table : list A) (i : Z) (r : A) :
  find (fun y => id y =? i) table = Some r <-> record_with id table i r.
Proof.
  unfold record_with. induction table as [|y table IH]; simpl.
  - split; [discriminate|]. intros (before & after & E & _).
    destruct before; discriminate.
  - destruct (id y =? i) eqn:C.
    + apply Z.eqb_eq in C. split.
      * intros E. inversion E; subst y. exists [], table.
        repeat split; [assumption | intros x []].
      * intros (before & after & E & Ei & Hb). destruct before as [|b before].
        -- simpl in E. now inversion E.
        -- simpl in E. inversion E; subst b. exfalso.
           apply (Hb y); [now left | assumption].
    + apply Z.eqb_neq in C. rewrite IH. split.
      * intros (before & after & E & Ei & Hb). exists (y :: before), after.
        repeat split; [simpl; now rewrite E | assumption |].
        intros x [Ex|Ix]; [now subst | auto].
      * intros (before & after & E & Ei & Hb). destruct before as [|b before].
        -- simpl in E. inversion E; subst y. contradiction.
        -- simpl in E. inversion E; subst b. exists before, after.
           repeat split; [assumption|]. intros x Ix. apply Hb. now right.
Qed.

Lemma subject_counts_iff self sid h :
  subject_counts self sid h <-> h = subject_hours self sid.
Proof.
  unfold subject_counts, subject_hours, find_subject.
  destruct (find (fun s => s_id s =? sid) (subjects self)) as [s|] eqn:F.
  - split.
    + intros [(subject & R & E)|[Hn _]].
      * apply find_record_with in R. congruence.
      * apply find_some in F. destruct F as [I C]. apply Z.eqb_eq in C.
        exfalso. now apply (Hn s).
    + intros E. left. exists s. split; [now apply find_record_with | exact E].
  - split.
    + intros [(subject & R & E)|[_ E]]; [|exact E].
      apply find_record_with in R. congruence.
    + intros E. right. split; [|exact E].
      intros subject I. apply (find_none _ _ F) in I. now apply Z.eqb_neq.
Qed.

Lemma workload_iff self a fid total :
  workload self a fid total <-> total = total_hours self a fid.
Proof.
  unfold workload, total_hours.
  assert (H : forall l hs, Forall2 (subject_counts self) l hs
                           <-> hs = map (subject_hours self) l).
  { induction l as [|x l IH]; intros hs; split.
    - now inversion 1.
    - intros ->. constructor.
    - inversion 1 as [|? h ? hs' Hx Hl]; subst. simpl.
      apply subject_counts_iff in Hx. apply IH in Hl. congruence.
    - intros ->. simpl. constructor; [now apply subject_counts_iff | now apply IH]. }
  split.
  - intros (hs & F & E). apply H in F. congruence.
  - intros E. exists (map (subject_hours self) (assigned_subjects a fid)).
    split; [now apply H | exact E].
Qed.

(** No faculty id is a key of [faculty_subjects] without a subject. *)
Lemma faculty_subjects_nonempty l : forall fs,
  (forall k v, PyDict.get k fs = Some v -> v <> []) ->
  forall k v, PyDict.get k (fold_left faculty_subjects_step l fs) = Some v ->
              v <> [].
Proof.
  induction l as [|item l IH]; intros fs Hfs; simpl; [exact Hfs|].
  apply IH. clear IH. intros k v. unfold faculty_subjects_step.
  set (fid := fst (snd item)). set (sid := fst (fst item)).
  set (fs1 := if PyDict.mem fid fs then fs
              else PyDict.set fid (empty_set Z) fs).
  assert (Ho : forall k, k <> fid -> PyDict.get k fs1 = PyDict.get k fs).
  { intros k0 N. subst fs1. destruct (PyDict.mem fid fs); [reflexivity|].
    now apply get_set_other. }
  destruct (PyDict.get fid fs1) as [ids|] eqn:G.
  - destruct (Z.eq_dec k fid) as [E|N].
    + subst k. rewrite get_set_same. intros E. inversion E.
      apply set_add_not_empty.
    + rewrite get_set_other by assumption. rewrite Ho by assumption.
      apply Hfs.
  - destruct (Z.eq_dec k fid) as [E|N].
    + subst k. congruence.
    + rewrite Ho by assumption. apply Hfs.
Qed.

Lemma faculty_subjects_key_iff a fid :
  (exists subject_ids, PyDict.get fid (faculty_subjects_of a) = Some subject_ids)
  <-> assigned_subjects a fid <> [].
Proof.
  pose proof (faculty_subjects_of_get a fid) as G. split.
  - intros [ids E]. rewrite E in G. intros N. rewrite N in G.
    apply Permutation_sym, Permutation_nil in G. subst ids.
    apply (faculty_subjects_nonempty (PyDict.items a) PyDict.empty) in E;
      [now contradiction E | discriminate].
  - intros N. destruct (PyDict.get fid (faculty_subjects_of a)) as [ids|];
      [eauto | contradiction].
Qed.

(** C7. The workload constraint holds exactly when, for every faculty id
    that the assignment gives at least one subject, the hours of the
    distinct subjects assigned to it (each subject once, however many
    timeslots it has) sum to at most the [max_hours] of the faculty with
    that id. *)
Theorem faculty_requirements_constraint_iff self a :
  faculty_requirements_constraint self a = true <-> workload_rule self a.
Proof.
  rewrite faculty_requirements_spec. unfold workload_rule. split.
  - intros Hall fid f total N R W.
    apply faculty_subjects_key_iff in N. destruct N as [ids G].
    apply find_record_with in R. apply workload_iff in W. subst total.
    now apply (Hall fid ids f).
  - intros Hall fid ids f G F. apply (Hall fid f).
    + apply faculty_subjects_key_iff. eauto.
    + now apply find_record_with.
    + now apply workload_iff.
Qed.

(** C7, the rule read for every faculty id of the table: a faculty with a
    negative [max_hours] and no subject breaks it, and the constraint,
    which only looks at the faculty ids of the assignment, holds. *)
Theorem workload_rule_fails_for_idle_faculty :
  faculty_requirements_constraint overdrawn [] = true
  /\ ~ workload_rule_every_faculty overdrawn [].
Proof.
  split; [reflexivity|]. intros H.
  assert (L : 0 <= max_hours idle); [|simpl in L; lia].
  apply (H 1 idle 0).
  - exists [], []. repeat split. intros x [].
  - exists []. split; [constructor | reflexivity].
Qed.

(** C3, on [demo]: the caller's seed gives networks to Room 102 and the
    hybrid seed gives programming to Smith, yet both calls return the
    assignment of the unseeded search, which puts networks in Room 101 and
    gives programming to Johnson. *)
Theorem solve_ignores_seed :
  PyDict.get (2, 1) demo_seed = Some (1, 3)
  /\ solution_of (solve demo (Some demo_seed))
     = Some ([((1, 1), (2, 1)); ((2, 1), (1, 2))], true)
  /\ partial_assignment_of (setup_csp demo) = [((1, 1), (1, 1))]
  /\ solution_of (solve demo None)
     = Some ([((1, 1), (2, 1)); ((2, 1), (1, 2))], true).
Proof. repeat split; vm_compute; reflexivity. Qed.
End SchedulerClaims.

(** ** Lab subjects without a lab room *)

Section LabRooms.
Import FacultyScheduler Examples.






End LabRooms.

(** ** The preference score *)

Section PreferenceScore.
Import FacultyScheduler Examples.

Lemma adjacent_timeslots_fold (timeslot : Timeslot) tss : forall acc x,
  In x (fold_left
          (fun adj ts =>
             if eqb (day ts) (day timeslot) && negb (t_id ts =? t_id timeslot)
                && (Z.abs (t_id ts - t_id timeslot) =? 1)
             then set_add Z.eq_dec (t_id ts) adj else adj)
          tss acc)
  <-> In x acc
      \/ exists ts, In ts tss /\ t_id ts = x /\ day ts = day timeslot
                    /\ Z.abs (t_id ts - t_id timeslot) = 1.
Proof.
  induction tss as [|t0 tss IH]; intros acc x; simpl.
  - split; [tauto | intros [I|(ts & [] & _)]; exact I].
  - rewrite IH. clear IH.
    destruct (eqb (day t0) (day timeslot) && negb (t_id t0 =? t_id timeslot)
              && (Z.abs (t_id t0 - t_id timeslot) =? 1)) eqn:C.
    + apply andb_true_iff in C. destruct C as [C C3].
      apply andb_true_iff in C. destruct C as [C1 C2].
      apply eqb_true_iff in C1. apply Z.eqb_eq in C3.
      rewrite set_add_iff. split.
      * intros [[E|I]|(ts & I & H)]; [right; exists t0; auto | now left |].
        right. exists ts. tauto.
      * intros [I|(ts & [E|I] & H)]; [left; now right | subst ts; left; left; symmetry; tauto |].
        right. exists ts. tauto.
    + split.
      * intros [I|(ts & I & H)]; [now left|]. right. exists ts. tauto.
      * intros [I|(ts & [E|I] & Ex & Ed & Ea)]; [now left | | right; exists ts; tauto].
        subst ts. exfalso.
        apply eqb_true_iff in Ed. apply Z.eqb_eq in Ea as Ea'.
        rewrite Ed, Ea' in C. simpl in C. rewrite andb_true_r in C.
        apply negb_false_iff, Z.eqb_eq in C. lia.
Qed.

Lemma In_adjacent_timeslots self timeslot x :
  In x (adjacent_timeslots self timeslot)
  <-> exists ts, In ts (timeslots self) /\ t_id ts = x
                 /\ day ts = day timeslot
                 /\ Z.abs (t_id ts - t_id timeslot) = 1.
Proof.
  unfold adjacent_timeslots. rewrite adjacent_timeslots_fold.
  split; [intros [[]|H]; exact H | now right].
Qed.

Lemma has_adjacent_class_iff self f timeslot current_schedule :
  has_adjacent_class self f timeslot current_schedule = true
  <-> adjacent_class self f timeslot current_schedule.
Proof.
  unfold has_adjacent_class, adjacent_class.
  destruct (PyDict.get (f_id f) current_schedule) as [slots|].
  - rewrite existsb_exists. split.
    + intros (x & I & M). apply In_adjacent_timeslots in I.
      destruct I as (ts & I & E & D & A). subst x.
      apply set_mem_correct1 in M. exists ts, slots. tauto.
    + intros (ts & slots' & I & D & A & E & M). inversion E; subst slots'.
      exists (t_id ts). split.
      * apply In_adjacent_timeslots. exists ts. tauto.
      * now apply set_mem_correct2.
  - split; [discriminate|]. intros (ts & slots & _ & _ & _ & E & _). discriminate.
Qed.

(** Comparisons of floats that are numbers. *)
Lemma SFcompare_antisym x y :
  SFcompare y x = option_map CompOpp (SFcompare x y).
Proof.
  destruct x as [sx|sx| |sx mx ex], y as [sy|sy| |sy my ey]; simpl;
    try reflexivity; try (now destruct sx); try (now destruct sy);
    try (now destruct sx, sy).
  destruct sx, sy; try reflexivity.
  - rewrite (Z.compare_antisym ex ey).
    destruct (ex ?= ey); simpl; try reflexivity.
    now rewrite (Pos.compare_cont_antisym mx my Eq).
  - rewrite (Z.compare_antisym ex ey).
    destruct (ex ?= ey); simpl; try reflexivity.
    now rewrite (Pos.compare_cont_antisym mx my Eq).
Qed.

Lemma not_nan_spec (w : float) : is_nan w = false -> Prim2SF w <> S754_nan.
Proof.
  unfold is_nan. rewrite FloatAxioms.eqb_spec. intros H E. rewrite E in H.
  discriminate.
Qed.

Lemma SFcompare_Some x y :
  x <> S754_nan -> y <> S754_nan -> exists c, SFcompare x y = Some c.
Proof.
  intros Hx Hy. destruct x, y; simpl; try contradiction; eauto.
Qed.

Lemma ltb_negb_leb (a b : float) :
  is_nan a = false -> is_nan b = false -> (a <? b)%float = negb (b <=? a)%float.
Proof.
  intros Ha Hb. rewrite FloatAxioms.ltb_spec, FloatAxioms.leb_spec.
  unfold SFltb, SFleb.
  rewrite (SFcompare_antisym (Prim2SF a) (Prim2SF b)).
  destruct (SFcompare_Some (Prim2SF a) (Prim2SF b)) as [c E];
    [now apply not_nan_spec.. |].
  rewrite E. now destruct c.
Qed.

(** Python's [min(5.0, max(0.1, w))] is the weight brought into the
    interval. *)
Lemma py_clamp_spec (w : float) :
  is_nan w = false -> py_min2 5 (py_max2 one_tenth w) = clamp_weight w.
Proof.
  intros Hw. unfold py_min2, py_max2, clamp_weight.
  change (1 / 10)%float with one_tenth.
  rewrite (ltb_negb_leb one_tenth w) by (reflexivity || assumption).
  destruct (w <=? one_tenth)%float; simpl; [reflexivity|].
  rewrite (ltb_negb_leb w 5) by (reflexivity || assumption).
  now destruct (5 <=? w)%float.
Qed.

Lemma preferred_bonus_spec (x : string) preferred (amount : float) :
  preferred_bonus x preferred amount
  = if py_in x preferred then amount else 0%float.
Proof.
  unfold preferred_bonus. destruct (in_dec string_dec x preferred) as [I|N].
  - apply py_in_iff in I. now rewrite I.
  - destruct (py_in x preferred) eqn:P; [|reflexivity].
    apply py_in_iff in P. contradiction.
Qed.

Lemma float_of_int_exact z : -5 <= z <= 5 -> exact_int (float_of_int z) z.
Proof.
  intros Hz.
  assert (E : z = -5 \/ z = -4 \/ z = -3 \/ z = -2 \/ z = -1 \/ z = 0
              \/ z = 1 \/ z = 2 \/ z = 3 \/ z = 4 \/ z = 5) by lia.
  repeat (destruct E as [E|E]; [subst z; vm_compute; reflexivity|]).
  subst z. vm_compute. reflexivity.
Qed.

(** C8. For a faculty record of the data model (a weight that is a number,
    a consecutive preference from -5 to 5) the score is 3.0 for a preferred
    day plus 2.0 for a preferred period plus, exactly when the faculty
    already has a class at a same-day timeslot whose id differs by 1, the
    consecutive preference divided by 5.0 and doubled; the sum is
    multiplied by the weight clamped to [0.1, 5.0] and divided by 5.0. *)
Theorem preference_score_formula self f timeslot current_schedule :
  is_nan (preference_weight f) = false ->
  -5 <= consecutive_classes_preference f <= 5 ->
  let base :=
    (preferred_bonus (day timeslot) (day_preferences f) 3
     + preferred_bonus (period timeslot) (time_preferences f) 2)%float in
  let weight := (clamp_weight (preference_weight f) / 5)%float in
  exists preference : float,
    exact_int preference (consecutive_classes_preference f)
    /\ (adjacent_class self f timeslot current_schedule ->
        calculate_faculty_preference_score self f timeslot current_schedule
        = ((base + preference / 5 * 2) * weight)%float)
    /\ (~ adjacent_class self f timeslot current_schedule ->
        calculate_faculty_preference_score self f timeslot current_schedule
        = (base * weight)%float).
Proof.
  intros Hw Hc. cbv zeta.
  exists (float_of_int (consecutive_classes_preference f)).
  split; [now apply float_of_int_exact|].
  rewrite !preferred_bonus_spec, <- (py_clamp_spec _ Hw).
  unfold calculate_faculty_preference_score.
  rewrite <- has_adjacent_class_iff.
  destruct (has_adjacent_class self f timeslot current_schedule); split;
    intros A; try discriminate; try (now contradiction A);
    destruct (py_in (day timeslot) (day_preferences f)),
             (py_in (period timeslot) (time_preferences f));
    reflexivity.
Qed.

Lemma preference_score_formula_witness :
  exists preference : float,
    exact_int preference (consecutive_classes_preference smith)
    /\ (adjacent_class demo smith monday_9 [] ->
        calculate_faculty_preference_score demo smith monday_9 []
        = ((preferred_bonus (day monday_9) (day_preferences smith) 3
            + preferred_bonus (period monday_9) (time_preferences smith) 2
            + preference / 5 * 2)
           * (clamp_weight (preference_weight smith) / 5))%float)
    /\ (~ adjacent_class demo smith monday_9 [] ->
        calculate_faculty_preference_score demo smith monday_9 []
        = ((preferred_bonus (day monday_9) (day_preferences smith) 3
            + preferred_bonus (period monday_9) (time_preferences smith) 2)
           * (clamp_weight (preference_weight smith) / 5))%float).
Proof.
  apply (preference_score_formula demo smith monday_9 []).
  - reflexivity.
  - simpl. lia.
Defined.
End PreferenceScore.

(** ** The direct construction *)

Section DirectConstruction.
Import FacultyScheduler Examples.

Lemma filter_nil_iff {A} (p : A -> bool) (l : list A) :
  filter p l = [] <-> forall x, In x l -> p x = false.
Proof.
  induction l as [|y l IH]; simpl; [tauto|].
  destruct (p y) eqn:P.
  - split; [discriminate|]. intros H. specialize (H y (or_introl eq_refl)). congruence.
  - rewrite IH. split.
    + intros H x [E|I]; [now subst | auto].
    + intros H x I. apply H. now right.
Qed.

Lemma filter_partition {A} (p q : A -> bool) (l : list A) :
  (forall x, In x l -> q x = negb (p x)) ->
  Permutation (filter p l ++ filter q l) l.
Proof.
  induction l as [|y l IH]; intros H; simpl; [constructor|].
  assert (IH' : Permutation (filter p l ++ filter q l) l).
  { apply IH. intros x I. apply H. now right. }
  rewrite (H y (or_introl eq_refl)). destruct (p y); simpl.
  - now constructor.
  - rewrite <- Permutation_middle. now constructor.
Qed.

Lemma py_sorted_nil {A} (before : A -> A -> bool) (l : list A) :
  py_sorted before l = [] <-> l = [].
Proof.
  split; [|intros E; now subst].
  intros E. pose proof (py_sorted_perm before l) as P. rewrite E in P.
  now apply Permutation_sym, Permutation_nil in P.
Qed.

(** The subjects in the order of the construction are the subjects of the
    table, when no lab hours are negative. *)
Lemma direct_ordered_subjects_perm self :
  (forall s, In s (subjects self) -> 0 <= lab_hours s) ->
  Permutation (direct_ordered_subjects self) (subjects self).
Proof.
  intros H. unfold direct_ordered_subjects.
  rewrite <- !py_sorted_perm. apply filter_partition.
  intros s I. specialize (H s I).
  rewrite Z.gtb_ltb. destruct (0 <? lab_hours s) eqn:L; simpl.
  - apply Z.ltb_lt in L. apply Z.eqb_neq. lia.
  - apply Z.ltb_ge in L. apply Z.eqb_eq. lia.
Qed.

Lemma In_qualified_faculty self st subject f :
  In f (qualified_faculty self st subject)
  <-> In f (faculty self) /\ In (s_id subject) (qualified_subjects f).
Proof.
  unfold qualified_faculty. rewrite in_map_iff. split.
  - intros ([f' sp] & E & I). simpl in E. subst f'.
    apply py_sorted_In, in_map_iff in I. destruct I as (f0 & E & I).
    inversion E; subst f0. apply filter_In in I.
    now rewrite py_in_iff in I.
  - intros [I Q]. eexists (f, _). split; [reflexivity|].
    apply py_sorted_In, in_map_iff. exists f. split; [reflexivity|].
    apply filter_In. now rewrite py_in_iff.
Qed.

Lemma In_available_timeslots self st f possible ts :
  In ts (available_timeslots self st f possible)
  <-> In ts (timeslots self) /\ ~ In (t_id ts) (timeslots_of st (f_id f)).
Proof.
  unfold available_timeslots. rewrite in_map_iff. split.
  - intros ([[t0 n] k] & E & I). simpl in E. subst t0.
    apply py_sorted_In, in_map_iff in I. destruct I as ([t1 n1] & E & I).
    simpl in E. inversion E; subst. apply in_map_iff in I.
    destruct I as (t2 & E2 & I). inversion E2; subst.
    apply filter_In in I. destruct I as [I N]. split; [assumption|].
    apply negb_true_iff in N. intros Hin. apply py_in_iff in Hin. congruence.
  - intros [I N]. eexists (ts, _, _). split; [reflexivity|].
    apply py_sorted_In, in_map_iff. eexists (ts, _). split; [reflexivity|].
    apply in_map_iff. exists ts. split; [reflexivity|].
    apply filter_In. split; [assumption|]. apply negb_true_iff.
    destruct (py_in (t_id ts) (timeslots_of st (f_id f))) eqn:P; [|reflexivity].
    apply py_in_iff in P. contradiction.
Qed.

Lemma available_classrooms_nil st possible needs_lab ts_id :
  available_classrooms st possible needs_lab ts_id = []
  <-> forall c, In c possible -> In (c_id c, ts_id) (used_classroom_timeslots st).
Proof.
  unfold available_classrooms, free_classrooms.
  rewrite py_sorted_nil, filter_nil_iff. split.
  - intros H c I. apply H in I. apply negb_false_iff in I. now apply py_in_iff in I.
  - intros H c I. apply negb_false_iff, py_in_iff. auto.
Qed.

Lemma try_timeslots_None st f subject possible tss :
  try_timeslots st f subject possible tss = None
  <-> forall ts c, In ts tss -> In c possible ->
                   In (c_id c, t_id ts) (used_classroom_timeslots st).
Proof.
  induction tss as [|t0 tss IH]; simpl.
  - split; [intros _ ts c [] | reflexivity].
  - destruct (available_classrooms st possible (lab_hours subject >? 0) (t_id t0))
      as [|c0 l] eqn:A.
    + rewrite IH. pose proof (proj1 (available_classrooms_nil _ _ _ _) A) as A'.
      split.
      * intros H ts c [E|I] Ic; [subst; auto | auto].
      * intros H ts c I Ic. apply H; [now right | assumption].
    + split; [discriminate|]. intros H. exfalso.
      assert (A' : available_classrooms st possible (lab_hours subject >? 0)
                                        (t_id t0) = []).
      { apply available_classrooms_nil. intros c Ic. apply H; [now left | assumption]. }
      congruence.
Qed.

Lemma try_timeslots_Some st f subject possible tss st' :
  try_timeslots st f subject possible tss = Some st' ->
  exists ts c, st' = commit st f subject ts c.
Proof.
  induction tss as [|t0 tss IH]; simpl; [discriminate|].
  destruct (available_classrooms _ _ _ _) as [|c0 l]; [exact IH|].
  intros E. inversion E. eauto.
Qed.

Lemma try_faculty_None self st subject possible fs :
  try_faculty self st subject possible fs = None
  <-> forall f, In f fs ->
        hours_of st (f_id f) + hours subject <= max_hours f ->
        try_timeslots st f subject possible
          (available_timeslots self st f possible) = None.
Proof.
  induction fs as [|f0 fs IH]; simpl.
  - split; [intros _ f [] | reflexivity].
  - destruct (hours_of st (f_id f0) + hours subject >? max_hours f0) eqn:G.
    + rewrite IH. apply Z.gtb_lt in G. split.
      * intros H f [E|I] L; [subst; lia | auto].
      * intros H f I. apply H. now right.
    + assert (L : hours_of st (f_id f0) + hours subject <= max_hours f0).
      { rewrite Z.gtb_ltb in G. apply Z.ltb_ge in G. lia. }
      destruct (try_timeslots st f0 subject possible _) as [st'|] eqn:T.
      * split; [discriminate|]. intros H.
        specialize (H f0 (or_introl eq_refl) L). congruence.
      * rewrite IH. split.
        -- intros H f [E|I] Lf; [now subst | auto].
        -- intros H f I. apply H. now right.
Qed.

Lemma try_faculty_Some self st subject possible fs st' :
  try_faculty self st subject possible fs = Some st' ->
  exists f ts c, st' = commit st f subject ts c.
Proof.
  induction fs as [|f0 fs IH]; simpl; [discriminate|].
  destruct (_ >? _); [exact IH|].
  destruct (try_timeslots st f0 subject possible _) as [st1|] eqn:T; [|exact IH].
  intros E. inversion E; subst. apply try_timeslots_Some in T.
  destruct T as (ts & c & E'). eauto.
Qed.

Lemma In_possible_classrooms self subject c :
  In c (if lab_hours subject >? 0 then filter has_lab (classrooms self)
        else classrooms self)
  <-> In c (classrooms self) /\ (lab_hours subject > 0 -> has_lab c = true).
Proof.
  destruct (lab_hours subject >? 0) eqn:L.
  - rewrite filter_In. apply Z.gtb_lt in L. split.
    + intros [I H]. split; [assumption | intros _; assumption].
    + intros [I H]. split; [assumption | apply H; lia].
  - rewrite Z.gtb_ltb in L. apply Z.ltb_ge in L. split.
    + intros I. split; [assumption | intros G; lia].
    + tauto.
Qed.

(** A subject is left unassigned exactly when no combination works. *)
Lemma assign_subject_None self st subject :
  assign_subject self st subject = None
  <-> forall f ts c, ~ combination_works self st subject f ts c.
Proof.
  unfold assign_subject. rewrite try_faculty_None. split.
  - intros H f ts c (If & Q & L & It & Nt & Ic & Lab & Nc).
    assert (Iq : In f (qualified_faculty self st subject))
      by (apply In_qualified_faculty; tauto).
    specialize (H f Iq L). rewrite try_timeslots_None in H.
    apply Nc. apply H.
    + apply In_available_timeslots. tauto.
    + apply In_possible_classrooms. tauto.
  - intros H f Iq L. apply try_timeslots_None. intros ts c It Ic.
    apply In_qualified_faculty in Iq. apply In_available_timeslots in It.
    apply In_possible_classrooms in Ic.
    destruct (in_dec eq_dec (c_id c, t_id ts) (used_classroom_timeslots st))
      as [I|N]; [exact I|].
    exfalso. apply (H f ts c). unfold combination_works. tauto.
Qed.

Lemma assign_subject_Some self st subject st' :
  assign_subject self st subject = Some st' ->
  exists f ts c, st' = commit st f subject ts c.
Proof. apply try_faculty_Some. Qed.

(** [faculty_hours] and [faculty_timeslots] have a key for every faculty
    of the table, from the start and after every commit. *)
Lemma fold_set_mem {V} (g : Faculty -> V) (fs : list Faculty) :
  forall (d : dict Z V) i,
    PyDict.mem i (fold_left (fun d f => PyDict.set (f_id f) (g f) d) fs d) = true
    <-> PyDict.mem i d = true \/ In i (map f_id fs).
Proof.
  induction fs as [|f fs IH]; intros d i; simpl; [tauto|].
  rewrite IH, !mem_get. destruct (Z.eq_dec i (f_id f)) as [E|N].
  - subst. rewrite get_set_same. split; [intros _; right; now left | eauto].
  - rewrite get_set_other by assumption. split.
    + intros [H|H]; auto.
    + intros [H|[H|H]]; auto. congruence.
Qed.

Lemma direct_init_keys self f :
  In f (faculty self) ->
  PyDict.mem (f_id f) (faculty_hours (direct_init self)) = true
  /\ PyDict.mem (f_id f) (faculty_timeslots (direct_init self)) = true.
Proof.
  intros I. unfold direct_init. simpl.
  split; apply fold_set_mem; right; now apply in_map.
Qed.

Lemma commit_keys st f subject ts c i :
  PyDict.mem i (faculty_hours st) = true
  /\ PyDict.mem i (faculty_timeslots st) = true ->
  PyDict.mem i (faculty_hours (commit st f subject ts c)) = true
  /\ PyDict.mem i (faculty_timeslots (commit st f subject ts c)) = true.
Proof.
  intros [H1 H2]. simpl. rewrite !mem_get in *.
  destruct (Z.eq_dec i (f_id f)) as [E|N].
  - subst. rewrite !get_set_same. eauto.
  - rewrite !get_set_other by assumption. auto.
Qed.




(** The direct construction succeeds on [demo] and fails on
    [demo_without_lab], where programming has no classroom. *)
Lemma direct_solve_demo :
  snd (direct_solve demo) = true
  /\ map subject_id (schedule (fst (direct_solve demo))) = [1; 2]
  /\ snd (direct_solve demo_without_lab) = false.
Proof. repeat split; vm_compute; reflexivity. Qed.
End DirectConstruction.

(** * Further properties of the engine *)

Section EngineExtras.
Import CSPSolver Examples.

(** Once a wipeout was counted the loop of [forward_check] ends with
    [False]. *)
Lemma forward_check_loop_counted s temp vars : forall w,
  0 < w -> forward_check_loop s temp vars w = false.
Proof.
  induction vars as [|o vars IH]; intros w Hw; simpl.
  - destruct (w >? 0) eqn:G; [reflexivity|].
    rewrite Z.gtb_ltb in G. apply Z.ltb_ge in G. lia.
  - destruct (PyDict.mem o temp); [now apply IH|].
    destruct (existsb _ _); [now apply IH|].
    destruct (Nat.eqb (PyDict.len temp) 11).
    + destruct (w + 1 >? 5); [reflexivity | apply IH; lia].
    + destruct (w >? 5); [reflexivity | now apply IH].
Qed.

Lemma forward_check_loop_eleven s temp vars :
  length temp = 11%nat ->
  forward_check_loop s temp vars 0 = false
  <-> exists other,
      In other vars /\ PyDict.mem other temp = false
      /\ forall v, In v (domain_of s other) ->
                   is_consistent s other v temp = false.
Proof.
  intros L. induction vars as [|o vars IH]; simpl.
  - split; [discriminate | intros (x & [] & _)].
  - destruct (PyDict.mem o temp) eqn:M.
    + rewrite IH. split.
      * intros (x & I & H). exists x. split; [now right | exact H].
      * intros (x & [E|I] & Mx & H); [subst; congruence | eauto].
    + destruct (existsb _ _) eqn:Ex.
      * rewrite IH. split.
        -- intros (x & I & H). exists x. split; [now right | exact H].
        -- intros (x & [E|I] & Mx & H); [|eauto]. subst x.
           apply existsb_exists in Ex. destruct Ex as (v & Iv & C).
           rewrite (H v Iv) in C. discriminate.
      * unfold PyDict.len. rewrite L. simpl.
        rewrite forward_check_loop_counted by lia. split; [|reflexivity].
        intros _. exists o. repeat split; [now left | assumption |].
        intros v Iv.
        destruct (is_consistent s o v temp) eqn:C; [|reflexivity].
        assert (existsb (fun ov => is_consistent s o ov temp) (domain_of s o) = true)
          by (apply existsb_exists; eauto).
        congruence.
Qed.

(** When [forward_check] answers [False]. *)
Lemma forward_check_false_spec s var val :
  forward_check s var val = false
  <-> length (PyDict.set var val (assignment s)) = 11%nat
      /\ wiped_out s (PyDict.set var val (assignment s)).
Proof.
  unfold forward_check, wiped_out.
  destruct (Nat.eq_dec (length (PyDict.set var val (assignment s))) 11) as [L|N].
  - rewrite (forward_check_loop_eleven s _ (variables s) L). tauto.
  - rewrite forward_check_loop_blind by assumption.
    split; [discriminate | tauto].
Qed.

(** X1. [forward_check] answers [False] exactly when the extended
    assignment has eleven entries and leaves some unassigned registered
    variable without a consistent value. *)
Theorem forward_check_false_iff s var val :
  forward_check s var val = false
  <-> length (PyDict.set var val (assignment s)) = 11%nat
      /\ wiped_out s (PyDict.set var val (assignment s)).
Proof. apply forward_check_false_spec. Qed.

(** The keys of a returned assignment are keys of the entry or
    registered variables. *)
Lemma try_values_keys rec var values s s' a :
  restores rec ->
  (forall s1 s2 a1, rec s1 = Some (s2, Some a1) ->
     forall k v, In (k, v) a1 ->
       In k (PyDict.keys (assignment s1)) \/ In k (variables s1)) ->
  PyDict.get var (assignment s) = None -> In var (variables s) ->
  try_values rec var values s = Some (s', Some a) ->
  forall k v, In (k, v) a ->
    In k (PyDict.keys (assignment s)) \/ In k (variables s).
Proof.
  intros Hrec Hk Hfresh Hvar. induction values as [|val rest IH]; simpl.
  - discriminate.
  - destruct (is_consistent s var val (assignment s) && forward_check s var val);
      [|exact IH].
    destruct (rec _) as [[s2 [result|]]|] eqn:R; try discriminate.
    + intros E k v I. inversion E; subst.
      destruct (Hk _ _ _ R k v I) as [H|H]; simpl in H; [|now right].
      rewrite keys_set in H. destruct (PyDict.mem var (assignment s)); [now left|].
      apply in_app_or in H. destruct H as [H|[H|[]]]; [now left | subst; now right].
    + apply Hrec in R. subst s2. simpl.
      rewrite del_set_fresh by assumption. rewrite set_assignment_twice.
      rewrite set_assignment_id. exact IH.
Qed.

Lemma backtrack_keys fuel : forall s s' a,
  backtrack fuel s = Some (s', Some a) ->
  forall k v, In (k, v) a ->
    In k (PyDict.keys (assignment s)) \/ In k (variables s).
Proof.
  induction fuel as [|fuel IH]; intros s s' a; simpl; [discriminate|].
  destruct (Nat.eqb _ _).
  - intros E k v I. inversion E; subst. left.
    change k with (fst (k, v)). now apply in_map.
  - destruct (select_unassigned_variable s) as [var|] eqn:Sel; [|discriminate].
    apply select_In_unassigned, unassigned_spec in Sel.
    apply try_values_keys; try tauto. apply backtrack_restores.
Qed.

(** What [solve_sound] and [backtrack_keys] give for a returned
    assignment. *)
Lemma solve_complete_facts s s' a :
  solve s = Some (s', Some a) ->
  NoDup (PyDict.keys a)
  /\ incl (PyDict.keys a) (variables s)
  /\ length a = length (variables s)
  /\ (forall var val, In (var, val) a -> In val (domain_of s var))
  /\ (variables s <> [] -> all_constraints s a = true).
Proof.
  intros E.
  destruct (solve_sound _ _ _ E) as (Hc & Hl & Hd & ND & _ & _).
  repeat split; try assumption.
  - intros k I. apply in_map_iff in I. destruct I as ([k' v] & Ek & I).
    simpl in Ek. subst k'.
    destruct (backtrack_keys _ _ _ _ E k v I) as [[]|H]. exact H.
  - intros Hne. destruct Hc as [Ea|Hc]; [|exact Hc].
    subst a. destruct (variables s); [contradiction | discriminate].
Qed.

(** X2. An assignment returned by [solve] is complete and drawn from the
    domains: its keys are distinct registered variables, as many as there
    are entries in [self.variables], each value is in the domain of its
    variable, and with at least one variable registered every constraint
    holds on it. *)
Theorem solve_returns_complete_assignment s s' a :
  solve s = Some (s', Some a) ->
  NoDup (PyDict.keys a)
  /\ incl (PyDict.keys a) (variables s)
  /\ length a = length (variables s)
  /\ (forall var val, In (var, val) a -> In val (domain_of s var))
  /\ (variables s <> [] -> all_constraints s a = true).
Proof. apply solve_complete_facts. Qed.

Lemma solve_returns_complete_assignment_witness :
  NoDup (PyDict.keys demo_assignment)
  /\ incl (PyDict.keys demo_assignment) (variables demo_engine)
  /\ length demo_assignment = length (variables demo_engine)
  /\ (forall var val, In (var, val) demo_assignment ->
                      In val (domain_of demo_engine var))
  /\ (variables demo_engine <> [] ->
      all_constraints demo_engine demo_assignment = true).
Proof.
  apply (solve_returns_complete_assignment demo_engine
           (set_assignment demo_engine demo_assignment) demo_assignment).
  vm_compute. reflexivity.
Defined.

(** X3. With a variable registered twice [solve] reports that there is no
    solution, whatever the domains and the constraints are: the number of
    keys of the assignment never reaches [len(self.variables)]. *)
Theorem solve_fails_on_duplicate_variable s :
  ~ NoDup (variables s) ->
  solve s = Some (set_assignment s PyDict.empty, None).
Proof.
  intros Hdup. destruct (solve_total s) as [[s' [a|]] E].
  - exfalso. apply Hdup.
    destruct (solve_complete_facts _ _ _ E) as (ND & Hincl & Hl & _).
    apply NoDup_incl_NoDup with (l := PyDict.keys a); try assumption.
    unfold PyDict.keys. rewrite length_map. lia.
  - rewrite E. unfold solve in E. apply backtrack_restores in E. now subst.
Qed.

Lemma solve_fails_on_duplicate_variable_witness :
  solve (add_variable demo_engine (1, 1) [(2, 1)])
  = Some (set_assignment (add_variable demo_engine (1, 1) [(2, 1)]) PyDict.empty,
          None).
Proof.
  apply (solve_fails_on_duplicate_variable
           (add_variable demo_engine (1, 1) [(2, 1)])).
  intros ND. vm_compute in ND. inversion ND as [|x l Hx _]; subst.
  apply Hx. right. now left.
Defined.

(** *** The search finds a solution when there is one *)

Lemma keys_of_choice (sol : variable -> value) l :
  PyDict.keys (map (fun v => (v, sol v)) l) = l.
Proof.
  unfold PyDict.keys. rewrite map_map. simpl. apply map_id.
Qed.

Lemma try_values_complete rec (sol : variable -> value) var values s :
  restores rec ->
  total_below (length (unassigned s)) rec ->
  (exists s2 a2,
      rec (set_assignment s (PyDict.set var (sol var) (assignment s)))
      = Some (s2, Some a2)) ->
  is_consistent s var (sol var) (assignment s)
  && forward_check s var (sol var) = true ->
  In var (unassigned s) ->
  In (sol var) values ->
  exists s' a', try_values rec var values s = Some (s', Some a').
Proof.
  intros Hrec Htot Hgood Hcheck Hin. induction values as [|val rest IH]; simpl.
  - intros [].
  - intros Hval.
    destruct (eq_dec val (sol var)) as [E|N].
    + subst val. rewrite Hcheck. destruct Hgood as (s2 & a2 & R). rewrite R. eauto.
    + assert (Hrest : In (sol var) rest) by (destruct Hval; [congruence | assumption]).
      destruct (is_consistent s var val (assignment s) && forward_check s var val);
        [|now apply IH].
      destruct (Htot _ (unassigned_commit s var val Hin)) as [[s2 [result|]] R];
        rewrite R; [eauto|].
      apply Hrec in R. subst s2. simpl.
      apply unassigned_spec in Hin as [_ Hn].
      rewrite del_set_fresh by assumption. rewrite set_assignment_twice.
      rewrite set_assignment_id. now apply IH.
Qed.

Lemma choice_consistent s (sol : variable -> value) l var :
  hereditary_solution s sol ->
  NoDup l -> incl l (variables s) -> In var (variables s) -> ~ In var l ->
  is_consistent s var (sol var) (map (fun v => (v, sol v)) l) = true.
Proof.
  intros [_ Hh] ND Hincl Iv Nv. unfold is_consistent.
  rewrite set_fresh by (apply get_None_keys; now rewrite keys_of_choice).
  change [(var, sol var)] with (map (fun v => (v, sol v)) [var]).
  rewrite <- map_app. apply (Hh (l ++ [var])).
  - apply NoDup_app; [assumption | repeat constructor; simpl; tauto |].
    intros x Ix [E|[]]. congruence.
  - intros x Ix. apply in_app_or in Ix. destruct Ix as [Ix|[E|[]]]; [auto | congruence].
Qed.

Lemma backtrack_complete (sol : variable -> value) fuel : forall s l,
  NoDup (variables s) ->
  hereditary_solution s sol ->
  NoDup l -> incl l (variables s) ->
  assignment s = map (fun v => (v, sol v)) l ->
  (length (unassigned s) < fuel)%nat ->
  exists s' a', backtrack fuel s = Some (s', Some a').
Proof.
  induction fuel as [|fuel IH]; intros s l NDv Hsol NDl Hincl Ea Hfuel; [lia|].
  simpl. destruct (Nat.eqb _ _) eqn:Len; [eauto|].
  apply Nat.eqb_neq in Len. unfold PyDict.len in Len.
  destruct (select_unassigned_variable s) as [var|] eqn:Sel.
  - pose proof (select_In_unassigned _ _ Sel) as Hin.
    pose proof (proj1 (unassigned_spec _ _) Hin) as [Iv Hn].
    assert (Nv : ~ In var l).
    { apply get_None_keys in Hn. now rewrite Ea, keys_of_choice in Hn. }
    assert (Es1 : PyDict.set var (sol var) (assignment s)
                  = map (fun v => (v, sol v)) (l ++ [var])).
    { rewrite set_fresh by assumption. rewrite Ea, map_app. reflexivity. }
    assert (ND1 : NoDup (l ++ [var])).
    { apply NoDup_app; [assumption | repeat constructor; simpl; tauto |].
      intros x Ix [E|[]]. congruence. }
    assert (Hincl1 : incl (l ++ [var]) (variables s)).
    { intros x Ix. apply in_app_or in Ix.
      destruct Ix as [Ix|[E|[]]]; [auto | congruence]. }
    apply (try_values_complete _ sol).
    + apply backtrack_restores.
    + intros s1 H1. apply backtrack_total. lia.
    + apply (IH _ (l ++ [var])); try assumption.
      pose proof (unassigned_commit s var (sol var) Hin). lia.
    + apply andb_true_iff. split.
      * rewrite Ea. now apply choice_consistent.
      * destruct (forward_check s var (sol var)) eqn:F; [reflexivity|].
        apply forward_check_false_spec in F.
        destruct F as (_ & other & Io & Mo & Hw). exfalso.
        rewrite Es1 in Mo, Hw.
        assert (No : ~ In other (l ++ [var])).
        { apply mem_false_get, get_None_keys in Mo.
          now rewrite keys_of_choice in Mo. }
        pose proof (choice_consistent s sol (l ++ [var]) other
                      Hsol ND1 Hincl1 Io No) as C.
        rewrite (Hw (sol other)) in C; [discriminate|].
        now apply Hsol.
    + exact Hin.
    + unfold order_domain_values. now apply Hsol.
  - exfalso. apply Len. rewrite Ea, length_map.
    unfold select_unassigned_variable in Sel.
    destruct (unassigned s) as [|v rest] eqn:U; [|discriminate].
    apply Nat.le_antisymm.
    + now apply NoDup_incl_length.
    + apply NoDup_incl_length; [assumption|].
      intros v Iv.
      destruct (in_dec eq_dec v l) as [I|N]; [exact I|]. exfalso.
      assert (Hu : In v (unassigned s)).
      { apply unassigned_spec. split; [assumption|].
        apply get_None_keys. now rewrite Ea, keys_of_choice. }
      rewrite U in Hu. exact Hu.
Qed.

(** [backtrack_complete] from the empty assignment. *)
Lemma solve_of_hereditary s sol :
  NoDup (variables s) ->
  hereditary_solution s sol ->
  exists s' a, solve s = Some (s', Some a).
Proof.
  intros ND Hsol. unfold solve.
  apply (backtrack_complete sol _ _ []); try assumption.
  - constructor.
  - intros x [].
  - reflexivity.
  - unfold unassigned. simpl. apply Nat.lt_succ_r, filter_length_le.
Qed.

(** X4. The search is complete for constraints that are inherited by
    sub-assignments: when the variables are registered once each and some
    choice of a domain value per variable passes every constraint on every
    list of distinct variables, [solve] returns an assignment. *)
Theorem solve_finds_a_solution s sol :
  NoDup (variables s) ->
  hereditary_solution s sol ->
  exists s' a, solve s = Some (s', Some a).
Proof. apply solve_of_hereditary. Qed.
End EngineExtras.

(** * Further properties of setup_csp *)

Section SetupExtras.
Import FacultyScheduler Examples.

Lemma setup_timeslots_variables self self0 subject tss : forall s,
  (forall sub ts, sorted_values self0 sub ts = sorted_values self sub ts) ->
  CSPSolver.variables (fold_left (setup_variable self0 subject) tss s)
  = CSPSolver.variables s
    ++ map (fun ts => (s_id subject, t_id ts))
           (filter (fun ts => match sorted_values self subject ts with
                              | [] => false
                              | _ => true
                              end) tss).
Proof.
  intros s Hsv. revert s.
  induction tss as [|ts tss IH]; intros s; simpl; [now rewrite app_nil_r|].
  rewrite IH. unfold setup_variable. rewrite Hsv.
  destruct (sorted_values self subject ts); simpl; [reflexivity|].
  now rewrite <- app_assoc.
Qed.

Lemma setup_subjects_variables self self0 subs : forall s,
  (forall sub ts, sorted_values self0 sub ts = sorted_values self sub ts) ->
  CSPSolver.variables
    (fold_left (fun s subject =>
                  fold_left (setup_variable self0 subject) (timeslots self) s)
               subs s)
  = CSPSolver.variables s
    ++ flat_map
         (fun subject =>
            map (fun ts => (s_id subject, t_id ts))
                (filter (fun ts => match sorted_values self subject ts with
                                   | [] => false
                                   | _ => true
                                   end) (timeslots self)))
         subs.
Proof.
  intros s Hsv. revert s.
  induction subs as [|subject subs IH]; intros s; simpl; [now rewrite app_nil_r|].
  rewrite IH, (setup_timeslots_variables self) by assumption.
  now rewrite <- app_assoc.
Qed.

Lemma setup_csp_variables self :
  CSPSolver.variables (solver (setup_csp self)) = registered_pairs self.
Proof.
  unfold setup_csp, registered_pairs. simpl.
  now rewrite (setup_subjects_variables self) by reflexivity.
Qed.

(** A value list is not empty exactly when some faculty record is
    qualified and some classroom is eligible. *)
Lemma In_sorted_values self subject timeslot fid cid :
  In (fid, cid) (sorted_values self subject timeslot)
  <-> (exists f, In f (faculty self) /\ f_id f = fid
                 /\ In (s_id subject) (qualified_subjects f))
      /\ (exists c, In c (classrooms self) /\ c_id c = cid
                    /\ (lab_hours subject > 0 -> has_lab c = true)).
Proof.
  unfold sorted_values. rewrite in_map_iff. split.
  - intros ([v sc] & E & I). simpl in E. subst v.
    apply py_sorted_In in I. unfold domain_values in I.
    apply in_flat_map in I. destruct I as (fid' & Hf & I).
    unfold suitable_faculty in Hf. apply in_map_iff in Hf.
    destruct Hf as (f' & Ef & If). apply filter_In in If. destruct If as [If Q].
    destruct (find_faculty self fid'); [|destruct I].
    apply in_map_iff in I. destruct I as (c & E & Ic). inversion E; subst.
    split.
    + exists f'. repeat split; [assumption | now apply py_in_iff].
    + exists c. unfold eligible_classrooms in Ic.
      apply In_possible_classrooms in Ic. tauto.
  - intros [(f & If & Ef & Q) (c & Ic & Ec & L)].
    assert (Hs : In fid (suitable_faculty self (s_id subject))).
    { unfold suitable_faculty. apply in_map_iff. exists f. split; [assumption|].
      apply filter_In. split; [assumption | now apply py_in_iff]. }
    destruct (find_exists f_id (faculty self) fid) as [f0 F]; [eauto|].
    exists ((fid, cid),
            calculate_faculty_preference_score self f0 timeslot PyDict.empty).
    split; [reflexivity|]. apply py_sorted_In. unfold domain_values.
    apply in_flat_map. exists fid. split; [assumption|].
    unfold find_faculty. rewrite F. apply in_map_iff. exists c.
    split; [now rewrite Ec|].
    unfold eligible_classrooms. apply In_possible_classrooms. tauto.
Qed.

(** X5. [setup_csp] registers the pair (subject id, timeslot id) exactly
    when the subject table has a record with that id and lab hours that are
    not negative, the timeslot table has the timeslot, some faculty record
    lists the subject as qualified and some classroom is eligible (any
    classroom, a lab classroom for a subject with lab hours). *)
Theorem setup_csp_registers self sid tid :
  In (sid, tid) (CSPSolver.variables (solver (setup_csp self)))
  <-> exists subject ts f c,
      In subject (subjects self) /\ s_id subject = sid
      /\ 0 <= lab_hours subject
      /\ In ts (timeslots self) /\ t_id ts = tid
      /\ In f (faculty self) /\ In sid (qualified_subjects f)
      /\ In c (classrooms self)
      /\ (lab_hours subject > 0 -> has_lab c = true).
Proof.
  rewrite setup_csp_variables. unfold registered_pairs.
  rewrite in_flat_map. split.
  - intros (subject & Io & I). apply in_map_iff in I.
    destruct I as (ts & E & I). inversion E; subst. clear E.
    apply filter_In in I. destruct I as [It Ne].
    apply In_ordered_subjects in Io. destruct Io as [Is L].
    destruct (sorted_values self subject ts) as [|[fid cid] l] eqn:SV;
      [discriminate|].
    assert (Iv : In (fid, cid) (sorted_values self subject ts))
      by (rewrite SV; now left).
    apply In_sorted_values in Iv.
    destruct Iv as [(f & If & _ & Q) (c & Ic & _ & Lc)].
    exists subject, ts, f, c. tauto.
  - intros (subject & ts & f & c & Is & Es & L & It & Et & If & Q & Ic & Lc).
    subst. exists subject. split; [apply In_ordered_subjects; tauto|].
    apply in_map_iff. exists ts. split; [reflexivity|].
    apply filter_In. split; [assumption|].
    assert (Iv : In (f_id f, c_id c) (sorted_values self subject ts)).
    { apply In_sorted_values. split; [exists f | exists c]; tauto. }
    destruct (sorted_values self subject ts); [destruct Iv | reflexivity].
Qed.

Lemma NoDup_pairs {A B} (f : A -> Z) (g : B -> Z) (p : A -> B -> bool)
    (la : list A) (lb : list B) :
  NoDup (map f la) -> NoDup (map g lb) ->
  NoDup (flat_map (fun a => map (fun b => (f a, g b)) (filter (p a) lb)) la).
Proof.
  intros NDa NDb. induction la as [|a la IH]; simpl; [constructor|].
  inversion NDa as [|? ? Ha NDa']; subst.
  apply NoDup_app; [| now apply IH |].
  - clear IH Ha NDa NDa'. induction lb as [|b lb IHb]; simpl; [constructor|].
    inversion NDb as [|? ? Hb NDb']; subst.
    destruct (p a b); simpl; [|now apply IHb].
    constructor; [|now apply IHb].
    intros I. apply in_map_iff in I. destruct I as (b' & E & I).
    inversion E as [Eg]. apply filter_In in I. apply Hb. rewrite <- Eg.
    apply in_map. tauto.
  - intros x I1 I2. apply in_map_iff in I1. destruct I1 as (b & E & _). subst x.
    apply in_flat_map in I2. destruct I2 as (a' & Ia' & I2).
    apply in_map_iff in I2. destruct I2 as (b' & E & _). inversion E as [[Ef Eg]].
    apply Ha. rewrite <- Ef. now apply in_map.
Qed.

Lemma ordered_subjects_ids self :
  NoDup (map s_id (subjects self)) -> NoDup (map s_id (ordered_subjects self)).
Proof.
  intros ND. unfold ordered_subjects. rewrite map_app.
  assert (Hf : forall p, NoDup (map s_id (filter p (subjects self)))).
  { intros p. induction (subjects self) as [|x l IH]; simpl; [constructor|].
    inversion ND as [|? ? Hx ND']; subst.
    destruct (p x); simpl; [|now apply IH].
    constructor; [|now apply IH].
    intros I. apply in_map_iff in I. destruct I as (y & E & I).
    apply filter_In in I. apply Hx. rewrite <- E. apply in_map. tauto. }
  apply NoDup_app; try apply Hf.
  intros i I1 I2. apply in_map_iff in I1, I2.
  destruct I1 as (x & Ex & I1), I2 as (y & Ey & I2).
  apply filter_In in I1, I2. destruct I1 as [I1 P1], I2 as [I2 P2].
  assert (x = y)
    by (apply (NoDup_map_eq s_id (subjects self)); try assumption; congruence).
  subst y. rewrite Z.gtb_ltb in P1. apply Z.ltb_lt in P1. apply Z.eqb_eq in P2. lia.
Qed.

Lemma setup_csp_variables_NoDup self :
  well_formed self -> NoDup (CSPSolver.variables (solver (setup_csp self))).
Proof.
  intros WF. rewrite setup_csp_variables. unfold registered_pairs.
  apply (NoDup_pairs s_id t_id
           (fun subject ts => match sorted_values self subject ts with
                              | [] => false
                              | _ => true
                              end)).
  - apply ordered_subjects_ids, WF.
  - apply WF.
Qed.

(** The domain that [setup_csp] stores for a subject and a timeslot of the
    tables is their sorted value list. *)
Lemma setup_csp_domain self subject ts :
  well_formed self ->
  In subject (subjects self) -> 0 <= lab_hours subject ->
  In ts (timeslots self) ->
  CSPSolver.domain_of (solver (setup_csp self)) (s_id subject, t_id ts)
  = sorted_values self subject ts.
Proof.
  intros WF Is L It.
  destruct (setup_csp_solver self)
    as (s0 & (Hc & Ha & Hd & Hr) & _ & _ & _ & _ & _ & Ev0 & Ed0 & _ & _).
  unfold CSPSolver.domain_of. rewrite Ed0.
  destruct (PyDict.get _ (CSPSolver.domains s0)) as [vals|] eqn:G.
  - apply get_Some_In in G.
    destruct (Hd _ _ G) as (sub & ts' & Io & It' & E & Evals & _).
    inversion E as [[Es Et]]. apply In_ordered_subjects in Io.
    assert (sub = subject); [|assert (ts' = ts)]; [| |now subst].
    + apply (NoDup_map_eq s_id (subjects self)); [apply WF | tauto | assumption | congruence].
    + apply (NoDup_map_eq t_id (timeslots self)); [apply WF | assumption.. | congruence].
  - destruct (sorted_values self subject ts) as [|[fid cid] l] eqn:SV; [reflexivity|].
    exfalso.
    assert (Iv : In (s_id subject, t_id ts)
                    (CSPSolver.variables (solver (setup_csp self)))).
    { rewrite setup_csp_variables. unfold registered_pairs.
      apply in_flat_map. exists subject. split; [apply In_ordered_subjects; tauto|].
      apply in_map_iff. exists ts. split; [reflexivity|].
      apply filter_In. split; [assumption|]. now rewrite SV. }
    rewrite Ev0 in Iv. destruct (Hr _ Iv) as [vals G']. congruence.
Qed.

(** X6. For a well-formed instance the domain of the variable of a
    subject and a timeslot holds exactly the pairs of a qualified faculty
    id and an eligible classroom id. *)
Theorem setup_csp_domain_values self subject ts fid cid :
  well_formed self ->
  In subject (subjects self) -> In ts (timeslots self) ->
  (In (fid, cid)
      (CSPSolver.domain_of (solver (setup_csp self)) (s_id subject, t_id ts))
   <-> (exists f, In f (faculty self) /\ f_id f = fid
                  /\ In (s_id subject) (qualified_subjects f))
       /\ (exists c, In c (classrooms self) /\ c_id c = cid
                     /\ (lab_hours subject > 0 -> has_lab c = true))).
Proof.
  intros WF Is It.
  rewrite setup_csp_domain; try assumption.
  - apply In_sorted_values.
  - now apply WF.
Qed.

Lemma setup_csp_domain_values_witness :
  In (2, 1) (CSPSolver.domain_of (solver (setup_csp demo))
                                 (s_id programming, t_id monday_9))
  <-> (exists f, In f (faculty demo) /\ f_id f = 2
                 /\ In (s_id programming) (qualified_subjects f))
      /\ (exists c, In c (classrooms demo) /\ c_id c = 1
                    /\ (lab_hours programming > 0 -> has_lab c = true)).
Proof.
  apply (setup_csp_domain_values demo programming monday_9 2 1).
  - exact demo_well_formed.
  - now left.
  - now left.
Defined.
End SetupExtras.

(** * Further properties of the constraints *)

Section ConstraintExtras.
Import FacultyScheduler Examples.

(** X7. The faculty-conflict constraint holds exactly when no two items of
    the assignment have the same faculty id and the same timeslot id. *)
Theorem no_faculty_conflicts_constraint_iff self a :
  no_faculty_conflicts_constraint self a = true
  <-> NoDup (map (fun item : variable * value => (fst (snd item), snd (fst item))) a).
Proof. apply no_faculty_conflicts_spec. Qed.

(** X8. The classroom-collision constraint holds exactly when no two
    items of the assignment have the same classroom id and the same
    timeslot id. *)
Theorem no_classroom_collision_constraint_iff self a :
  no_classroom_collision_constraint self a = true
  <-> NoDup (map (fun item : variable * value => (snd (snd item), snd (fst item))) a).
Proof. apply no_classroom_collision_spec. Qed.

(** X9. The lab constraint holds exactly when every item whose subject id
    belongs to a subject with lab hours has a classroom id that is either
    unknown to the classroom table or that of a lab classroom (the first
    record with that id decides). *)
Theorem handle_labs_constraint_iff self a :
  handle_labs_constraint self a = true
  <-> forall sid tid fid cid subject,
      In ((sid, tid), (fid, cid)) a ->
      In subject (subjects self) -> s_id subject = sid ->
      lab_hours subject > 0 ->
      find_classroom self cid = None
      \/ exists c, find_classroom self cid = Some c /\ has_lab c = true.
Proof.
  rewrite handle_labs_spec. split.
  - intros H sid tid fid cid subject I Is Es L.
    destruct (find_classroom self cid) as [c|] eqn:F; [|now left].
    right. exists c. split; [reflexivity|].
    apply (H sid tid fid cid c I); [|assumption].
    unfold subjects_with_labs. apply in_map_iff. exists subject.
    split; [assumption|]. apply filter_In. split; [assumption|].
    apply Z.gtb_lt. lia.
  - intros H sid tid fid cid c I L F.
    unfold subjects_with_labs in L. apply in_map_iff in L.
    destruct L as (subject & Es & L). apply filter_In in L. destruct L as [Is L].
    apply Z.gtb_lt in L.
    destruct (H sid tid fid cid subject I Is Es) as [N|(c' & F' & Hl)]; [lia | congruence | congruence].
Qed.

Lemma NoDup_map_incl {A B} (f : A -> B) (l l' : list A) :
  NoDup (map f l) -> NoDup l' -> incl l' l -> NoDup (map f l').
Proof.
  intros ND ND' Hincl. induction l' as [|x l' IH]; simpl; [constructor|].
  inversion ND' as [|? ? Hx ND'']; subst.
  constructor.
  - intros I. apply in_map_iff in I. destruct I as (y & E & Iy).
    assert (y = x).
    { apply (NoDup_map_eq f l); try assumption.
      - apply Hincl. now right.
      - apply Hincl. now left. }
    subst y. contradiction.
  - apply IH; [assumption|]. intros y Iy. apply Hincl. now right.
Qed.

Lemma zsum_incl (g : Z -> Z) (l1 : list Z) : forall l2,
  (forall x, 0 <= g x) -> NoDup l1 -> incl l1 l2 ->
  zsum (map g l1) <= zsum (map g l2).
Proof.
  induction l1 as [|x l1 IH]; intros l2 Hg ND Hincl; simpl.
  - clear Hincl. induction l2 as [|y l2 IH2]; simpl; [lia|].
    specialize (Hg y). lia.
  - inversion ND as [|? ? Hx ND']; subst.
    destruct (in_split x l2) as (la & lb & E); [apply Hincl; now left|].
    subst l2.
    assert (Hincl' : incl l1 (la ++ lb)).
    { intros y Iy. assert (Iy' : In y (la ++ x :: lb)) by (apply Hincl; now right).
      apply in_app_or in Iy'. apply in_or_app.
      destruct Iy' as [I|[E|I]]; [now left | subst; contradiction | now right]. }
    specialize (IH (la ++ lb) Hg ND' Hincl').
    rewrite (zsum_perm (map g (la ++ x :: lb)) (map g (x :: la ++ lb))).
    + simpl. lia.
    + apply Permutation_map, Permutation_sym, Permutation_middle.
Qed.

Lemma subject_hours_nonneg self sid :
  well_formed self -> 0 <= subject_hours self sid.
Proof.
  intros WF. unfold subject_hours, find_subject.
  destruct (find _ _) as [s0|] eqn:F; [|lia].
  apply find_some in F. now apply WF.
Qed.

Lemma total_hours_incl self a a' fid :
  well_formed self -> incl a' a ->
  total_hours self a' fid <= total_hours self a fid.
Proof.
  intros WF Hincl. unfold total_hours.
  apply zsum_incl.
  - intros x. now apply subject_hours_nonneg.
  - apply NoDup_nodup.
  - intros x I. apply In_assigned_subjects in I. apply In_assigned_subjects.
    apply in_map_iff in I. destruct I as (item & E & I).
    apply in_map_iff. exists item. split; [assumption | now apply Hincl].
Qed.

Lemma four_constraints_inherited self a a' :
  well_formed self -> NoDup a' -> incl a' a ->
  four_constraints self a = true -> four_constraints self a' = true.
Proof.
  intros WF ND Hincl H. unfold four_constraints in *.
  rewrite !andb_true_iff in *. destruct H as (((C1 & C2) & C3) & C4).
  repeat split.
  - rewrite faculty_requirements_spec in *.
    intros fid S0 f _ F.
    eapply Z.le_trans; [apply (total_hours_incl self a a'); assumption|].
    destruct (PyDict.get fid (faculty_subjects_of a)) as [S1|] eqn:G.
    + eapply C1; eassumption.
    + rewrite total_hours_unassigned by assumption.
      apply WF. unfold find_faculty in F. now apply find_some in F.
  - apply no_faculty_conflicts_spec. apply no_faculty_conflicts_spec in C2.
    now apply (NoDup_map_incl faculty_slot a).
  - apply no_classroom_collision_spec. apply no_classroom_collision_spec in C3.
    now apply (NoDup_map_incl classroom_slot a).
  - rewrite handle_labs_spec in *. intros sid tid fid cid c I.
    apply (C4 sid tid fid cid c). now apply Hincl.
Qed.

(** X10. For a well-formed instance the four constraints are inherited by
    sub-assignments: when they hold on an assignment they hold on any
    selection of its items without repetition, in any order. *)
Theorem constraints_inherited_by_sub_assignments self a a' :
  well_formed self -> NoDup a' -> incl a' a ->
  faculty_requirements_constraint self a = true ->
  no_faculty_conflicts_constraint self a = true ->
  no_classroom_collision_constraint self a = true ->
  handle_labs_constraint self a = true ->
  faculty_requirements_constraint self a' = true
  /\ no_faculty_conflicts_constraint self a' = true
  /\ no_classroom_collision_constraint self a' = true
  /\ handle_labs_constraint self a' = true.
Proof.
  intros WF ND Hincl C1 C2 C3 C4.
  assert (H : four_constraints self a' = true).
  { apply (four_constraints_inherited self a); try assumption.
    unfold four_constraints. now rewrite C1, C2, C3, C4. }
  unfold four_constraints in H. rewrite !andb_true_iff in H. tauto.
Qed.

Lemma constraints_inherited_by_sub_assignments_witness :
  faculty_requirements_constraint demo [((2, 1), (1, 2))] = true
  /\ no_faculty_conflicts_constraint demo [((2, 1), (1, 2))] = true
  /\ no_classroom_collision_constraint demo [((2, 1), (1, 2))] = true
  /\ handle_labs_constraint demo [((2, 1), (1, 2))] = true.
Proof.
  apply (constraints_inherited_by_sub_assignments demo demo_assignment).
  - exact demo_well_formed.
  - repeat constructor. simpl. tauto.
  - intros x [E|[]]. subst x. right. now left.
  - reflexivity.
  - reflexivity.
  - reflexivity.
  - reflexivity.
Defined.
End ConstraintExtras.

(** * Further properties of the scheduler's solve *)

Section SolveExtras.
Import FacultyScheduler Examples.

Lemma choice_of_In a var val :
  NoDup (PyDict.keys a) -> In (var, val) a -> choice_of a var = val.
Proof.
  intros ND I. unfold choice_of. now rewrite (In_get_unique _ _ _ ND I).
Qed.

(** A complete assignment that passes the four constraints gives the
    engine of [setup_csp] a choice that the search can follow. *)
Lemma choice_hereditary self a :
  well_formed self ->
  NoDup (PyDict.keys a) ->
  (forall var, In var (CSPSolver.variables (solver (setup_csp self))) ->
     exists val, In (var, val) a
                 /\ In val (CSPSolver.domain_of (solver (setup_csp self)) var)) ->
  four_constraints self a = true ->
  hereditary_solution (solver (setup_csp self)) (choice_of a).
Proof.
  intros WF ND Hcov H4. split.
  - intros v Iv. destruct (Hcov v Iv) as (val & Ia & Id).
    now rewrite (choice_of_In a v val).
  - intros l NDl Hincl.
    destruct (setup_csp_solver self)
      as (s0 & _ & _ & _ & _ & _ & _ & _ & _ & _ & Ec0).
    unfold all_constraints. rewrite Ec0. simpl. rewrite andb_true_r.
    assert (H : four_constraints self (map (fun v => (v, choice_of a v)) l) = true).
    { apply (four_constraints_inherited self a); try assumption.
      - apply (NoDup_map_inv fst). rewrite map_map. simpl. now rewrite map_id.
      - intros [v val] I. apply in_map_iff in I. destruct I as (v' & E & I).
        inversion E; subst. destruct (Hcov v (Hincl v I)) as (val & Ia & _).
        now rewrite (choice_of_In a v val). }
    unfold four_constraints in H. now rewrite <- !andb_assoc in H.
Qed.

Lemma solve_hybrid_complete self sol :
  NoDup (CSPSolver.variables (solver self)) ->
  hereditary_solution (solver self) sol ->
  exists r, solve_hybrid self = Some (r, true).
Proof.
  intros ND Hsol. unfold solve_hybrid.
  destruct (solve_of_hereditary
              (solver (set_solver self
                 (CSPSolver.set_assignment (solver self)
                    (partial_assignment_of self)))) sol ND Hsol)
    as (s' & a' & E).
  rewrite E. eauto.
Qed.

(** X11. For a well-formed instance, when some assignment gives every
    registered variable a value of its domain and passes the four
    constraints, [solve] returns [True], with or without pre-assignments. *)
Theorem solve_succeeds_when_assignment_exists self pre a :
  well_formed self ->
  NoDup (PyDict.keys a) ->
  (forall var, In var (CSPSolver.variables (solver (setup_csp self))) ->
     exists val, In (var, val) a
                 /\ In val (CSPSolver.domain_of (solver (setup_csp self)) var)) ->
  faculty_requirements_constraint self a = true ->
  no_faculty_conflicts_constraint self a = true ->
  no_classroom_collision_constraint self a = true ->
  handle_labs_constraint self a = true ->
  exists r, solve self pre = Some (r, true).
Proof.
  intros WF ND Hcov C1 C2 C3 C4.
  assert (Hsol : hereditary_solution (solver (setup_csp self)) (choice_of a)).
  { apply choice_hereditary; try assumption.
    unfold four_constraints. now rewrite C1, C2, C3, C4. }
  pose proof (setup_csp_variables_NoDup self WF) as NDv.
  unfold solve.
  destruct pre as [[|item more]|];
    try (apply (solve_hybrid_complete _ (choice_of a)); assumption).
  destruct (solve_of_hereditary
              (solver (set_solver (setup_csp self)
                 (CSPSolver.set_assignment (solver (setup_csp self))
                    (item :: more)))) (choice_of a) NDv Hsol)
    as (s' & a' & E).
  rewrite E. eauto.
Qed.

Lemma demo_assignment_covers var :
  In var (CSPSolver.variables (solver (setup_csp demo))) ->
  exists val, In (var, val) demo_assignment
              /\ In val (CSPSolver.domain_of (solver (setup_csp demo)) var).
Proof.
  intros I. vm_compute in I. destruct I as [E|[E|[]]]; subst var.
  - exists (2, 1). split; [now left | vm_compute; tauto].
  - exists (1, 2). split; [right; now left | vm_compute; tauto].
Qed.

Lemma demo_assignment_keys : NoDup (PyDict.keys demo_assignment).
Proof.
  repeat constructor; simpl; [intros [E|[]]; discriminate | tauto].
Qed.

Lemma solve_succeeds_when_assignment_exists_witness :
  exists r, solve demo (Some demo_seed) = Some (r, true).
Proof.
  apply (solve_succeeds_when_assignment_exists demo (Some demo_seed)
           demo_assignment).
  - exact demo_well_formed.
  - exact demo_assignment_keys.
  - exact demo_assignment_covers.
  - reflexivity.
  - reflexivity.
  - reflexivity.
  - reflexivity.
Defined.

Lemma solve_finds_a_solution_witness :
  exists s' a, CSPSolver.solve demo_engine = Some (s', Some a).
Proof.
  apply (solve_finds_a_solution demo_engine (choice_of demo_assignment)).
  - exact (setup_csp_variables_NoDup demo demo_well_formed).
  - apply (choice_hereditary demo demo_assignment).
    + exact demo_well_formed.
    + exact demo_assignment_keys.
    + exact demo_assignment_covers.
    + reflexivity.
Defined.

(** X12. For a well-formed instance the schedule of a successful [solve]
    has one entry for every registered (subject, timeslot) pair and no
    other: every registered subject gets a meeting in every timeslot. *)
Theorem solve_schedules_every_variable self pre r :
  well_formed self ->
  solve self pre = Some (r, true) ->
  Permutation (map (fun e => (subject_id e, timeslot_id e)) (schedule r))
              (registered_pairs self).
Proof.
  intros WF E. apply solve_success in E.
  destruct E as (_ & s1 & (Ev & _ & _) & E & Sch).
  destruct (solve_complete_facts _ _ _ E) as (ND & Hincl & Hl & _).
  rewrite Sch, map_map. simpl.
  change (map (fun x : variable * value => (fst (fst x), snd (fst x)))
              (CSPSolver.assignment (solver r)))
    with (map (fun x : variable * value => (fst (fst x), snd (fst x)))
              (PyDict.items (CSPSolver.assignment (solver r)))).
  rewrite <- setup_csp_variables, <- Ev.
  assert (Ek : map (fun x : variable * value => (fst (fst x), snd (fst x)))
                   (CSPSolver.assignment (solver r))
               = PyDict.keys (CSPSolver.assignment (solver r))).
  { apply map_ext. now intros [[sid tid] val]. }
  unfold PyDict.items. rewrite Ek.
  apply NoDup_Permutation_bis; try assumption.
  unfold PyDict.keys. rewrite length_map.
  apply Nat.eq_le_incl. symmetry. exact Hl.
Qed.

Lemma solve_schedules_every_variable_witness :
  Permutation (map (fun e => (subject_id e, timeslot_id e)) (schedule demo_solved))
              (registered_pairs demo).
Proof.
  apply (solve_schedules_every_variable demo None demo_solved).
  - exact demo_well_formed.
  - vm_compute. reflexivity.
Defined.

End SolveExtras.

(** * Further properties of the direct construction *)

Section DirectExtras.
Import FacultyScheduler Examples.

Lemma try_timeslots_works st f subject possible tss st' :
  try_timeslots st f subject possible tss = Some st' ->
  exists ts c, In ts tss /\ In c possible
               /\ ~ In (c_id c, t_id ts) (used_classroom_timeslots st)
               /\ st' = commit st f subject ts c.
Proof.
  induction tss as [|t0 tss IH]; simpl; [discriminate|].
  destruct (available_classrooms st possible (lab_hours subject >? 0) (t_id t0))
    as [|c0 l] eqn:A.
  - intros E. destruct (IH E) as (ts & c & I & H). exists ts, c. tauto.
  - intros E. inversion E. exists t0, c0.
    assert (I : In c0 (available_classrooms st possible (lab_hours subject >? 0)
                                            (t_id t0))) by (rewrite A; now left).
    unfold available_classrooms in I. apply py_sorted_In in I.
    unfold free_classrooms in I. apply filter_In in I. destruct I as [I N].
    apply negb_true_iff in N. repeat split; auto.
    intros Hin. apply py_in_iff in Hin. congruence.
Qed.

Lemma try_faculty_works self st subject possible fs st' :
  try_faculty self st subject possible fs = Some st' ->
  exists f ts c,
    In f fs /\ hours_of st (f_id f) + hours subject <= max_hours f
    /\ In ts (available_timeslots self st f possible) /\ In c possible
    /\ ~ In (c_id c, t_id ts) (used_classroom_timeslots st)
    /\ st' = commit st f subject ts c.
Proof.
  induction fs as [|f0 fs IH]; simpl; [discriminate|].
  destruct (hours_of st (f_id f0) + hours subject >? max_hours f0) eqn:G.
  - intros E. destruct (IH E) as (f & ts & c & I & H). exists f, ts, c. tauto.
  - destruct (try_timeslots st f0 subject possible _) as [st1|] eqn:T.
    + intros E. inversion E; subst st1. apply try_timeslots_works in T.
      destruct T as (ts & c & It & Ic & Nc & Ec). exists f0, ts, c.
      rewrite Z.gtb_ltb in G. apply Z.ltb_ge in G. tauto.
    + intros E. destruct (IH E) as (f & ts & c & I & H). exists f, ts, c. tauto.
Qed.

(** The combination that [assign_subject] commits works. *)
Lemma assign_subject_works self st subject st' :
  assign_subject self st subject = Some st' ->
  exists f ts c, combination_works self st subject f ts c
                 /\ st' = commit st f subject ts c.
Proof.
  unfold assign_subject. intros E. apply try_faculty_works in E.
  destruct E as (f & ts & c & If & L & It & Ic & Nc & Ec).
  apply In_qualified_faculty in If. apply In_available_timeslots in It.
  apply In_possible_classrooms in Ic.
  exists f, ts, c. unfold combination_works. tauto.
Qed.

Lemma hours_of_commit st f subject ts c i :
  hours_of (commit st f subject ts c) i
  = if Z.eq_dec i (f_id f) then hours_of st (f_id f) + hours subject
    else hours_of st i.
Proof.
  unfold hours_of at 1. simpl. destruct (Z.eq_dec i (f_id f)) as [E|N].
  - subst. now rewrite get_set_same.
  - now rewrite get_set_other.
Qed.

Lemma timeslots_of_commit st f subject ts c i :
  timeslots_of (commit st f subject ts c) i
  = if Z.eq_dec i (f_id f)
    then set_add Z.eq_dec (t_id ts) (timeslots_of st (f_id f))
    else timeslots_of st i.
Proof.
  unfold timeslots_of at 1. simpl. destruct (Z.eq_dec i (f_id f)) as [E|N].
  - subst. now rewrite get_set_same.
  - now rewrite get_set_other.
Qed.

Lemma hours_of_init self i : hours_of (direct_init self) i = 0.
Proof.
  unfold hours_of, direct_init. simpl.
  assert (G : forall fs (d : dict Z Z),
             (forall h, PyDict.get i d = Some h -> h = 0) ->
             forall h, PyDict.get i
                         (fold_left (fun d f => PyDict.set (f_id f) 0 d) fs d)
                       = Some h -> h = 0).
  { induction fs as [|f fs IH]; intros d Hd h; simpl; [apply Hd|].
    apply IH. intros h'. destruct (Z.eq_dec i (f_id f)) as [E|N].
    - subst. rewrite get_set_same. congruence.
    - rewrite get_set_other by assumption. apply Hd. }
  destruct (PyDict.get i _) as [h|] eqn:E; [|reflexivity].
  apply (G (faculty self) PyDict.empty); [discriminate | exact E].
Qed.

Lemma direct_init_inv self : well_formed self -> direct_inv self (direct_init self).
Proof.
  intros WF. constructor; simpl; try (intros e []); try constructor.
  - intros i. apply hours_of_init.
  - intros f I. rewrite hours_of_init. now apply WF.
Qed.

(** A commit of a working combination keeps the records in step with the
    schedule. *)
Lemma commit_inv self st subject f ts c :
  well_formed self -> In subject (subjects self) ->
  combination_works self st subject f ts c ->
  direct_inv self st -> direct_inv self (commit st f subject ts c).
Proof.
  intros WF Is (If & Q & L & It & Nt & Ic & Lab & Nc) [Hs Hu Hf Hc He Hh Hm].
  constructor.
  - intros e I. simpl in I. apply in_app_or in I.
    rewrite timeslots_of_commit. destruct I as [I|[E|[]]].
    + destruct (Z.eq_dec (faculty_id e) (f_id f)) as [E|N]; [|now apply Hs].
      apply set_add_intro1. rewrite <- E. now apply Hs.
    + subst e. simpl. destruct (Z.eq_dec (f_id f) (f_id f)); [|congruence].
      now apply set_add_intro2.
  - intros e I. simpl in I. apply in_app_or in I. simpl.
    destruct I as [I|[E|[]]].
    + apply set_add_intro1. now apply Hu.
    + subst e. simpl. now apply set_add_intro2.
  - simpl. rewrite map_app. apply NoDup_app; [assumption | repeat constructor; simpl; tauto |].
    intros x I [E|[]]. subst x. apply in_map_iff in I.
    destruct I as (e & E & I). unfold faculty_slot, entry_item in E. simpl in E.
    inversion E as [[Ef Et]]. apply Nt. rewrite <- Ef, <- Et. auto.
  - simpl. rewrite map_app. apply NoDup_app; [assumption | repeat constructor; simpl; tauto |].
    intros x I [E|[]]. subst x. apply in_map_iff in I.
    destruct I as (e & E & I). unfold classroom_slot, entry_item in E. simpl in E.
    inversion E as [[Ec Et]]. apply Nc. rewrite <- Ec, <- Et. auto.
  - intros e I. simpl in I. apply in_app_or in I. destruct I as [I|[E|[]]]; [auto|].
    subst e. simpl. exists f, c, subject. tauto.
  - intros i. rewrite hours_of_commit. simpl. rewrite filter_app, map_app.
    assert (Hz : forall l1 l2, zsum (l1 ++ l2) = zsum l1 + zsum l2).
    { induction l1 as [|x l1 IH]; intros l2; simpl; [lia|]. rewrite IH. lia. }
    rewrite Hz, <- Hh. simpl.
    assert (Esub : subject_hours self (s_id subject) = hours subject).
    { unfold subject_hours, find_subject.
      rewrite (find_by_id s_id); [reflexivity | apply WF | assumption]. }
    destruct (Z.eq_dec i (f_id f)) as [E|N].
    + subst i. rewrite Z.eqb_refl. simpl. rewrite Esub. lia.
    + assert (Eb : (f_id f =? i) = false) by (apply Z.eqb_neq; congruence).
      rewrite Eb. simpl. lia.
  - intros f' If'. rewrite hours_of_commit.
    destruct (Z.eq_dec (f_id f') (f_id f)) as [E|N]; [|auto].
    assert (f' = f)
      by (apply (NoDup_map_eq f_id (faculty self)); [apply WF | assumption..]).
    now subst.
Qed.

Lemma direct_loop_inv self todo : forall st,
  well_formed self -> incl todo (subjects self) ->
  direct_inv self st -> direct_inv self (fst (direct_loop self st todo)).
Proof.
  induction todo as [|subject todo IH]; intros st WF Hincl Hinv; simpl; [exact Hinv|].
  destruct (assign_subject self st subject) as [st1|] eqn:A; [|exact Hinv].
  apply IH; [assumption | intros x Ix; apply Hincl; now right |].
  apply assign_subject_works in A. destruct A as (f & ts & c & W & E). subst st1.
  apply commit_inv; try assumption. apply Hincl. now left.
Qed.

Lemma filter_map_comm {A B} (h : A -> B) (p : B -> bool) (l : list A) :
  filter p (map h l) = map h (filter (fun x => p (h x)) l).
Proof.
  induction l as [|x l IH]; simpl; [reflexivity|].
  destruct (p (h x)); simpl; now rewrite IH.
Qed.

Lemma direct_inv_hard_invariants self st :
  well_formed self -> direct_inv self st ->
  hard_invariants self (map entry_item (ds_schedule st)).
Proof.
  intros WF [Hs Hu Hf Hc He Hh Hm]. constructor.
  - intros f If. eapply Z.le_trans; [|apply (Hm f If)].
    rewrite Hh. unfold total_hours, assigned_subjects.
    rewrite filter_map_comm, map_map. simpl.
    rewrite <- (map_map subject_id (subject_hours self)).
    apply zsum_incl.
    + intros x. now apply subject_hours_nonneg.
    + apply NoDup_nodup.
    + intros x I. now apply nodup_In in I.
  - intros s1 s2 ts fid c1 c2 I1 I2.
    apply in_map_iff in I1, I2.
    destruct I1 as (e1 & E1 & I1), I2 as (e2 & E2 & I2).
    assert (e1 = e2).
    { apply (NoDup_map_eq (fun e => faculty_slot (entry_item e)) (ds_schedule st));
        try assumption.
      rewrite E1, E2. reflexivity. }
    subst e2. congruence.
  - intros s1 s2 ts cid f1 f2 I1 I2.
    apply in_map_iff in I1, I2.
    destruct I1 as (e1 & E1 & I1), I2 as (e2 & E2 & I2).
    assert (e1 = e2).
    { apply (NoDup_map_eq (fun e => classroom_slot (entry_item e)) (ds_schedule st));
        try assumption.
      rewrite E1, E2. reflexivity. }
    subst e2. congruence.
  - intros sid ts fid cid subject I Is Es L.
    apply in_map_iff in I. destruct I as (e & E & I).
    unfold entry_item in E. inversion E; subst.
    destruct (He e I) as (f & c & sub & _ & _ & _ & Ic & Ec & Isub & Esub & Lab).
    assert (sub = subject)
      by (apply (NoDup_map_eq s_id (subjects self)); [apply WF | assumption.. | congruence]).
    subst sub. split; [eauto|].
    intros c' Ic' Ec'.
    assert (c' = c)
      by (apply (NoDup_map_eq c_id (classrooms self)); [apply WF | assumption.. | congruence]).
    subst c'. auto.
  - intros sid ts fid cid I.
    apply in_map_iff in I. destruct I as (e & E & I).
    unfold entry_item in E. inversion E; subst.
    destruct (He e I) as (f & c & sub & If & Ef & Q & _).
    split; [eauto|]. intros f' If' Ef'.
    assert (f' = f)
      by (apply (NoDup_map_eq f_id (faculty self)); [apply WF | assumption.. | congruence]).
    now subst.
Qed.

(** [direct_inv] holds of the final state of the loop. *)
Lemma direct_schedule_invariants self :
  well_formed self ->
  hard_invariants self (map entry_item (schedule (fst (direct_solve self)))).
Proof.
  intros WF. unfold direct_solve. simpl.
  apply direct_inv_hard_invariants; [assumption|].
  apply direct_loop_inv; [assumption | | now apply direct_init_inv].
  intros x I.
  apply (Permutation_in x (direct_ordered_subjects_perm self
           (fun s Hs => proj2 (wf_hours self WF s Hs)))).
  exact I.
Qed.

(** X14. For a well-formed instance the schedule that [direct_solve]
    leaves, complete or not, satisfies the five hard invariants: hours
    within [max_hours], no faculty and no classroom twice in a timeslot,
    lab subjects in lab classrooms, qualified faculty. *)
Theorem direct_solve_hard_invariants self :
  well_formed self ->
  hard_invariants self (map entry_item (schedule (fst (direct_solve self)))).
Proof. apply direct_schedule_invariants. Qed.

Lemma direct_solve_hard_invariants_witness :
  hard_invariants demo (map entry_item (schedule (fst (direct_solve demo)))).
Proof.
  apply (direct_solve_hard_invariants demo). exact demo_well_formed.
Defined.

(** The loop stops at the first subject without a working combination:
    the subjects placed are a prefix of the list, all of it on success;
    each of them had a working combination in the state left by the ones
    before it, and the subject after them has none in the state they
    leave, which is the final one. *)
Lemma direct_loop_prefix self todo : forall st,
  exists placed rest,
    todo = placed ++ rest
    /\ map subject_id (ds_schedule (fst (direct_loop self st todo)))
       = map subject_id (ds_schedule st) ++ map s_id placed
    /\ (snd (direct_loop self st todo) = true <-> rest = [])
    /\ fst (direct_loop self st todo) = fst (direct_loop self st placed)
    /\ (forall before subject after,
          placed = before ++ subject :: after ->
          exists f ts c,
            combination_works self (fst (direct_loop self st before))
                              subject f ts c)
    /\ (forall subject after,
          rest = subject :: after ->
          forall f ts c,
            ~ combination_works self (fst (direct_loop self st placed))
                                subject f ts c).
Proof.
  induction todo as [|subject todo IH]; intros st.
  - exists [], []. simpl. rewrite app_nil_r. repeat split; try discriminate.
    + intros before subject after E. destruct before; discriminate.
  - simpl. destruct (assign_subject self st subject) as [st1|] eqn:A.
    + destruct (IH st1) as (placed & rest & E & Hs & Ht & He & Hp & Hr).
      exists (subject :: placed), rest. simpl. rewrite A.
      split; [now rewrite E|]. split.
      { rewrite Hs. apply assign_subject_Some in A.
        destruct A as (f & ts & c & A). subst st1. simpl.
        now rewrite map_app, <- app_assoc. }
      split; [exact Ht|]. split; [exact He|]. split; [|exact Hr].
      intros before s after Eb. destruct before as [|b before].
      * simpl in Eb. inversion Eb; subst s after. simpl.
        destruct (assign_subject_works _ _ _ _ A) as (f & ts & c & W & _).
        eauto.
      * simpl in Eb. inversion Eb; subst b placed. simpl. rewrite A.
        now apply (Hp before s after).
    + exists [], (subject :: todo). simpl. rewrite app_nil_r.
      repeat split; try discriminate.
      * intros before s after E. destruct before; discriminate.
      * intros s after E. inversion E; subst s after.
        now apply assign_subject_None.
Qed.

(** X15. [direct_solve] places the subjects in its order (lab subjects by
    decreasing hours plus lab hours, then the others by decreasing hours)
    one entry each, and stops at the first subject for which no (faculty,
    timeslot, classroom) combination works: the schedule covers a prefix
    of that order, the whole of it exactly when the answer is [True]; every
    subject of the prefix had a working combination in the state left by
    the subjects before it, and the subject after the prefix, if there is
    one, has none in the state that the prefix leaves. *)
Theorem direct_solve_places_a_prefix self :
  exists placed rest,
    direct_ordered_subjects self = placed ++ rest
    /\ map subject_id (schedule (fst (direct_solve self))) = map s_id placed
    /\ (snd (direct_solve self) = true <-> rest = [])
    /\ (forall before subject after,
          placed = before ++ subject :: after ->
          exists f ts c,
            combination_works
              self (fst (direct_loop self (direct_init self) before))
              subject f ts c)
    /\ (forall subject after,
          rest = subject :: after ->
          forall f ts c,
            ~ combination_works
                self (fst (direct_loop self (direct_init self) placed))
                subject f ts c).
Proof.
  unfold direct_solve. simpl.
  destruct (direct_loop_prefix self (direct_ordered_subjects self) (direct_init self))
    as (placed & rest & E & Hs & Ht & _ & Hp & Hr).
  exists placed, rest. repeat split; try assumption; apply Ht.
Qed.
End DirectExtras.

(** * The solving step of main and the rows of the schedule *)

Section MainExtras.
Import FacultyScheduler Main Examples.







Lemma display_row_direct e :
  display_row (direct_row e)
  = Some [PStr (faculty_name e); PStr (subject_name e);
          PStr (timeslot_day e); PStr (timeslot_time e);
          PStr (classroom_name e);
          PStr (if entry_has_lab e then "Yes" else "No")].
Proof. reflexivity. Qed.

(** X17. On the rows that [direct_solve] appends, the table of
    [display_schedule] has one line per entry, in order, with the two
    names, the day, the time, the classroom name and Yes or No for the
    lab; no key is missing. *)
Theorem display_rows_direct sched :
  display_rows (map direct_row sched)
  = Some (map (fun e => [PStr (faculty_name e); PStr (subject_name e);
                         PStr (timeslot_day e); PStr (timeslot_time e);
                         PStr (classroom_name e);
                         PStr (if entry_has_lab e then "Yes" else "No")])
              sched).
Proof.
  induction sched as [|e sched IH]; [reflexivity|].
  cbn [map display_rows]. now rewrite display_row_direct, IH.
Qed.

(** X18. On the rows that [_convert_solution_to_schedule] appends,
    [display_schedule] fails with the [KeyError] of [timeslot_day] as soon
    as the schedule is not empty: those rows keep the day under [day]. *)
Theorem display_rows_converted self solution :
  solution <> [] ->
  (forall e, PyDict.get "timeslot_day"%string (converted_row e) = None)
  /\ display_rows
       (map converted_row
            (schedule (_convert_solution_to_schedule self solution)))
     = None.
Proof.
  intros Hne. destruct solution as [|item rest]; [contradiction|].
  split; [intros e|]; reflexivity.
Qed.

Lemma display_rows_converted_witness :
  (forall e, PyDict.get "timeslot_day"%string (converted_row e) = None)
  /\ display_rows
       (map converted_row
            (schedule (_convert_solution_to_schedule demo demo_assignment)))
     = None.
Proof.
  apply (display_rows_converted demo demo_assignment). discriminate.
Defined.
End MainExtras.

(** * Preference satisfaction *)

Section SatisfactionExtras.
Import FacultyScheduler Main Examples.

Lemma for_each_raised {A S} (body : S -> A -> option S) items :
  fold_left
    (fun state x => match state with Some s => body s x | None => None end)
    items None
  = None.
Proof. induction items as [|x items IH]; simpl; auto. Qed.

Lemma for_each_cons {A S} (body : S -> A -> option S) x items init :
  for_each body (x :: items) init
  = match body init x with
    | Some s => for_each body items s
    | None => None
    end.
Proof.
  unfold for_each. simpl. destruct (body init x); [reflexivity|].
  apply for_each_raised.
Qed.

(** A loop over rows built from records, with a body that reads them
    without a [KeyError], is the plain loop over the records. *)
Lemma for_each_map {A B S} (g : B -> A) (body : S -> A -> option S)
    (step : S -> B -> S) l : forall init,
  (forall s x, body s (g x) = Some (step s x)) ->
  for_each body (map g l) init = Some (fold_left step l init).
Proof.
  induction l as [|x l IH]; intros init Hb; simpl; [reflexivity|].
  rewrite for_each_cons, Hb. now apply IH.
Qed.

Lemma group_append_get {K V} `{EqDec K} (key : K) (x : V) (d : dict K (list V)) k :
  PyDict.get k (group_append key x d)
  = if eq_dec k key
    then Some (match PyDict.get key d with Some l => l | None => [] end ++ [x])
    else PyDict.get k d.
Proof.
  unfold group_append, PyDict.mem.
  destruct (PyDict.get key d) as [l|] eqn:G.
  - rewrite G. destruct (eq_dec k key) as [E|N].
    + subst. now rewrite get_set_same.
    + now rewrite get_set_other.
  - rewrite get_set_same. destruct (eq_dec k key) as [E|N].
    + subst. now rewrite get_set_same.
    + now rewrite !get_set_other.
Qed.

Lemma group_append_keys {K V} `{EqDec K} (key : K) (x : V) (d : dict K (list V)) :
  NoDup (PyDict.keys d) -> NoDup (PyDict.keys (group_append key x d)).
Proof.
  intros ND. unfold group_append.
  destruct (PyDict.mem key d).
  - destruct (PyDict.get key d); [now apply NoDup_keys_set | assumption].
  - rewrite get_set_same. now apply NoDup_keys_set, NoDup_keys_set.
Qed.

(** Grouping by a key: the dictionary has, under each key that occurs, the
    values of the items with that key in their order. *)
Lemma group_fold {A K V} `{EqDec K} (key : A -> K) (val : A -> V) (l : list A) :
  forall (d : dict K (list V)) (seen : list A),
    NoDup (PyDict.keys d) ->
    (forall k, PyDict.get k d
               = match group_of key val seen k with
                 | [] => None
                 | g => Some g
                 end) ->
    let d' := fold_left (fun d x => group_append (key x) (val x) d) l d in
    NoDup (PyDict.keys d')
    /\ forall k, PyDict.get k d'
                 = match group_of key val (seen ++ l) k with
                   | [] => None
                   | g => Some g
                   end.
Proof.
  induction l as [|x l IH]; intros d seen ND R; simpl.
  - rewrite app_nil_r. now split.
  - replace (seen ++ x :: l) with ((seen ++ [x]) ++ l)
      by (now rewrite <- app_assoc).
    apply IH; [now apply group_append_keys|].
    intros k. rewrite group_append_get. unfold group_of in *.
    rewrite filter_app, map_app. simpl.
    destruct (eq_dec k (key x)) as [E|N].
    + subst k. rewrite eqb_refl. simpl. rewrite (R (key x)).
      destruct (map val (filter _ seen)); reflexivity.
    + assert (Eb : eqb (key x) k = false).
      { unfold eqb. destruct (eq_dec (key x) k); congruence. }
      rewrite Eb. simpl. rewrite app_nil_r. apply R.
Qed.

(** The rows grouped by faculty id, when every row has the key. *)
Lemma faculty_schedules_of_rows (as_row : Entry -> row) sched :
  (forall e, item_int "faculty_id" (as_row e) = Some (faculty_id e)) ->
  exists d,
    faculty_schedules_of (map as_row sched) = Some d
    /\ NoDup (PyDict.keys d)
    /\ forall i, PyDict.get i d
                 = match entries_of sched i with
                   | [] => None
                   | g => Some (map as_row g)
                   end.
Proof.
  intros Hk. unfold faculty_schedules_of.
  rewrite (for_each_map as_row _
             (fun d e => group_append (faculty_id e) (as_row e) d))
    by (intros d e; now rewrite Hk).
  eexists. split; [reflexivity|].
  destruct (group_fold faculty_id as_row sched PyDict.empty [])
    as [ND R]; [constructor | reflexivity |].
  split; [exact ND|]. intros i. rewrite (R i). simpl.
  unfold group_of, entries_of.
  rewrite (filter_ext (fun x => eqb (faculty_id x) i)
                      (fun e => faculty_id e =? i)).
  - now destruct (filter (fun e => faculty_id e =? i) sched).
  - intros e. unfold eqb. destruct (eq_dec (faculty_id e) i) as [E|N].
    + symmetry. now apply Z.eqb_eq.
    + symmetry. now apply Z.eqb_neq.
Qed.

(** The second loop, when no round raises. *)
Lemma satisfaction_loop self (d : dict Z (list row)) : forall acc,
  NoDup (PyDict.keys d) ->
  (forall k rows f, In (k, rows) d -> find_faculty self k = Some f ->
                    satisfaction_of self f rows <> None) ->
  exists result,
    for_each (analyze_faculty self) d acc = Some result
    /\ forall i, PyDict.get i result
                 = match PyDict.get i d, find_faculty self i with
                   | Some rows, Some f => satisfaction_of self f rows
                   | _, _ => PyDict.get i acc
                   end.
Proof.
  induction d as [|[k l] d IH]; intros acc ND Hs.
  - exists acc. split; [reflexivity|]. intros i. reflexivity.
  - inversion ND as [|? ? Hk ND']; subst.
    assert (G : PyDict.get k d = None) by now apply get_None_keys.
    rewrite for_each_cons. unfold analyze_faculty at 1. simpl fst. simpl snd.
    destruct (find_faculty self k) as [f|] eqn:F.
    + destruct (satisfaction_of self f l) as [st|] eqn:St.
      * destruct (IH (PyDict.set k st acc) ND') as (result & E & R).
        { intros k' rows f' I. apply Hs. now right. }
        exists result. split; [exact E|]. intros i. rewrite R. simpl.
        destruct (eq_dec i k) as [Ei|N].
        -- subst i. rewrite G, F. now rewrite get_set_same.
        -- destruct (PyDict.get i d) as [rows|].
           ++ destruct (find_faculty self i); [reflexivity|].
              now rewrite get_set_other.
           ++ now rewrite get_set_other.
      * exfalso. apply (Hs k l f); [now left | assumption | assumption].
    + destruct (IH acc ND') as (result & E & R).
      { intros k' rows f' I. apply Hs. now right. }
      exists result. split; [exact E|]. intros i. rewrite R. simpl.
      destruct (eq_dec i k) as [Ei|N]; [|reflexivity].
      subst i. now rewrite G, F.
Qed.

(** The second loop raises exactly when some round does. *)
Lemma satisfaction_loop_raises self (d : dict Z (list row)) : forall acc,
  for_each (analyze_faculty self) d acc = None
  <-> exists k rows f,
      In (k, rows) d /\ find_faculty self k = Some f
      /\ satisfaction_of self f rows = None.
Proof.
  induction d as [|[k l] d IH]; intros acc.
  - split; [discriminate | intros (k & rows & f & [] & _)].
  - rewrite for_each_cons. unfold analyze_faculty at 1. simpl fst. simpl snd.
    destruct (find_faculty self k) as [f|] eqn:F.
    + destruct (satisfaction_of self f l) as [st|] eqn:St.
      * rewrite IH. split.
        -- intros (k' & rows & f' & I & H). exists k', rows, f'.
           split; [now right | exact H].
        -- intros (k' & rows & f' & [E|I] & F' & S').
           ++ inversion E; subst. congruence.
           ++ exists k', rows, f'. tauto.
      * split; [|reflexivity]. intros _. exists k, l, f.
        split; [now left | tauto].
    + rewrite IH. split.
      * intros (k' & rows & f' & I & H). exists k', rows, f'.
        split; [now right | exact H].
      * intros (k' & rows & f' & [E|I] & F' & S').
        -- inversion E; subst. congruence.
        -- exists k', rows, f'. tauto.
Qed.

(** The three readings of the rows of [direct_solve]. *)
Lemma days_in_schedule_direct es :
  days_in_schedule (map direct_row es)
  = Some (fold_left (fun days e => set_add string_dec (timeslot_day e) days)
                    es (empty_set string)).
Proof. unfold days_in_schedule. apply for_each_map. reflexivity. Qed.

Lemma periods_in_schedule_direct self es :
  periods_in_schedule self (map direct_row es)
  = Some (fold_left
            (fun periods e =>
               match find_timeslot self (timeslot_id e) with
               | Some ts =>
                   if eqb (period ts) EmptyString then periods
                   else periods ++ [period ts]
               | None => periods
               end)
            es []).
Proof.
  unfold periods_in_schedule. apply for_each_map. intros periods e.
  cbv beta.
  change (item_int "timeslot_id" (direct_row e)) with (Some (timeslot_id e)).
  cbv iota.
  destruct (find_timeslot self (timeslot_id e)) as [ts|]; [|reflexivity].
  now destruct (eqb (period ts) EmptyString).
Qed.

Lemma classes_by_day_of_direct es :
  classes_by_day_of (map direct_row es)
  = Some (fold_left
            (fun d e => group_append (timeslot_day e) (timeslot_id e) d)
            es PyDict.empty).
Proof. unfold classes_by_day_of. apply for_each_map. reflexivity. Qed.

Lemma satisfaction_of_direct self f es :
  exists stats,
    satisfaction_of self f (map direct_row es) = Some stats
    /\ consecutive_satisfied stats
       = (let has :=
            has_consecutive
              (fold_left
                 (fun d e => group_append (timeslot_day e) (timeslot_id e) d)
                 es PyDict.empty) in
          if (consecutive_classes_preference f >? 0) && negb has then false
          else if (consecutive_classes_preference f <? 0) && has then false
          else true).
Proof.
  unfold satisfaction_of.
  rewrite days_in_schedule_direct, periods_in_schedule_direct,
    classes_by_day_of_direct.
  eexists. split; reflexivity.
Qed.

(** A row of [_convert_solution_to_schedule] has no key [timeslot_day]. *)
Lemma satisfaction_of_converted self f e es :
  satisfaction_of self f (map converted_row (e :: es)) = None.
Proof.
  unfold satisfaction_of, days_in_schedule. simpl map.
  now rewrite for_each_cons.
Qed.

(** X19. On a schedule of the rows of [direct_solve],
    [calculate_preference_satisfaction] returns, and its result has an
    entry for a faculty id exactly when the schedule has a class of that id
    and the faculty table a record with it; the statistics are those of
    the classes of that id, in their order in the schedule. *)
Theorem calculate_preference_satisfaction_get self sched :
  exists satisfaction,
    calculate_preference_satisfaction self (map direct_row sched)
    = Some satisfaction
    /\ (forall i,
          PyDict.get i satisfaction
          = match entries_of sched i, find_faculty self i with
            | _ :: _, Some f =>
                satisfaction_of self f (map direct_row (entries_of sched i))
            | _, _ => None
            end)
    /\ (forall f entries,
          exists stats,
            satisfaction_of self f (map direct_row entries) = Some stats).
Proof.
  unfold calculate_preference_satisfaction.
  destruct (faculty_schedules_of_rows direct_row sched) as (d & E & ND & G);
    [reflexivity|].
  rewrite E. unfold PyDict.items.
  assert (Hd : forall f entries,
             exists stats,
               satisfaction_of self f (map direct_row entries) = Some stats).
  { intros f entries.
    destruct (satisfaction_of_direct self f entries) as (stats & S & _). eauto. }
  destruct (satisfaction_loop self d PyDict.empty ND) as (result & R & Hr).
  { intros k rows f I F. apply (In_get_unique _ _ _ ND) in I.
    rewrite G in I. destruct (entries_of sched k) as [|e g]; [discriminate|].
    assert (Er : rows = map direct_row (e :: g)) by congruence.
    destruct (Hd f (e :: g)) as [stats S]. rewrite Er, S. discriminate. }
  exists result. split; [exact R|]. split; [|exact Hd].
  intros i. rewrite Hr, G.
  destruct (entries_of sched i); [reflexivity|].
  now destruct (find_faculty self i).
Qed.

Lemma insert_sorted_Z x l :
  StronglySorted Z.le l ->
  StronglySorted Z.le (insert_sorted (fun y x => y <? x) x l).
Proof.
  induction 1 as [|y l Hs IH Hall]; simpl.
  - repeat constructor.
  - destruct (y <? x) eqn:C.
    + apply Z.ltb_lt in C. constructor; [assumption|].
      rewrite Forall_forall in *. intros z Iz.
      apply (Permutation_in z (Permutation_sym
               (insert_sorted_perm (fun y x => y <? x) x l))) in Iz.
      destruct Iz as [E|Iz]; [subst; lia | auto].
    + apply Z.ltb_ge in C. constructor; [now constructor|].
      constructor; [assumption|]. rewrite Forall_forall in *.
      intros z Iz. specialize (Hall z Iz). lia.
Qed.

Lemma py_sorted_Z l : StronglySorted Z.le (py_sorted (fun y x => y <? x) l).
Proof.
  induction l as [|x l IH]; simpl; [constructor | now apply insert_sorted_Z].
Qed.

(** In an increasing list a step of 1 between neighbours exists exactly
    when two elements differ by 1. *)
Lemma has_step_iff l :
  StronglySorted Z.le l ->
  has_step l = true <-> exists x y, In x l /\ In y l /\ y - x = 1.
Proof.
  induction 1 as [|a l Hs IH Hall]; simpl.
  - split; [discriminate | intros (x & _ & [] & _)].
  - destruct l as [|b l'].
    + split; [discriminate|]. intros (x & y & [Ex|[]] & [Ey|[]] & D). lia.
    + rewrite orb_true_iff, IH, Z.eqb_eq. clear IH.
      rewrite Forall_forall in Hall. split.
      * intros [D|(x & y & Ix & Iy & D)].
        -- exists a, b. simpl. auto.
        -- exists x, y. simpl in *. tauto.
      * intros (x & y & Ix & Iy & D).
        destruct (Z.eq_dec (b - a) 1) as [E|N]; [now left|]. right.
        assert (Hb : a <= b) by (apply Hall; now left).
        inversion Hs as [|? ? _ Hall']; subst. rewrite Forall_forall in Hall'.
        assert (Iy' : In y (b :: l')).
        { destruct Iy as [E|I]; [|exact I]. subst y.
          destruct Ix as [E|I]; [lia|]. specialize (Hall x I). lia. }
        assert (Ix' : In x (b :: l')).
        { destruct Ix as [E|I]; [|exact I]. subst x.
          destruct Iy' as [E|I]; [lia|].
          specialize (Hall' y I).
          assert (b = a) by lia. subst b. now left. }
        exists x, y. auto.
Qed.

Lemma classes_by_day_get entries d :
  let classes_by_day :=
    fold_left (fun d e => group_append (timeslot_day e) (timeslot_id e) d)
              entries PyDict.empty in
  NoDup (PyDict.keys classes_by_day)
  /\ PyDict.get d classes_by_day
     = match group_of timeslot_day timeslot_id entries d with
       | [] => None
       | g => Some g
       end.
Proof.
  destruct (group_fold timeslot_day timeslot_id entries PyDict.empty [])
    as [ND R]; [constructor | reflexivity |].
  split; [exact ND | apply R].
Qed.

Lemma has_consecutive_iff entries :
  has_consecutive
    (fold_left (fun d e => group_append (timeslot_day e) (timeslot_id e) d)
               entries PyDict.empty)
  = true
  <-> back_to_back entries.
Proof.
  unfold has_consecutive, back_to_back, PyDict.items.
  rewrite existsb_exists. split.
  - intros ([d ids] & I & H). simpl in H.
    destruct (length ids <? 2)%nat; [discriminate|].
    apply has_step_iff in H; [|apply py_sorted_Z].
    destruct H as (x & y & Ix & Iy & D).
    apply py_sorted_In in Ix, Iy.
    destruct (classes_by_day_get entries d) as [ND G].
    rewrite (In_get_unique _ _ _ ND I) in G.
    destruct (group_of timeslot_day timeslot_id entries d) as [|g0 g] eqn:Eg;
      [discriminate|].
    inversion G; subst ids. rewrite <- Eg in Ix, Iy.
    unfold group_of in Ix, Iy. apply in_map_iff in Ix, Iy.
    destruct Ix as (e1 & E1 & I1), Iy as (e2 & E2 & I2).
    apply filter_In in I1, I2. destruct I1 as [I1 D1], I2 as [I2 D2].
    apply eqb_true_iff in D1, D2.
    exists e1, e2. repeat split; try assumption; congruence.
  - intros (e1 & e2 & I1 & I2 & Ed & D).
    set (d := timeslot_day e1).
    destruct (classes_by_day_get entries d) as [ND G].
    assert (Hin : forall e, In e entries -> timeslot_day e = d ->
                  In (timeslot_id e) (group_of timeslot_day timeslot_id entries d)).
    { intros e I E. unfold group_of. apply in_map. apply filter_In.
      split; [assumption | now apply eqb_true_iff]. }
    pose proof (Hin e1 I1 eq_refl) as H1.
    pose proof (Hin e2 I2 (eq_sym Ed)) as H2.
    destruct (group_of timeslot_day timeslot_id entries d) as [|g0 g] eqn:Eg;
      [destruct H1|].
    exists (d, g0 :: g). split; [now apply get_Some_In|]. simpl snd.
    assert (Hstep : has_step (py_sorted (fun y x => y <? x) (g0 :: g)) = true).
    { apply has_step_iff; [apply py_sorted_Z|].
      exists (timeslot_id e1), (timeslot_id e2).
      repeat split; try assumption; now apply py_sorted_In. }
    destruct (length (g0 :: g) <? 2)%nat eqn:Len; [|exact Hstep].
    exfalso. apply Nat.ltb_lt in Len. simpl in Len.
    destruct g as [|g1 g]; [|simpl in Len; lia].
    destruct H1 as [E1|[]], H2 as [E2|[]]. lia.
Qed.

(** X20. On the rows of [direct_solve] the statistics of a faculty are
    computed, and its consecutive-classes preference counts as not
    satisfied exactly when the preference is positive and no two of its
    classes are on the same day at timeslot ids that differ by 1, or the
    preference is negative and two of them are. *)
Theorem consecutive_satisfied_iff self f entries :
  exists stats,
    satisfaction_of self f (map direct_row entries) = Some stats
    /\ (consecutive_satisfied stats = false
        <-> (consecutive_classes_preference f > 0 /\ ~ back_to_back entries)
            \/ (consecutive_classes_preference f < 0 /\ back_to_back entries)).
Proof.
  destruct (satisfaction_of_direct self f entries) as (stats & S & C).
  exists stats. split; [exact S|]. rewrite C. cbv zeta.
  rewrite <- has_consecutive_iff.
  destruct (has_consecutive _); simpl;
    rewrite ?andb_false_r, ?andb_true_r.
  - destruct (consecutive_classes_preference f <? 0) eqn:L.
    + apply Z.ltb_lt in L. split; [now right | reflexivity].
    + apply Z.ltb_ge in L. split; [discriminate|].
      intros [[_ N]|[L' _]]; [now contradiction N | lia].
  - destruct (consecutive_classes_preference f >? 0) eqn:L.
    + apply Z.gtb_lt in L. split; [|reflexivity].
      intros _. left. split; [lia | discriminate].
    + rewrite Z.gtb_ltb in L. apply Z.ltb_ge in L. split; [discriminate|].
      intros [[G _]|[_ D]]; [lia | discriminate].
Qed.

(** X25. On a schedule of the rows of [_convert_solution_to_schedule],
    [calculate_preference_satisfaction] fails with the [KeyError] of
    [timeslot_day] exactly when some class has a faculty id with a record
    in the faculty table; otherwise every faculty id is skipped. *)
Theorem calculate_preference_satisfaction_converted self sched :
  calculate_preference_satisfaction self (map converted_row sched) = None
  <-> exists e, In e sched /\ find_faculty self (faculty_id e) <> None.
Proof.
  unfold calculate_preference_satisfaction.
  destruct (faculty_schedules_of_rows converted_row sched) as (d & E & ND & G);
    [reflexivity|].
  rewrite E. unfold PyDict.items. rewrite satisfaction_loop_raises. split.
  - intros (k & rows & f & I & F & _).
    apply (In_get_unique _ _ _ ND) in I. rewrite G in I.
    destruct (entries_of sched k) as [|e g] eqn:Ek; [discriminate|].
    assert (Ie : In e (entries_of sched k)) by (rewrite Ek; now left).
    apply filter_In in Ie. destruct Ie as [Ie Ef]. apply Z.eqb_eq in Ef.
    exists e. split; [exact Ie|]. rewrite Ef, F. discriminate.
  - intros (e & Ie & F).
    destruct (find_faculty self (faculty_id e)) as [f|] eqn:Ff;
      [|now contradiction F].
    assert (Ig : In e (entries_of sched (faculty_id e))).
    { apply filter_In. split; [exact Ie | apply Z.eqb_refl]. }
    specialize (G (faculty_id e)).
    destruct (entries_of sched (faculty_id e)) as [|e0 g]; [destruct Ig|].
    exists (faculty_id e), (map converted_row (e0 :: g)), f.
    split; [now apply get_Some_In|]. split; [exact Ff|].
    apply satisfaction_of_converted.
Qed.
End SatisfactionExtras.

(** * Recursion depth, tie-breaks and pre-assignments *)

Section SearchExtras.
Import CSPSolver Examples.

Lemma try_values_mono rec rec' var values : forall s r,
  (forall s1 r1, rec s1 = Some r1 -> rec' s1 = Some r1) ->
  try_values rec var values s = Some r ->
  try_values rec' var values s = Some r.
Proof.
  induction values as [|val rest IH]; intros s r Hmono; simpl; [auto|].
  destruct (is_consistent s var val (assignment s) && forward_check s var val);
    [|now apply IH].
  destruct (rec _) as [[s2 [result|]]|] eqn:R; try discriminate.
  - rewrite (Hmono _ _ R). auto.
  - rewrite (Hmono _ _ R). now apply IH.
Qed.

Lemma backtrack_mono fuel : forall s r,
  backtrack fuel s = Some r -> backtrack (S fuel) s = Some r.
Proof.
  induction fuel as [|fuel IH]; intros s r; [discriminate|].
  intros E. simpl in E. cbn [backtrack].
  destruct (Nat.eqb _ _); [exact E|].
  destruct (select_unassigned_variable s) as [var|]; [|exact E].
  apply (try_values_mono (backtrack fuel)); assumption.
Qed.

Lemma backtrack_mono_le fuel fuel' s r :
  (fuel <= fuel')%nat -> backtrack fuel s = Some r -> backtrack fuel' s = Some r.
Proof.
  induction 1 as [|m Hle IH]; [auto|]. intros E. now apply backtrack_mono, IH.
Qed.

(** X21. [backtrack] returns within a recursion depth of the number of
    unassigned variables plus one, and a larger depth changes nothing. *)
Theorem backtrack_depth_bound s fuel :
  (length (unassigned s) < fuel)%nat ->
  exists r,
    backtrack (S (length (unassigned s))) s = Some r
    /\ backtrack fuel s = Some r.
Proof.
  intros Hlt.
  destruct (backtrack_total (S (length (unassigned s))) s) as [r E]; [lia|].
  exists r. split; [exact E|].
  apply (backtrack_mono_le (S (length (unassigned s)))); [lia | exact E].
Qed.

Lemma backtrack_depth_bound_witness :
  exists r,
    backtrack (S (length (unassigned demo_engine))) demo_engine = Some r
    /\ backtrack 10 demo_engine = Some r.
Proof.
  apply (backtrack_depth_bound demo_engine 10). vm_compute. lia.
Defined.





End SearchExtras.

Section PreAssignmentExtras.
Import FacultyScheduler Examples.

Lemma solve_hybrid_unfold self :
  solve_hybrid self
  = match CSPSolver.solve (solver self) with
    | None => None
    | Some (s, None) => Some (set_solver self s, false)
    | Some (s, Some solution) =>
        Some (_convert_solution_to_schedule (set_solver self s) solution, true)
    end.
Proof. reflexivity. Qed.

(** X23. The pre-assignments of [solve] never change its outcome: with any
    dictionary of pre-assignments the call returns what it returns without
    them, the same flag, schedule and engine. *)
Theorem solve_ignores_pre_assignments self pre :
  solve self pre = solve self None.
Proof.
  unfold solve. destruct pre as [[|item more]|]; try reflexivity.
  cbv zeta. rewrite solve_hybrid_unfold.
  change (CSPSolver.solve
            (solver (set_solver (setup_csp self)
                       (CSPSolver.set_assignment (solver (setup_csp self))
                                                 (item :: more)))))
    with (CSPSolver.solve (solver (setup_csp self))).
  destruct (CSPSolver.solve (solver (setup_csp self)))
    as [[s' [solution|]]|] eqn:E; try reflexivity.
  rewrite solve_hybrid_unfold.
  assert (Es : s' = CSPSolver.set_assignment (solver (setup_csp self)) PyDict.empty).
  { unfold CSPSolver.solve in E. now apply backtrack_restores in E. }
  subst s'.
  change (CSPSolver.solve _) with (CSPSolver.solve (solver (setup_csp self))).
  rewrite E. reflexivity.
Qed.

(** X24. For a well-formed instance [setup_csp] registers no variable
    twice, gives every registered variable a non-empty domain, and
    registers at most one variable per subject and timeslot. *)
Theorem setup_csp_registers_once self :
  well_formed self ->
  NoDup (CSPSolver.variables (solver (setup_csp self)))
  /\ (forall var, In var (CSPSolver.variables (solver (setup_csp self))) ->
        PyDict.mem var (CSPSolver.domains (solver (setup_csp self))) = true
        /\ CSPSolver.domain_of (solver (setup_csp self)) var <> [])
  /\ (length (CSPSolver.variables (solver (setup_csp self)))
      <= length (subjects self) * length (timeslots self))%nat.
Proof.
  intros WF. split; [now apply setup_csp_variables_NoDup|]. split.
  - intros var I.
    destruct (setup_csp_solver self)
      as (s0 & (_ & _ & Hd & Hr) & _ & _ & _ & _ & _ & Ev0 & Ed0 & _ & _).
    rewrite Ev0 in I. destruct (Hr _ I) as [vals G].
    unfold CSPSolver.domain_of. rewrite Ed0. split.
    + apply mem_get. eauto.
    + rewrite G. apply get_Some_In in G.
      destruct (Hd _ _ G) as (_ & _ & _ & _ & _ & _ & Ne). exact Ne.
  - rewrite setup_csp_variables. unfold registered_pairs.
    assert (Hlen : forall subs,
               (length (flat_map
                  (fun subject =>
                     map (fun ts => (s_id subject, t_id ts))
                         (filter (fun ts => match sorted_values self subject ts with
                                            | [] => false
                                            | _ => true
                                            end) (timeslots self))) subs)
                <= length subs * length (timeslots self))%nat).
    { induction subs as [|x subs IH]; simpl; [lia|].
      rewrite length_app, length_map.
      pose proof (filter_length_le
                    (fun ts => match sorted_values self x ts with
                               | [] => false
                               | _ => true
                               end) (timeslots self)).
      lia. }
    eapply Nat.le_trans; [apply Hlen|].
    apply Nat.mul_le_mono_r.
    unfold ordered_subjects. rewrite length_app.
    assert (Hf : forall l : list Subject,
               (length (filter (fun s => (lab_hours s >? 0)%Z) l)
                + length (filter (fun s => (lab_hours s =? 0)%Z) l)
                <= length l)%nat).
    { induction l as [|x l IH]; simpl; [lia|].
      destruct (lab_hours x >? 0)%Z eqn:G, (lab_hours x =? 0)%Z eqn:Z0;
        simpl; lia. }
    apply Hf.
Qed.

Lemma setup_csp_registers_once_witness :
  NoDup (CSPSolver.variables (solver (setup_csp demo)))
  /\ (forall var, In var (CSPSolver.variables (solver (setup_csp demo))) ->
        PyDict.mem var (CSPSolver.domains (solver (setup_csp demo))) = true
        /\ CSPSolver.domain_of (solver (setup_csp demo)) var <> [])
  /\ (length (CSPSolver.variables (solver (setup_csp demo)))
      <= length (subjects demo) * length (timeslots demo))%nat.
Proof.
  apply (setup_csp_registers_once demo). exact demo_well_formed.
Defined.
End PreAssignmentExtras.
